(** * Habit tracker backend: streak engine and habit aggregator

    A shallow embedding of [src/services/habitService.js] (class
    [HabitService]) together with the part of the relational schema
    ([habits], [habit_completions]) that the service reads and writes.

    Conventions of the embedding.
    - A calendar date (the SQL [DATE] column [completion_date], the JS string
      ['YYYY-MM-DD']) is its day number, an integer of [Z] counting days from
      1970-01-01.  [new Date('YYYY-MM-DD')] is midnight UTC of that day, so
      [getTime] is the day number times 86400000.
    - An instant (a JS [Date] built from an ISO-8601 timestamp) is its number
      of milliseconds since the epoch; [toISOString().split('T')[0]] is the
      UTC calendar day of the instant.
    - The wall clock ([new Date()]) is an explicit argument of every
      operation that reads it.  [computeStreaksIn], [updateHabitStreaksIn],
      [toggleHabitCompletionIn] and [getUserHabitsIn] take the instant [now]
      of the clock and the process time zone, in which
      [setDate(getDate() - 1)] steps back one local day.  [computeStreaks],
      [updateHabitStreaks], [toggleHabitCompletion] and [getUserHabits] take
      the UTC day [today] of the clock and count in calendar days; this is
      what the former do in a zone of fixed offset, UTC among them (lemmas
      [computeStreaksIn_fixed], [toggleIn_fixed], [getUserHabitsIn_eq]).
    - Within one call every reading of the clock gives the same instant.
    - The clock and the stored dates lie well inside the range of [Date]
      (8.64e15 ms either side of the epoch); the start of the window of
      [getUserHabitsIn], which the caller's [days] can move anywhere, is
      clipped to that range as [setDate] does.
    - JS numbers that count days or streaks are integers of [Z].
    - [throw new Error(msg)] is the [Err msg] outcome of an error monad; the
      store is threaded explicitly.
    - The Supabase client is modelled by what its requests do to the two
      tables under the schema of [database_migration.sql]: the primary keys,
      [habit_id REFERENCES habits(id)] and
      [UNIQUE(habit_id, completion_date)].  Requests fail only by violating
      a constraint or by [.single()] not finding exactly one row.  UUIDs
      are natural numbers.  The columns [description], [updated_at] (which
      a trigger rewrites on every update of a habit) and the completions'
      [created_at] are not represented: no method modelled reads them.  The
      [users] table is not represented either, and with it
      [user_id REFERENCES users(id)]: the caller is taken to be a stored
      user, as the authenticated caller of the routes is. *)

From Stdlib Require Import ZArith List Bool Lia String Ascii.
From Stdlib Require Import Sorting.Permutation Sorting.Sorted.
Import ListNotations.
Local Open Scope Z_scope.

(** ** Dates *)

Definition msPerDay : Z := 1000 * 60 * 60 * 24.

(** [new Date(dateStr).getTime()] for a calendar date. *)
Definition getTime (day : Z) : Z := day * msPerDay.

(** [new Date(date).toISOString().split('T')[0]] for an instant. *)
Definition toISODate (ms : Z) : Z := ms / msPerDay.

(** ** Array helpers *)

(** [Array.prototype.sort(compareFn)]: a stable sort; [compareFn a b < 0]
    (or [= 0]) keeps [a] before [b].  Modelled by a stable insertion sort. *)
Fixpoint insert_by {A : Type} (compareFn : A -> A -> Z) (x : A) (l : list A)
  : list A :=
  match l with
  | [] => [x]
  | y :: l' =>
      if compareFn x y <=? 0 then x :: y :: l'
      else y :: insert_by compareFn x l'
  end.

Definition sort_by {A : Type} (compareFn : A -> A -> Z) (l : list A) : list A :=
  fold_right (insert_by compareFn) [] l.

(** [Array.prototype.includes] on date strings. *)
Definition includes (d : Z) (l : list Z) : bool := existsb (Z.eqb d) l.

(** [Array.prototype.find]. *)
Definition find_first {A : Type} (p : A -> bool) (l : list A) : option A :=
  List.find p l.

(** ** Streak engine (the pure part of [updateHabitStreaks]) *)

(** [(a, b) => new Date(b) - new Date(a)]: newest first. *)
Definition cmp_desc (a b : Z) : Z := getTime b - getTime a.

(** [(a, b) => a - b] on [Date] objects: oldest first. *)
Definition cmp_asc (a b : Z) : Z := getTime a - getTime b.

(** The [for (const dateStr of sortedDates)] loop of the current streak:
    [checkDate] is the expected day, [currentStreak] the count so far; the
    loop stops ([break]) at the first date that is not the expected one. *)
Fixpoint current_loop (sortedDates : list Z) (checkDate currentStreak : Z) : Z :=
  match sortedDates with
  | [] => currentStreak
  | dateStr :: rest =>
      if getTime dateStr =? getTime checkDate
      then current_loop rest (checkDate - 1) (currentStreak + 1)
      else currentStreak
  end.

(** [(currDate - prevDate) / (1000 * 60 * 60 * 24) === 1]: both operands are
    whole multiples of a day, so the quotient is 1 exactly when the
    difference is one day. *)
Definition dayDiff_is_1 (prevDate currDate : Z) : bool :=
  getTime currDate - getTime prevDate =? msPerDay.

(** The [for (let i = 0; ...)] loop of the longest streak.  [prev] is
    [allDates[i - 1]], [None] exactly when [i === 0]; the state is
    [(longestStreak, tempStreak)]. *)
Fixpoint longest_loop (prev : option Z) (allDates : list Z)
    (longestStreak tempStreak : Z) : Z * Z :=
  match allDates with
  | [] => (longestStreak, tempStreak)
  | currDate :: rest =>
      match prev with
      | None => longest_loop (Some currDate) rest longestStreak 1
      | Some prevDate =>
          if dayDiff_is_1 prevDate currDate
          then longest_loop (Some currDate) rest longestStreak (tempStreak + 1)
          else longest_loop (Some currDate) rest
                 (Z.max longestStreak tempStreak) 1
      end
  end.

Record streaks : Type := mkStreaks {
  currentStreak : Z;
  longestStreak : Z
}.

(** Lines 283-333 of the service: [dates] are the [completion_date]s of the
    fetched rows (those with [completed = true]), [today] the clock. *)
Definition computeStreaks (dates : list Z) (today : Z) : streaks :=
  match dates with
  | [] => mkStreaks 0 0
  | _ :: _ =>
      let yesterdayStr := today - 1 in
      let sortedDates := sort_by cmp_desc dates in
      let current :=
        if includes today sortedDates || includes yesterdayStr sortedDates
        then current_loop sortedDates
               (if includes today sortedDates then today else yesterdayStr) 0
        else 0 in
      let allDates := sort_by cmp_asc dates in
      let '(longest, temp) := longest_loop None allDates 0 0 in
      mkStreaks current (Z.max longest temp)
  end.

(** ** Outcomes *)

(** A Supabase response [{ data, error }]. *)
Inductive response (A : Type) : Type :=
| Data (a : A)
| Error (message : string).
Arguments Data {A} a.
Arguments Error {A} message.

(** The [data] field: [null] when the request failed. *)
Definition data {A : Type} (r : response A) : option A :=
  match r with
  | Data a => Some a
  | Error _ => None
  end.

(** The outcome of a service method: a value, or a thrown [Error]. *)
Inductive result (A : Type) : Type :=
| Ok (a : A)
| Err (message : string).
Arguments Ok {A} a.
Arguments Err {A} message.

(** ** The store: tables [habits] and [habit_completions] *)

Module Habit.
Record t : Type := mk {
  id : nat;
  user_id : nat;
  title : string;
  category : option string;
  is_archived : bool;
  current_streak : Z;
  longest_streak : Z;
  created_at : Z
}.
End Habit.

Module Completion.
Record t : Type := mk {
  id : nat;
  habit_id : nat;
  user_id : nat;
  completion_date : Z;
  completed : bool
}.
End Completion.

Record database : Type := mkDb {
  habits : list Habit.t;
  habit_completions : list Completion.t
}.

(** A service method: reads the store, returns an outcome and the store it
    leaves behind (a throw does not undo earlier writes). *)
Definition M (A : Type) : Type := database -> result A * database.

Definition ret {A : Type} (a : A) : M A := fun db => (Ok a, db).

Definition throw {A : Type} (message : string) : M A :=
  fun db => (Err message, db).

Definition bind {A B : Type} (m : M A) (k : A -> M B) : M B :=
  fun db =>
    match m db with
    | (Ok a, db1) => k a db1
    | (Err message, db1) => (Err message, db1)
    end.

(** [await] of a store request. *)
Definition await {A : Type} (q : database -> response A * database)
  : M (response A) :=
  fun db => let '(r, db1) := q db in (Ok r, db1).

Declare Scope service_scope.
Delimit Scope service_scope with service.
Notation "x <- m ;; k" := (bind m (fun x => k))
  (at level 61, m at next level, right associativity) : service_scope.
Notation "m ;;; k" := (bind m (fun _ => k))
  (at level 61, right associativity) : service_scope.

(** [.single()]: the one row of the answer, an error for any other count. *)
Definition single {A : Type} (rows : list A) : response A :=
  match rows with
  | [row] => Data row
  | _ => Error "JSON object requested, multiple (or no) rows returned"
  end.

(** [.order(column, { ascending })] with a three-way comparison of the
    column. *)
Definition order_rows {A : Type} (compare_col : A -> A -> Z) (ascending : bool)
    (rows : list A) : list A :=
  sort_by (fun a b => if ascending then compare_col a b else compare_col b a)
    rows.

Definition compare_Z (a b : Z) : Z :=
  match a ?= b with
  | Lt => -1
  | Eq => 0
  | Gt => 1
  end.

Definition compare_string (a b : string) : Z :=
  match String.compare a b with
  | Lt => -1
  | Eq => 0
  | Gt => 1
  end.

Definition by_completion_date (a b : Completion.t) : Z :=
  compare_Z (Completion.completion_date a) (Completion.completion_date b).

(** [.eq('habit_id', habitId).eq('completion_date', completionDate)] *)
Definition same_key (habitId : nat) (completionDate : Z) (c : Completion.t)
  : bool :=
  (Completion.habit_id c =? habitId)%nat
  && (Completion.completion_date c =? completionDate).

(** [.eq('id', id)] *)
Definition has_id (id : nat) (c : Completion.t) : bool :=
  (Completion.id c =? id)%nat.

(** [.eq('habit_id', habitId).eq('completed', true)] *)
Definition completed_of (habitId : nat) (c : Completion.t) : bool :=
  (Completion.habit_id c =? habitId)%nat
  && Bool.eqb (Completion.completed c) true.

(** [from('habit_completions').select('*').eq('habit_id', habitId)
      .eq('completion_date', completionDate).single()] *)
Definition select_completion (habitId : nat) (completionDate : Z)
    (db : database) : response Completion.t * database :=
  (single (filter (same_key habitId completionDate) (habit_completions db)),
   db).

Definition set_completed (completed : bool) (c : Completion.t) : Completion.t :=
  Completion.mk (Completion.id c) (Completion.habit_id c)
    (Completion.user_id c) (Completion.completion_date c) completed.

(** [from('habit_completions').update({ completed }).eq('id', id).select()
      .single()]: the write is kept only when exactly one row is returned. *)
Definition update_completion (id : nat) (completed : bool) (db : database)
  : response Completion.t * database :=
  match single (map (set_completed completed)
                  (filter (has_id id) (habit_completions db))) with
  | Data row =>
      (Data row,
       mkDb (habits db)
         (map (fun c => if has_id id c then set_completed completed c else c)
            (habit_completions db)))
  | Error message => (Error message, db)
  end.

(** [gen_random_uuid()]: an identifier no row of the table carries. *)
Definition fresh_id (rows : list Completion.t) : nat :=
  S (list_max (map Completion.id rows)).

(** [from('habit_completions').insert({ habit_id, user_id, completion_date,
      completed }).select().single()], under the constraints of the schema:
    [habit_id REFERENCES habits(id)] and [UNIQUE(habit_id, completion_date)]. *)
Definition insert_completion (habitId userId : nat) (completionDate : Z)
    (completed : bool) (db : database) : response Completion.t * database :=
  if negb (existsb (fun h => (Habit.id h =? habitId)%nat) (habits db))
  then (Error "violates foreign key constraint", db)
  else if existsb (same_key habitId completionDate) (habit_completions db)
  then (Error "duplicate key value violates unique constraint", db)
  else
    let row := Completion.mk (fresh_id (habit_completions db)) habitId userId
                 completionDate completed in
    (Data row, mkDb (habits db) (habit_completions db ++ [row])).

(** [from('habit_completions').select('completion_date, completed')
      .eq('habit_id', habitId).eq('completed', true)
      .order('completion_date', { ascending: false })] *)
Definition select_completed (habitId : nat) (db : database)
  : response (list Completion.t) * database :=
  (Data (order_rows by_completion_date false
           (filter (completed_of habitId) (habit_completions db))),
   db).

Definition set_streaks (s : streaks) (h : Habit.t) : Habit.t :=
  Habit.mk (Habit.id h) (Habit.user_id h) (Habit.title h) (Habit.category h)
    (Habit.is_archived h) (currentStreak s) (longestStreak s)
    (Habit.created_at h).

(** [from('habits').update({ current_streak, longest_streak })
      .eq('id', habitId)] *)
Definition update_streaks (habitId : nat) (s : streaks) (db : database)
  : response unit * database :=
  (Data tt,
   mkDb (map (fun h => if (Habit.id h =? habitId)%nat then set_streaks s h
                       else h)
           (habits db))
     (habit_completions db)).

(** ** [updateHabitStreaks] and [toggleHabitCompletion] *)

Local Open Scope service_scope.
Local Open Scope string_scope.

Definition updateHabitStreaks (habitId : nat) (today : Z) : M streaks :=
  r <- await (select_completed habitId) ;;
  match r with
  | Error message =>
      throw ("Failed to fetch completions for streak calculation: " ++ message)
  | Data completions =>
      let s := computeStreaks (map Completion.completion_date completions)
                 today in
      u <- await (update_streaks habitId s) ;;
      match u with
      | Error message => throw ("Failed to update streaks: " ++ message)
      | Data _ => ret s
      end
  end.

(** [date] is the instant of the request's (validated) ISO-8601 date. *)
Definition toggleHabitCompletion (habitId userId : nat) (date : Z)
    (completed : bool) (today : Z) : M Completion.t :=
  let completionDate := toISODate date in
  existing <- await (select_completion habitId completionDate) ;;
  result <-
    match data existing with
    | Some existingCompletion =>
        r <- await (update_completion (Completion.id existingCompletion)
                      completed) ;;
        match r with
        | Error message => throw ("Failed to update completion: " ++ message)
        | Data row => ret row
        end
    | None =>
        r <- await (insert_completion habitId userId completionDate
                      completed) ;;
        match r with
        | Error message => throw ("Failed to create completion: " ++ message)
        | Data row => ret row
        end
    end ;;
  updateHabitStreaks habitId today ;;;
  ret result.

Close Scope string_scope.

(** ** [getUserHabits] *)

Module Filter.
Record t : Type := mk {
  category : option string;
  is_archived : option bool;
  completed_today : option bool
}.
End Filter.

Module Options.
Record t : Type := mk {
  days : Z;
  filter : Filter.t;
  sortBy : string;
  sortOrder : string
}.
End Options.

(** The defaults of the destructuring assignment at the head of the method. *)
Definition default_options : Options.t :=
  Options.mk 14 (Filter.mk None None None) "created_at"%string "desc"%string.

(** [{ ...habit, recent_completions }] *)
Record habit_view : Type := mkView {
  habit : Habit.t;
  recent_completions : list Completion.t
}.

Inductive sort_column : Type :=
| ColTitle
| ColCurrentStreak
| ColCreatedAt.

(** The [switch (sortBy)]: ['created_at'] shares its branch with [default]. *)
Definition sort_column_of (sortBy : string) : sort_column :=
  if (sortBy =? "title")%string then ColTitle
  else if (sortBy =? "current_streak")%string then ColCurrentStreak
  else ColCreatedAt.

Definition compare_column (col : sort_column) (a b : Habit.t) : Z :=
  match col with
  | ColTitle => compare_string (Habit.title a) (Habit.title b)
  | ColCurrentStreak =>
      compare_Z (Habit.current_streak a) (Habit.current_streak b)
  | ColCreatedAt => compare_Z (Habit.created_at a) (Habit.created_at b)
  end.

(** [if (filter.category)]: an empty string is falsy. *)
Definition truthy_string (s : option string) : option string :=
  match s with
  | Some EmptyString => None
  | other => other
  end.

(** [from('habits').select('*').eq('user_id', userId)] with the optional
    [.eq('category', ...)], [.eq('is_archived', ...)] and the [.order]. *)
Definition select_habits (userId : nat) (f : Filter.t) (col : sort_column)
    (ascending : bool) (db : database) : response (list Habit.t) * database :=
  let by_user := fun h => (Habit.user_id h =? userId)%nat in
  let by_category := fun h =>
    match truthy_string (Filter.category f) with
    | Some c =>
        match Habit.category h with
        | Some c' => (c' =? c)%string
        | None => false
        end
    | None => true
    end in
  let by_archived := fun h =>
    match Filter.is_archived f with
    | Some b => Bool.eqb (Habit.is_archived h) b
    | None => true
    end in
  (Data (order_rows (compare_column col) ascending
           (filter (fun h => by_user h && by_category h && by_archived h)
              (habits db))),
   db).

(** [from('habit_completions').select('habit_id, completion_date, completed')
      .eq('user_id', userId).gte('completion_date', startDate)
      .lte('completion_date', endDate)
      .order('completion_date', { ascending: false })] *)
Definition select_recent (userId : nat) (startDate endDate : Z) (db : database)
  : response (list Completion.t) * database :=
  (Data (order_rows by_completion_date false
           (filter
              (fun c => (Completion.user_id c =? userId)%nat
                        && (startDate <=? Completion.completion_date c)
                        && (Completion.completion_date c <=? endDate))
              (habit_completions db))),
   db).

(** The object [completionsByHabit], keyed by [habit_id]:
    [push_completion] is the body of the [forEach]. *)
Fixpoint push_completion (completion : Completion.t)
    (byHabit : list (nat * list Completion.t)) : list (nat * list Completion.t) :=
  match byHabit with
  | [] => [(Completion.habit_id completion, [completion])]
  | (k, cs) :: rest =>
      if (k =? Completion.habit_id completion)%nat
      then (k, cs ++ [completion]) :: rest
      else (k, cs) :: push_completion completion rest
  end.

Definition group_completions (completions : list Completion.t)
  : list (nat * list Completion.t) :=
  fold_left (fun byHabit c => push_completion c byHabit) completions [].

(** [completionsByHabit[habit.id] || []] *)
Definition completions_of (byHabit : list (nat * list Completion.t)) (id : nat)
  : list Completion.t :=
  match find_first (fun kv => (fst kv =? id)%nat) byHabit with
  | Some kv => snd kv
  | None => []
  end.

(** The callback of [habitsWithHistory.filter]. *)
Definition completed_today_filter (completed_today : bool) (today : Z)
    (v : habit_view) : bool :=
  let todayCompletion :=
    find_first (fun c => Completion.completion_date c =? today)
      (recent_completions v) in
  let isCompletedToday :=
    match todayCompletion with
    | Some c => Completion.completed c
    | None => false
    end in
  if completed_today then isCompletedToday else negb isCompletedToday.

Definition getUserHabits (userId : nat) (opts : Options.t) (today : Z)
  : M (list habit_view) :=
  let ascending := (Options.sortOrder opts =? "asc")%string in
  r <- await (select_habits userId (Options.filter opts)
                (sort_column_of (Options.sortBy opts))
                ascending) ;;
  match r with
  | Error message => throw ("Failed to fetch habits: " ++ message)%string
  | Data [] => ret []
  | Data habits =>
      let endDate := today in
      let startDate := today - Options.days opts + 1 in
      c <- await (select_recent userId startDate endDate) ;;
      match c with
      | Error message => throw ("Failed to fetch completions: " ++ message)%string
      | Data completions =>
          let completionsByHabit := group_completions completions in
          let habitsWithHistory :=
            map (fun h => mkView h (completions_of completionsByHabit
                                      (Habit.id h)))
              habits in
          match Filter.completed_today (Options.filter opts) with
          | Some completed_today =>
              ret (filter (completed_today_filter completed_today today)
                     habitsWithHistory)
          | None => ret habitsWithHistory
          end
      end
  end.

Close Scope service_scope.

(** ** Reference notions the properties are stated with *)

(** The days [a, a-1, ..., a-(k-1)] are all in [S]. *)
Definition run_back (S : list Z) (a k : Z) : Prop :=
  forall i, 0 <= i < k -> In (a - i) S.

(** The days [a, a+1, ..., a+(k-1)] are all in [S]. *)
Definition run_from (S : list Z) (a k : Z) : Prop :=
  forall i, 0 <= i < k -> In (a + i) S.

(** The longest-streak scan in the words of the specification: the running
    length restarts at 1 on the first date and after a gap of more than one
    day, grows by 1 otherwise; the answer is the largest length seen. *)
Fixpoint scan_runs (prev : option Z) (sorted : list Z) (running best : Z) : Z :=
  match sorted with
  | [] => best
  | d :: rest =>
      let running' :=
        match prev with
        | None => 1
        | Some p => if d - p >? 1 then 1 else running + 1
        end in
      scan_runs (Some d) rest running' (Z.max best running')
  end.

Definition f_longest (S : list Z) : Z :=
  scan_runs None (sort_by compare_Z S) 0 0.

(** The schema's [UNIQUE(habit_id, completion_date)] as a property of a
    table. *)
Definition unique_completions (rows : list Completion.t) : Prop :=
  forall c1 c2, In c1 rows -> In c2 rows ->
    Completion.habit_id c1 = Completion.habit_id c2 ->
    Completion.completion_date c1 = Completion.completion_date c2 ->
    c1 = c2.

(** The dates of all of a habit's records marked completed, in table
    order. *)
Definition completed_dates (habitId : nat) (db : database) : list Z :=
  map Completion.completion_date
    (filter (completed_of habitId) (habit_completions db)).

(** The store after the streaks of [habitId] have been overwritten. *)
Definition with_streaks (habitId : nat) (s : streaks) (db : database)
  : database :=
  mkDb (map (fun h => if (Habit.id h =? habitId)%nat then set_streaks s h
                      else h)
          (habits db))
    (habit_completions db).

(** The store after the [completed] flag of row [id] has been overwritten. *)
Definition with_completed (id : nat) (completed : bool) (db : database)
  : database :=
  mkDb (habits db)
    (map (fun c => if has_id id c then set_completed completed c else c)
       (habit_completions db)).

(** The options with the [completed_today] filter replaced. *)
Definition set_completed_today (ct : option bool) (opts : Options.t)
  : Options.t :=
  Options.mk (Options.days opts)
    (Filter.mk (Filter.category (Options.filter opts))
       (Filter.is_archived (Options.filter opts)) ct)
    (Options.sortBy opts) (Options.sortOrder opts).

(** The window of a view holds a record of [today] marked completed. *)
Definition has_completed_record (today : Z) (v : habit_view) : bool :=
  existsb (fun c => (Completion.completion_date c =? today)
                    && Completion.completed c)
    (recent_completions v).

(** The state of the longest-streak loop after the dates [pre] have been
    read, [p] being the last of them: [T] is the length of the run that ends
    at [p], [L] bounds every run that ended earlier and is itself the length
    of a run (or still 0). *)
Definition scan_inv (pre : list Z) (p L T : Z) : Prop :=
  1 <= T /\ 0 <= L /\
  Forall (fun x => x <= p) pre /\
  run_from pre (p - T + 1) T /\
  ~ In (p - T) pre /\
  (forall a k, 1 <= k -> run_from pre a k -> a + k - 1 < p - T -> k <= L) /\
  (L = 0 \/ exists a, run_from pre a L).

(** The list [c; c-1; ...] of [n] consecutive days, newest first. *)
Fixpoint desc_run (c : Z) (n : nat) : list Z :=
  match n with
  | O => []
  | S n' => c :: desc_run (c - 1) n'
  end.

(** The list [a; a+1; ...] of [n] consecutive days, oldest first. *)
Fixpoint asc_run (a : Z) (n : nat) : list Z :=
  match n with
  | O => []
  | S n' => a :: asc_run (a + 1) n'
  end.

(** ** Sample data *)

Definition sample_dates : list Z := [90; 100; 91; 99; 92; 98].

Definition habit_read : Habit.t :=
  Habit.mk 1 7 "Read" (Some "Mind"%string) false 0 0 10.

Definition habit_exercise : Habit.t :=
  Habit.mk 2 7 "Exercise" (Some "Health"%string) false 0 0 20.

Definition habit_sleep : Habit.t :=
  Habit.mk 3 8 "Sleep" None false 0 0 30.

Definition sample_db : database :=
  mkDb [habit_read; habit_exercise; habit_sleep]
    [ Completion.mk 1 1 7 99 true;
      Completion.mk 2 1 7 100 true;
      Completion.mk 3 2 7 100 false;
      Completion.mk 4 2 7 98 true ].

(** An instant in the morning and one in the evening of day 100. *)
Definition morning_100 : Z := getTime 100 + 5000.
Definition evening_100 : Z := getTime 100 + 80000000.

(** ** The remaining methods of [HabitService] *)

Local Open Scope service_scope.

(** [.eq('id', habitId).eq('user_id', userId)] on [habits]. *)
Definition owned_by (habitId userId : nat) (h : Habit.t) : bool :=
  (Habit.id h =? habitId)%nat && (Habit.user_id h =? userId)%nat.

(** [from('habits').select('*').eq('id', habitId).eq('user_id', userId)
      .single()] *)
Definition select_habit (habitId userId : nat) (db : database)
  : response Habit.t * database :=
  (single (filter (owned_by habitId userId) (habits db)), db).

Definition getHabitById (habitId userId : nat) : M Habit.t :=
  r <- await (select_habit habitId userId) ;;
  match r with
  | Error message => throw ("Habit not found: " ++ message)%string
  | Data habit => ret habit
  end.

(** The argument [habitData] of [createHabit]; an absent or [null] property
    is [None]. *)
Module HabitData.
Record t : Type := mk {
  title : string;
  description : option string;
  category : option string
}.
End HabitData.

(** The object [insertData]; [category] and [is_archived] are properties
    that may be absent ([None]), [category] may also be [null]. *)
Module InsertData.
Record t : Type := mk {
  user_id : nat;
  title : string;
  description : option string;
  category : option (option string);
  is_archived : option bool
}.
End InsertData.

(** [from('habits').select('category, is_archived').limit(1)]: the columns
    exist in the schema. *)
Definition probe_columns (db : database) : response unit * database :=
  (Data tt, db).

(** [gen_random_uuid()] for [habits]. *)
Definition fresh_habit_id (rows : list Habit.t) : nat :=
  S (list_max (map Habit.id rows)).

(** Storing a text in a [VARCHAR(n)] column: a longer text is refused,
    unless all it has beyond [n] characters are spaces, which are cut off. *)
Definition all_spaces (s : string) : bool :=
  forallb (fun c => (c =? " ")%char) (list_ascii_of_string s).

Definition varchar (n : nat) (s : string) : option string :=
  if (String.length s <=? n)%nat then Some s
  else if all_spaces (String.substring n (String.length s - n) s)
       then Some (String.substring 0 n s)
       else None.

(** [title VARCHAR(255)] and [category VARCHAR(100)] hold the texts as
    given. *)
Definition fits_columns (title : string) (category : option string) : bool :=
  (String.length title <=? 255)%nat
  && match category with
     | Some c => (String.length c <=? 100)%nat
     | None => true
     end.

(** [from('habits').insert(insertData).select().single()]; columns the
    object leaves out take the defaults of the schema ([category] NULL,
    [is_archived] false, both streaks 0, [created_at] the store's clock
    [now]).  The row of the (authenticated) user exists; the insert fails
    when a text is refused by its column. *)
Definition insert_habit (insertData : InsertData.t) (now : Z) (db : database)
  : response Habit.t * database :=
  let category :=
    match InsertData.category insertData with
    | Some (Some c) => option_map Some (varchar 100 c)
    | _ => Some None
    end in
  match varchar 255 (InsertData.title insertData), category with
  | Some title, Some category =>
      let row :=
        Habit.mk (fresh_habit_id (habits db)) (InsertData.user_id insertData)
          title category
          (match InsertData.is_archived insertData with
           | Some b => b
           | None => false
           end)
          0 0 now in
      (Data row, mkDb (habits db ++ [row]) (habit_completions db))
  | _, _ => (Error "value too long for type character varying", db)
  end.

Definition createHabit (userId : nat) (habitData : HabitData.t) (now : Z)
  : M Habit.t :=
  let insertData :=
    InsertData.mk userId (HabitData.title habitData)
      (truthy_string (HabitData.description habitData)) None None in
  test <- await probe_columns ;;
  let insertData :=
    match test with
    | Data _ =>
        InsertData.mk (InsertData.user_id insertData)
          (InsertData.title insertData) (InsertData.description insertData)
          (Some (truthy_string (HabitData.category habitData))) (Some false)
    | Error _ => insertData
    end in
  r <- await (insert_habit insertData now) ;;
  match r with
  | Error message => throw ("Failed to create habit: " ++ message)%string
  | Data habit => ret habit
  end.

(** [from('habits').delete().eq('id', habitId).eq('user_id', userId)]; the
    completions that reference a deleted row go with it
    ([ON DELETE CASCADE]). *)
Definition delete_habit (habitId userId : nat) (db : database)
  : response unit * database :=
  let deleted := filter (owned_by habitId userId) (habits db) in
  (Data tt,
   mkDb (filter (fun h => negb (owned_by habitId userId h)) (habits db))
     (filter
        (fun c => negb (existsb
                          (fun h => (Habit.id h =? Completion.habit_id c)%nat)
                          deleted))
        (habit_completions db))).

Definition deleteHabit (habitId userId : nat) : M string :=
  r <- await (delete_habit habitId userId) ;;
  match r with
  | Error message => throw ("Failed to delete habit: " ++ message)%string
  | Data _ => ret "Habit deleted successfully"%string
  end.

Definition set_archived (isArchived : bool) (h : Habit.t) : Habit.t :=
  Habit.mk (Habit.id h) (Habit.user_id h) (Habit.title h) (Habit.category h)
    isArchived (Habit.current_streak h) (Habit.longest_streak h)
    (Habit.created_at h).

(** [from('habits').update({ is_archived }).eq('id', habitId)
      .eq('user_id', userId).select().single()] *)
Definition update_archived (habitId userId : nat) (isArchived : bool)
    (db : database) : response Habit.t * database :=
  match single (map (set_archived isArchived)
                  (filter (owned_by habitId userId) (habits db))) with
  | Data row =>
      (Data row,
       mkDb (map (fun h => if owned_by habitId userId h
                           then set_archived isArchived h else h)
               (habits db))
         (habit_completions db))
  | Error message => (Error message, db)
  end.

Definition toggleArchiveHabit (habitId userId : nat) (isArchived : bool)
  : M Habit.t :=
  r <- await (update_archived habitId userId isArchived) ;;
  match r with
  | Error message =>
      throw ("Failed to " ++ (if isArchived then "archive" else "unarchive")
             ++ " habit: " ++ message)%string
  | Data habit => ret habit
  end.

(** [from('habit_completions').select('*').eq('habit_id', habitId)
      .eq('user_id', userId).gte('completion_date', startDate)
      .lte('completion_date', endDate)
      .order('completion_date', { ascending: false })] *)
Definition in_period (habitId userId : nat) (startDate endDate : Z)
    (c : Completion.t) : bool :=
  (Completion.habit_id c =? habitId)%nat
  && (Completion.user_id c =? userId)%nat
  && (startDate <=? Completion.completion_date c)
  && (Completion.completion_date c <=? endDate).

Definition select_period (habitId userId : nat) (startDate endDate : Z)
    (db : database) : response (list Completion.t) * database :=
  (Data (order_rows by_completion_date false
           (filter (in_period habitId userId startDate endDate)
              (habit_completions db))),
   db).

Definition getHabitCompletions (habitId userId : nat) (startDate endDate : Z)
  : M (list Completion.t) :=
  r <- await (select_period habitId userId startDate endDate) ;;
  match r with
  | Error message => throw ("Failed to fetch completions: " ++ message)%string
  | Data completions => ret completions
  end.

(** [from('habits').select('category').eq('user_id', userId)
      .not('category', 'is', null)]: one [category] per row. *)
Definition select_categories (userId : nat) (db : database)
  : response (list string) * database :=
  (Data (flat_map
           (fun h => if (Habit.user_id h =? userId)%nat
                     then match Habit.category h with
                          | Some c => [c]
                          | None => []
                          end
                     else [])
           (habits db)),
   db).

(** [[...new Set(xs)]]: the values in order of first occurrence. *)
Fixpoint set_add_all (seen xs : list string) : list string :=
  match xs with
  | [] => seen
  | x :: rest =>
      if existsb (String.eqb x) seen then set_add_all seen rest
      else set_add_all (seen ++ [x]) rest
  end.

Definition spread_set (xs : list string) : list string := set_add_all [] xs.

Section Categories.
(** [String.prototype.trim]. *)
Variable trim : string -> string.

(** [category => category && category.trim() !== ''] *)
Definition non_blank (category : string) : bool :=
  negb (category =? "")%string && negb (trim category =? "")%string.

Definition getUserCategories (userId : nat) : M (list string) :=
  r <- await (select_categories userId) ;;
  match r with
  | Error message => throw ("Failed to fetch categories: " ++ message)%string
  | Data categories => ret (filter non_blank (spread_set categories))
  end.
End Categories.

(** A JSON-serialisable JavaScript value. *)
Inductive jsval : Type :=
| JUndefined
| JNull
| JBool (b : bool)
| JNumber (n : Z)
| JString (s : string).

Definition allowedFields : list string :=
  ["title"; "description"; "category"; "is_archived"]%string.

(** The object [filteredData]: the own properties of [updateData] whose key
    is allowed, in their order. *)
Definition filter_allowed (updateData : list (string * jsval))
  : list (string * jsval) :=
  filter (fun kv => existsb (String.eqb (fst kv)) allowedFields) updateData.

(** The request body: [JSON.stringify] drops properties that are
    [undefined]. *)
Definition json_body (o : list (string * jsval)) : list (string * jsval) :=
  filter (fun kv => match snd kv with JUndefined => false | _ => true end) o.

Section UpdateHabit.
(** [SET column = value] on one row of [habits]: the store's typing and
    constraints decide whether the value is accepted. *)
Variable assign : string -> jsval -> Habit.t -> response Habit.t.

Definition assign_all (body : list (string * jsval)) (h : Habit.t)
  : response Habit.t :=
  fold_left (fun r kv => match r with
                         | Data h' => assign (fst kv) (snd kv) h'
                         | Error message => Error message
                         end)
    body (Data h).

(** [from('habits').update(filteredData).eq('id', habitId)
      .eq('user_id', userId).select().single()] *)
Definition update_habit (body : list (string * jsval)) (habitId userId : nat)
    (db : database) : response Habit.t * database :=
  match single (filter (owned_by habitId userId) (habits db)) with
  | Data h =>
      match assign_all body h with
      | Data h' =>
          (Data h',
           mkDb (map (fun x => if owned_by habitId userId x then h' else x)
                   (habits db))
             (habit_completions db))
      | Error message => (Error message, db)
      end
  | Error message => (Error message, db)
  end.

Definition updateHabit (habitId userId : nat)
    (updateData : list (string * jsval)) : M Habit.t :=
  let filteredData := filter_allowed updateData in
  match filteredData with
  | [] => throw "No valid fields to update"%string
  | _ :: _ =>
      r <- await (update_habit (json_body filteredData) habitId userId) ;;
      match r with
      | Error message => throw ("Failed to update habit: " ++ message)%string
      | Data habit => ret habit
      end
  end.
End UpdateHabit.

(** ** The route [POST /habits/:id/streaks/recalculate] *)

(** What a handler sends: [res.json(body)] or
    [res.status(code).json({ error })]. *)
Inductive http (A : Type) : Type :=
| Json (status : Z) (payload : A)
| JsonError (status : Z) (error : string).
Arguments Json {A} status payload.
Arguments JsonError {A} status error.

Definition recalculate_route (id userId : nat) (today : Z) (db : database)
  : http streaks * database :=
  match (getHabitById id userId ;;; updateHabitStreaks id today) db with
  | (Ok s, db') => (Json 200 s, db')
  | (Err message, db') => (JsonError 400 message, db')
  end.

Close Scope service_scope.

(** ** The route [GET /habits/export]: the habits read and the counts *)

(** [{ days: parseInt(days), filter: { is_archived: false } }] with the
    defaults of [getUserHabits] for the sort. *)
Definition export_options (days : Z) : Options.t :=
  Options.mk days (Filter.mk None (Some false) None) "created_at"%string
    "desc"%string.

(** [n || 0] on a number. *)
Definition or_zero (n : Z) : Z := if n =? 0 then 0 else n.

(** The counting entries of the object [stats]; [averageStreak] and
    [completionRate], which round a floating-point quotient, and
    [categories] are not modelled. *)
Module ExportStats.
Definition totalHabits (habits : list habit_view) : Z :=
  Z.of_nat (List.length habits).

Definition activeHabits (habits : list habit_view) : Z :=
  Z.of_nat (List.length
              (filter (fun h => negb (Habit.is_archived (habit h))) habits)).

Definition archivedHabits (habits : list habit_view) : Z :=
  Z.of_nat (List.length
              (filter (fun h => Habit.is_archived (habit h)) habits)).

Definition totalStreaks (habits : list habit_view) : Z :=
  fold_left (fun sum h => sum + or_zero (Habit.current_streak (habit h)))
    habits 0.

(** [Math.max(...habits.map(h => h.longest_streak || 0), 0)] *)
Definition longestStreak (habits : list habit_view) : Z :=
  fold_right Z.max 0
    (map (fun h => or_zero (Habit.longest_streak (habit h))) habits).
End ExportStats.

(** ** Constraints of the schema *)

(** The primary keys, [UNIQUE(habit_id, completion_date)] and
    [habit_id REFERENCES habits(id)]. *)
Definition store_ok (db : database) : Prop :=
  NoDup (map Habit.id (habits db)) /\
  NoDup (map Completion.id (habit_completions db)) /\
  unique_completions (habit_completions db) /\
  (forall c, In c (habit_completions db) ->
     exists h, In h (habits db) /\ Habit.id h = Completion.habit_id c).

(** The days from 0001-01-01 to 9999-12-31: the dates that [toISOString]
    writes as ['YYYY-MM-DD'], the form in which a [DATE] column is
    compared with them. *)
Definition four_digit_year (day : Z) : Prop := -719162 <= day <= 2932896.

(** A column assignment that writes the four editable columns of the model
    from well-typed values and refuses anything else. *)
Definition sample_assign (column : string) (v : jsval) (h : Habit.t)
  : response Habit.t :=
  match column, v with
  | "title"%string, JString s =>
      Data (Habit.mk (Habit.id h) (Habit.user_id h) s (Habit.category h)
              (Habit.is_archived h) (Habit.current_streak h)
              (Habit.longest_streak h) (Habit.created_at h))
  | "description"%string, JString _ => Data h
  | "description"%string, JNull => Data h
  | "category"%string, JString s =>
      Data (Habit.mk (Habit.id h) (Habit.user_id h) (Habit.title h) (Some s)
              (Habit.is_archived h) (Habit.current_streak h)
              (Habit.longest_streak h) (Habit.created_at h))
  | "category"%string, JNull =>
      Data (Habit.mk (Habit.id h) (Habit.user_id h) (Habit.title h) None
              (Habit.is_archived h) (Habit.current_streak h)
              (Habit.longest_streak h) (Habit.created_at h))
  | "is_archived"%string, JBool b => Data (set_archived b h)
  | _, _ => Error "invalid input"
  end.

(** ** The process time zone *)

(** The methods read the clock with [new Date()] and move a [Date] by whole
    days with [setDate(getDate() + n)], which works on local time, while
    every date string is cut from [toISOString()], which is UTC.  A time
    zone is given by the two offsets of ECMAScript, in milliseconds:
    [LocalTZA(t, true)] for a UTC instant [t] and [LocalTZA(t, false)] for a
    local time value. *)
Record timezone : Type := mkZone {
  offset_of_utc : Z -> Z;
  offset_of_local : Z -> Z
}.

(** [LocalTime(t)] and [UTC(t)] of ECMAScript. *)
Definition LocalTime (tz : timezone) (t : Z) : Z := t + offset_of_utc tz t.

Definition UTC (tz : timezone) (t : Z) : Z := t - offset_of_local tz t.

(** [d.setDate(d.getDate() + n)] on the instant [d]: [MakeDay] of the local
    year and month with the day of the month moved by [n] is the local day
    number moved by [n]; the time within the day is kept, and the local time
    value so obtained is read back with [UTC]. *)
Definition setDate_shift (tz : timezone) (d n : Z) : Z :=
  UTC tz (LocalTime tz d + n * msPerDay).

(** [TimeClip]: a time value further than 8.64e15 ms from the epoch is
    [NaN], the [Date] is invalid ([None]). *)
Definition maxTime : Z := 8640000000000000.

Definition TimeClip (t : Z) : option Z :=
  if Z.abs t <=? maxTime then Some t else None.

(** A zone that keeps one offset all year. *)
Definition fixed_zone (offset : Z) : timezone :=
  mkZone (fun _ => offset) (fun _ => offset).

Definition utc_zone : timezone := fixed_zone 0.

Definition fixed_offset (tz : timezone) : Prop :=
  exists offset,
    forall t, offset_of_utc tz t = offset /\ offset_of_local tz t = offset.

(** No two offsets of the zone are more than a day apart. *)
Definition offsets_within_a_day (tz : timezone) : Prop :=
  forall t t',
    - msPerDay <= offset_of_utc tz t - offset_of_local tz t' <= msPerDay.

Definition msPerHour : Z := 1000 * 60 * 60.

(** America/New_York in 2024: UTC-4 from 2024-03-10T07:00Z until
    2024-11-03T06:00Z, UTC-5 before and after.  A local time that the change
    skips (03-10 02:00 to 03:00) or repeats (11-03 01:00 to 02:00) is read
    with the offset in force before the change. *)
Definition new_york_2024 : timezone :=
  mkZone
    (fun t => if (1710054000000 <=? t) && (t <? 1730613600000)
              then -4 * msPerHour else -5 * msPerHour)
    (fun t => if (1710039600000 <=? t) && (t <? 1730599200000)
              then -4 * msPerHour else -5 * msPerHour).

(** Asia/Kolkata: UTC+5:30 all year. *)
Definition kolkata : timezone := fixed_zone (330 * 60 * 1000).

(** ** The streak engine and the toggle in a time zone *)

(** The loop of lines 300-310 with [checkDate] as the [Date] it is: an
    instant, stepped back by [checkDate.setDate(checkDate.getDate() - 1)]. *)
Fixpoint current_loop_in (tz : timezone) (sortedDates : list Z)
    (checkDate currentStreak : Z) : Z :=
  match sortedDates with
  | [] => currentStreak
  | dateStr :: rest =>
      if getTime dateStr =? checkDate
      then current_loop_in tz rest (setDate_shift tz checkDate (-1))
             (currentStreak + 1)
      else currentStreak
  end.

(** Lines 283-333 with the clock as the instant [now] of [new Date()]:
    [today] is its UTC day, [yesterday] the instant one local day before
    it and [yesterdayStr] the UTC day of that. *)
Definition computeStreaksIn (tz : timezone) (dates : list Z) (now : Z)
  : streaks :=
  match dates with
  | [] => mkStreaks 0 0
  | _ :: _ =>
      let today := toISODate now in
      let yesterday := setDate_shift tz now (-1) in
      let yesterdayStr := toISODate yesterday in
      let sortedDates := sort_by cmp_desc dates in
      let current :=
        if includes today sortedDates || includes yesterdayStr sortedDates
        then current_loop_in tz sortedDates
               (getTime (if includes today sortedDates then today
                         else yesterdayStr)) 0
        else 0 in
      let allDates := sort_by cmp_asc dates in
      let '(longest, temp) := longest_loop None allDates 0 0 in
      mkStreaks current (Z.max longest temp)
  end.

Local Open Scope service_scope.

Definition updateHabitStreaksIn (tz : timezone) (habitId : nat) (now : Z)
  : M streaks :=
  r <- await (select_completed habitId) ;;
  match r with
  | Error message =>
      throw ("Failed to fetch completions for streak calculation: "
             ++ message)%string
  | Data completions =>
      let s := computeStreaksIn tz
                 (map Completion.completion_date completions) now in
      u <- await (update_streaks habitId s) ;;
      match u with
      | Error message => throw ("Failed to update streaks: " ++ message)%string
      | Data _ => ret s
      end
  end.

Definition toggleHabitCompletionIn (tz : timezone) (habitId userId : nat)
    (date : Z) (completed : bool) (now : Z) : M Completion.t :=
  let completionDate := toISODate date in
  existing <- await (select_completion habitId completionDate) ;;
  result <-
    match data existing with
    | Some existingCompletion =>
        r <- await (update_completion (Completion.id existingCompletion)
                      completed) ;;
        match r with
        | Error message =>
            throw ("Failed to update completion: " ++ message)%string
        | Data row => ret row
        end
    | None =>
        r <- await (insert_completion habitId userId completionDate
                      completed) ;;
        match r with
        | Error message =>
            throw ("Failed to create completion: " ++ message)%string
        | Data row => ret row
        end
    end ;;
  updateHabitStreaksIn tz habitId now ;;;
  ret result.

(** ** [getUserHabits] in a time zone, with the range of [Date] *)

(** The options as JS has them: [days] is a number, [None] standing for
    [NaN] (what [parseInt] makes of a query value that is no number). *)
Module Query.
Record t : Type := mk {
  days : option Z;
  filter : Filter.t;
  sortBy : string;
  sortOrder : string
}.
End Query.

(** Lines 98-100 and 106: [startDate.setDate(endDate.getDate() - days + 1)]
    on two readings [now] of the clock, then
    [startDate.toISOString().split('T')[0]]; [None] when the [Date] is
    invalid, where [toISOString] throws a [RangeError]. *)
Definition window_start (tz : timezone) (days : option Z) (now : Z)
  : option Z :=
  match days with
  | None => None
  | Some n =>
      match TimeClip (setDate_shift tz now (1 - n)) with
      | Some startDate => Some (toISODate startDate)
      | None => None
      end
  end.

Definition getUserHabitsIn (tz : timezone) (userId : nat) (q : Query.t)
    (now : Z) : M (list habit_view) :=
  let ascending := (Query.sortOrder q =? "asc")%string in
  r <- await (select_habits userId (Query.filter q)
                (sort_column_of (Query.sortBy q))
                ascending) ;;
  match r with
  | Error message => throw ("Failed to fetch habits: " ++ message)%string
  | Data [] => ret []
  | Data habits =>
      let endDate := now in
      match window_start tz (Query.days q) now with
      | None => throw "Invalid time value"%string
      | Some startDate =>
          c <- await (select_recent userId startDate (toISODate endDate)) ;;
          match c with
          | Error message =>
              throw ("Failed to fetch completions: " ++ message)%string
          | Data completions =>
              let completionsByHabit := group_completions completions in
              let habitsWithHistory :=
                map (fun h => mkView h (completions_of completionsByHabit
                                          (Habit.id h)))
                  habits in
              match Filter.completed_today (Query.filter q) with
              | Some completed_today =>
                  let today := toISODate now in
                  ret (filter (completed_today_filter completed_today today)
                         habitsWithHistory)
              | None => ret habitsWithHistory
              end
          end
      end
  end.

Close Scope service_scope.

(** The options of a call whose window starts [days - 1] days before
    today. *)
Definition options_of (q : Query.t) (days : Z) : Options.t :=
  Options.mk days (Query.filter q) (Query.sortBy q) (Query.sortOrder q).

(** The query with the sort key replaced. *)
Definition with_sortBy (key : string) (q : Query.t) : Query.t :=
  Query.mk (Query.days q) (Query.filter q) key (Query.sortOrder q).

(** A request with an unknown sort key and a negative window. *)
Definition bad_query : Query.t :=
  Query.mk (Some (-3)) (Filter.mk None None None) "bogus"%string
    "desc"%string.

(** The defaults of the destructuring assignment with the
    [completed_today] filter set. *)
Definition completed_today_query (b : bool) : Query.t :=
  Query.mk (Some 14) (Filter.mk None None (Some b)) "created_at"%string
    "desc"%string.

(** ** The current streak in the words of the specification *)

(** From [day], walk backward one day at a time while the day is among the
    completed dates, counting them; no walk is longer than the number of
    dates. *)
Fixpoint walk_back (steps : nat) (dates : list Z) (day count : Z) : Z :=
  match steps with
  | O => count
  | Datatypes.S steps' =>
      if includes day dates
      then walk_back steps' dates (day - 1) (count + 1)
      else count
  end.

(** The anchor is today if completed, else yesterday if completed, else the
    streak is 0. *)
Definition f_current (dates : list Z) (today : Z) : Z :=
  if includes today dates
  then walk_back (List.length dates) dates today 0
  else if includes (today - 1) dates
  then walk_back (List.length dates) dates (today - 1) 0
  else 0.

(** ** Who owns a habit *)

(** The store with the [user_id] column of [habits] rewritten. *)
Definition with_owner (owner : Habit.t -> nat) (db : database) : database :=
  mkDb
    (map (fun h =>
            Habit.mk (Habit.id h) (owner h) (Habit.title h) (Habit.category h)
              (Habit.is_archived h) (Habit.current_streak h)
              (Habit.longest_streak h) (Habit.created_at h))
       (habits db))
    (habit_completions db).

(** ** A store with streaks and an archived habit *)

Definition habit_walk : Habit.t :=
  Habit.mk 4 7 "Walk" (Some "Health"%string) false 2 5 40.

Definition habit_piano : Habit.t :=
  Habit.mk 5 7 "Piano" (Some "Mind"%string) false 4 4 50.

Definition habit_chess : Habit.t :=
  Habit.mk 6 7 "Chess" None true 1 9 45.

Definition streak_db : database :=
  mkDb [habit_piano; habit_walk; habit_chess; habit_sleep]
    [ Completion.mk 1 4 7 99 true;
      Completion.mk 2 4 7 100 true;
      Completion.mk 3 5 7 100 false;
      Completion.mk 4 6 7 100 true ].

(** A habit with the days 2024-11-02, 11-03 and 11-04 (day numbers 20029 to
    20031) on record. *)
Definition november_db : database :=
  mkDb [habit_read]
    [ Completion.mk 1 1 7 20029 true;
      Completion.mk 2 1 7 20030 false;
      Completion.mk 3 1 7 20031 true ].

(** A window of two days, and windows without a start: a billion days, and
    a size that is no number. *)
Definition two_days_query : Query.t :=
  Query.mk (Some 2) (Filter.mk None None None) "created_at"%string
    "desc"%string.

Definition huge_query : Query.t :=
  Query.mk (Some 1000000000) (Filter.mk None None None) "created_at"%string
    "desc"%string.

Definition nan_query : Query.t :=
  Query.mk None (Filter.mk None None None) "created_at"%string "desc"%string.

(** 2024-11-04T00:30Z, the evening of 11-03 in New York, and
    2024-03-11T12:00Z. *)
Definition nov_4_0030 : Z := 1730680200000.

Definition mar_11_noon : Z := 1710158400000.

(** * Properties *)

(** ** Sorting *)

Section Sorting.
Context {A : Type}.
Variable compareFn : A -> A -> Z.
Variable le : A -> A -> Prop.
Hypothesis compare_le : forall a b, compareFn a b <= 0 <-> le a b.
Hypothesis le_total : forall a b, le a b \/ le b a.
Hypothesis le_trans : forall a b c, le a b -> le b c -> le a c.

Lemma insert_by_perm (x : A) (l : list A) :
  Permutation (insert_by compareFn x l) (x :: l).
Proof.
  induction l as [|y l IH]; simpl.
  - reflexivity.
  - destruct (compareFn x y <=? 0).
    + reflexivity.
    + rewrite IH. apply perm_swap.
Qed.

Lemma sort_by_perm (l : list A) : Permutation (sort_by compareFn l) l.
Proof.
  induction l as [|x l IH]; simpl.
  - reflexivity.
  - unfold sort_by in *. simpl. rewrite insert_by_perm. now constructor.
Qed.

Lemma insert_by_sorted (x : A) (l : list A) :
  StronglySorted le l -> StronglySorted le (insert_by compareFn x l).
Proof.
  induction 1 as [|y l Hs IH Hall]; simpl.
  - repeat constructor.
  - destruct (Z.leb_spec (compareFn x y) 0) as [Hle|Hgt].
    + apply compare_le in Hle.
      constructor; [now constructor|].
      constructor; [assumption|].
      eapply Forall_impl; [|exact Hall]. intros z Hz. eauto.
    + assert (Hyx : le y x).
      { destruct (le_total x y) as [Hxy|Hyx]; [|assumption].
        apply compare_le in Hxy. lia. }
      constructor; [assumption|].
      eapply Permutation_Forall.
      * symmetry. apply insert_by_perm.
      * now constructor.
Qed.

Lemma sort_by_sorted (l : list A) : StronglySorted le (sort_by compareFn l).
Proof.
  induction l as [|x l IH]; simpl.
  - constructor.
  - unfold sort_by in *. simpl. now apply insert_by_sorted.
Qed.

Hypothesis le_antisym : forall a b, le a b -> le b a -> a = b.

Lemma sorted_perm_unique (l1 l2 : list A) :
  StronglySorted le l1 -> StronglySorted le l2 -> Permutation l1 l2 ->
  l1 = l2.
Proof.
  intros H1. revert l2.
  induction H1 as [|a l1 Hs1 IH Hall1]; intros l2 H2 Hp.
  - apply Permutation_nil in Hp. now subst.
  - destruct H2 as [|b l2 Hs2 Hall2].
    + symmetry in Hp. apply Permutation_nil in Hp. discriminate.
    + assert (a = b) as ->.
      { assert (Ha : In a (b :: l2))
          by (eapply Permutation_in; [exact Hp|now left]).
        assert (Hb : In b (a :: l1))
          by (eapply Permutation_in; [symmetry; exact Hp|now left]).
        rewrite Forall_forall in Hall1, Hall2.
        destruct Ha as [Ha|Ha]; [now subst|].
        destruct Hb as [Hb|Hb]; [now subst|].
        apply le_antisym; auto. }
      f_equal. apply IH; [assumption|].
      eapply Permutation_cons_inv; exact Hp.
Qed.
End Sorting.

Lemma msPerDay_value : msPerDay = 86400000.
Proof. reflexivity. Qed.

Lemma getTime_inj (a b : Z) : getTime a = getTime b <-> a = b.
Proof. unfold getTime. rewrite msPerDay_value. lia. Qed.

Lemma cmp_asc_le (a b : Z) : cmp_asc a b <= 0 <-> a <= b.
Proof. unfold cmp_asc, getTime. rewrite msPerDay_value. lia. Qed.

Lemma cmp_desc_ge (a b : Z) : cmp_desc a b <= 0 <-> b <= a.
Proof. unfold cmp_desc, getTime. rewrite msPerDay_value. lia. Qed.

Lemma compare_Z_le (a b : Z) : compare_Z a b <= 0 <-> a <= b.
Proof.
  unfold compare_Z. destruct (Z.compare_spec a b); lia.
Qed.

Lemma sort_asc_sorted (l : list Z) : StronglySorted Z.le (sort_by cmp_asc l).
Proof.
  apply sort_by_sorted; [apply cmp_asc_le|lia|lia].
Qed.

Lemma sort_desc_sorted (l : list Z) :
  StronglySorted (fun a b => b <= a) (sort_by cmp_desc l).
Proof.
  apply sort_by_sorted; [apply cmp_desc_ge|lia|lia].
Qed.

Lemma le_sorted_unique (l1 l2 : list Z) :
  StronglySorted Z.le l1 -> StronglySorted Z.le l2 -> Permutation l1 l2 ->
  l1 = l2.
Proof. apply sorted_perm_unique. lia. Qed.

Lemma StronglySorted_snoc (R : Z -> Z -> Prop) (l : list Z) (a : Z) :
  StronglySorted R l -> Forall (fun x => R x a) l ->
  StronglySorted R (l ++ [a]).
Proof.
  induction 1 as [|b l Hs IH Hall]; intros Ha; simpl.
  - repeat constructor.
  - inversion Ha; subst. constructor.
    + now apply IH.
    + rewrite Forall_app. split; [assumption|]. now repeat constructor.
Qed.

Lemma StronglySorted_rev (R : Z -> Z -> Prop) (l : list Z) :
  StronglySorted R l -> StronglySorted (fun a b => R b a) (rev l).
Proof.
  induction 1 as [|a l Hs IH Hall]; simpl.
  - constructor.
  - apply StronglySorted_snoc; [assumption|].
    rewrite Forall_forall in *. intros x Hx. apply Hall. now apply in_rev.
Qed.

Lemma sort_desc_rev (l : list Z) :
  sort_by cmp_asc l = rev (sort_by cmp_desc l).
Proof.
  apply le_sorted_unique.
  - apply sort_asc_sorted.
  - apply (StronglySorted_rev _ _ (sort_desc_sorted l)).
  - rewrite sort_by_perm, <- Permutation_rev, sort_by_perm. reflexivity.
Qed.

Lemma sort_asc_perm_eq (l1 l2 : list Z) :
  Permutation l1 l2 -> sort_by cmp_asc l1 = sort_by cmp_asc l2.
Proof.
  intros Hp. apply le_sorted_unique; try apply sort_asc_sorted.
  now rewrite !sort_by_perm.
Qed.

Lemma sort_compare_Z_eq (l : list Z) :
  sort_by compare_Z l = sort_by cmp_asc l.
Proof.
  apply le_sorted_unique.
  - apply sort_by_sorted; [apply compare_Z_le|lia|lia].
  - apply sort_asc_sorted.
  - now rewrite !sort_by_perm.
Qed.

(** ** The longest-streak loop *)

Ltac split_inv :=
  refine (conj _ (conj _ (conj _ (conj _ (conj _ (conj _ _)))))).

Lemma dayDiff_is_1_spec (p c : Z) : dayDiff_is_1 p c = true <-> c = p + 1.
Proof.
  unfold dayDiff_is_1, getTime. rewrite msPerDay_value, Z.eqb_eq. lia.
Qed.

Lemma run_from_app_l (pre ext : list Z) (a k : Z) :
  run_from pre a k -> run_from (pre ++ ext) a k.
Proof.
  intros H i Hi. apply in_or_app. left. now apply H.
Qed.

Lemma run_from_snoc_below (pre : list Z) (c a k : Z) :
  run_from (pre ++ [c]) a k -> a + k - 1 < c -> run_from pre a k.
Proof.
  intros H Hlt i Hi. specialize (H i Hi).
  apply in_app_or in H. destruct H as [H|[H|[]]]; [assumption|lia].
Qed.

Lemma scan_inv_bound (pre : list Z) (p L T a k : Z) :
  scan_inv pre p L T -> run_from pre a k -> k <= Z.max L T.
Proof.
  intros (HT & HL & Hle & Hrun & Hnot & Hold & _) Hr.
  destruct (Z.le_gt_cases k 0) as [|Hk]; [lia|].
  destruct (Z.lt_ge_cases (a + k - 1) (p - T)) as [Hlt|Hge].
  - specialize (Hold a k ltac:(lia) Hr Hlt). lia.
  - assert (Ha : p - T < a).
    { destruct (Z.lt_ge_cases (p - T) a) as [|Hle']; [assumption|].
      exfalso. apply Hnot.
      replace (p - T) with (a + (p - T - a)) by lia. apply Hr. lia. }
    assert (Hend : a + (k - 1) <= p).
    { rewrite Forall_forall in Hle. apply Hle. apply Hr. lia. }
    lia.
Qed.

Lemma scan_inv_init (c : Z) : scan_inv [c] c 0 1.
Proof.
  split_inv.
  - lia.
  - lia.
  - repeat constructor. lia.
  - intros i Hi. left. lia.
  - intros [H|[]]. lia.
  - intros a k Hk Hr Hlt. specialize (Hr 0 ltac:(lia)).
    destruct Hr as [Hr|[]]. lia.
  - now left.
Qed.

Lemma scan_inv_consec (pre : list Z) (p L T : Z) :
  scan_inv pre p L T -> scan_inv (pre ++ [p + 1]) (p + 1) L (T + 1).
Proof.
  intros (HT & HL & Hle & Hrun & Hnot & Hold & Hach).
  split_inv.
  - lia.
  - lia.
  - rewrite Forall_app. split.
    + eapply Forall_impl; [|exact Hle]. simpl. intros; lia.
    + repeat constructor. lia.
  - intros i Hi. apply in_or_app.
    destruct (Z.eq_dec i T) as [->|Hne].
    + right. left. lia.
    + left. replace (p + 1 - (T + 1) + 1 + i) with (p - T + 1 + i) by lia.
      apply Hrun. lia.
  - intros H. apply in_app_or in H. destruct H as [H|[H|[]]].
    + apply Hnot. now replace (p - T) with (p + 1 - (T + 1)) by lia.
    + lia.
  - intros a k Hk Hr Hlt. apply (Hold a k Hk); [|lia].
    eapply run_from_snoc_below; [exact Hr|lia].
  - destruct Hach as [->|[a Ha]]; [now left|right].
    exists a. now apply run_from_app_l.
Qed.

Lemma scan_inv_gap (pre : list Z) (p L T c : Z) :
  scan_inv pre p L T -> p + 1 < c ->
  scan_inv (pre ++ [c]) c (Z.max L T) 1.
Proof.
  intros Hinv Hc.
  pose proof Hinv as (HT & HL & Hle & Hrun & Hnot & Hold & Hach).
  split_inv.
  - lia.
  - lia.
  - rewrite Forall_app. split.
    + eapply Forall_impl; [|exact Hle]. simpl. intros; lia.
    + repeat constructor. lia.
  - intros i Hi. apply in_or_app. right. left. lia.
  - intros H. apply in_app_or in H. destruct H as [H|[H|[]]]; [|lia].
    rewrite Forall_forall in Hle. specialize (Hle _ H). lia.
  - intros a k Hk Hr Hlt. eapply scan_inv_bound; [exact Hinv|].
    eapply run_from_snoc_below; [exact Hr|lia].
  - right. destruct (Z.max_spec L T) as [[_ ->]|[Hlt ->]].
    + exists (p - T + 1). now apply run_from_app_l.
    + destruct Hach as [->|[a Ha]]; [lia|].
      exists a. now apply run_from_app_l.
Qed.

Lemma longest_loop_inv (rest : list Z) :
  forall pre p L T,
    scan_inv pre p L T -> StronglySorted Z.lt (p :: rest) ->
    exists p', scan_inv (pre ++ rest) p'
                 (fst (longest_loop (Some p) rest L T))
                 (snd (longest_loop (Some p) rest L T)).
Proof.
  induction rest as [|c rest IH]; intros pre p L T Hinv Hs.
  - simpl. rewrite app_nil_r. now exists p.
  - inversion Hs as [|? ? Hs' Hall]; subst.
    inversion Hall as [|? ? Hpc _]; subst.
    assert (Hs2 : StronglySorted Z.lt (c :: rest)).
    { now inversion Hs'. }
    replace (pre ++ c :: rest) with ((pre ++ [c]) ++ rest)
      by (now rewrite <- app_assoc).
    simpl. destruct (dayDiff_is_1 p c) eqn:Hd.
    + apply dayDiff_is_1_spec in Hd. subst c.
      apply IH; [now apply scan_inv_consec|assumption].
    + assert (p + 1 < c).
      { destruct (Z.eq_dec c (p + 1)) as [Heq|Hne]; [|lia].
        apply dayDiff_is_1_spec in Heq. congruence. }
      apply IH; [eapply scan_inv_gap; eassumption|assumption].
Qed.

Lemma sorted_le_NoDup_lt (l : list Z) :
  StronglySorted Z.le l -> NoDup l -> StronglySorted Z.lt l.
Proof.
  induction 1 as [|a l Hs IH Hall]; intros Hnd.
  - constructor.
  - inversion Hnd as [|? ? Hnotin Hnd']; subst.
    constructor; [now apply IH|].
    rewrite Forall_forall in *. intros x Hx.
    specialize (Hall x Hx).
    assert (x <> a) by (intros ->; contradiction). lia.
Qed.

Lemma scan_inv_achieved (l : list Z) (p L T : Z) :
  scan_inv l p L T -> 1 <= Z.max L T /\ exists a, run_from l a (Z.max L T).
Proof.
  intros (HT & HL & _ & Hrun & _ & _ & Hach). split; [lia|].
  destruct (Z.max_spec L T) as [[_ ->]|[Hlt ->]].
  - now exists (p - T + 1).
  - destruct Hach as [->|Ha]; [lia|assumption].
Qed.

Lemma run_from_perm (l S : list Z) (a k : Z) :
  Permutation l S -> run_from l a k -> run_from S a k.
Proof.
  intros Hp H i Hi. eapply Permutation_in; [exact Hp|]. now apply H.
Qed.

Lemma longestStreak_eq (S : list Z) (today : Z) :
  longestStreak (computeStreaks S today) =
  Z.max (fst (longest_loop None (sort_by cmp_asc S) 0 0))
        (snd (longest_loop None (sort_by cmp_asc S) 0 0)).
Proof.
  destruct S as [|x S]; [reflexivity|].
  unfold computeStreaks.
  destruct (longest_loop None (sort_by cmp_asc (x :: S)) 0 0). reflexivity.
Qed.

Lemma gtb_false (a b : Z) : a <= b -> (a >? b) = false.
Proof. intros H. rewrite Z.gtb_ltb. now apply Z.ltb_ge. Qed.

Lemma gtb_true (a b : Z) : b < a -> (a >? b) = true.
Proof. intros H. rewrite Z.gtb_ltb. now apply Z.ltb_lt. Qed.

Lemma scan_runs_loop (rest : list Z) :
  forall p L T B,
    B = Z.max L T -> StronglySorted Z.lt (p :: rest) ->
    scan_runs (Some p) rest T B =
    Z.max (fst (longest_loop (Some p) rest L T))
          (snd (longest_loop (Some p) rest L T)).
Proof.
  induction rest as [|c rest IH]; intros p L T B HB Hs.
  - simpl. assumption.
  - inversion Hs as [|? ? Hs' Hall]; subst.
    inversion Hall as [|? ? Hpc _]; subst.
    assert (Hs2 : StronglySorted Z.lt (c :: rest)) by (now inversion Hs').
    simpl. destruct (dayDiff_is_1 p c) eqn:Hd.
    + apply dayDiff_is_1_spec in Hd. subst c.
      rewrite gtb_false by lia.
      apply IH; [lia|assumption].
    + assert (p + 1 < c).
      { destruct (Z.eq_dec c (p + 1)) as [Heq|Hne]; [|lia].
        apply dayDiff_is_1_spec in Heq. congruence. }
      rewrite gtb_true by lia.
      apply IH; [lia|assumption].
Qed.

(** ** The current-streak loop *)

Lemma current_loop_prefix (d : list Z) :
  forall c acc, exists n rest,
    current_loop d c acc = acc + Z.of_nat n /\ d = desc_run c n ++ rest /\
    (forall x rest', rest = x :: rest' -> x <> c - Z.of_nat n).
Proof.
  induction d as [|x d IH]; intros c acc.
  - exists O, []. repeat split; [simpl; lia|discriminate].
  - simpl. destruct (getTime x =? getTime c) eqn:He.
    + apply Z.eqb_eq in He. apply -> getTime_inj in He. subst x.
      destruct (IH (c - 1) (acc + 1)) as (n & rest & Hv & Hd & Hr).
      exists (S n), rest. repeat split.
      * rewrite Hv. lia.
      * simpl. now rewrite <- Hd.
      * intros y rest' Heq. specialize (Hr y rest' Heq). lia.
    + apply Z.eqb_neq in He. exists O, (x :: d). repeat split.
      * lia.
      * intros y rest' Heq. injection Heq as <- _. simpl.
        rewrite Z.sub_0_r. intros ->. now apply He.
Qed.

Lemma asc_run_snoc (n : nat) :
  forall a, asc_run a n ++ [a + Z.of_nat n] = asc_run a (S n).
Proof.
  induction n as [|n IH]; intros a.
  - simpl. now rewrite Z.add_0_r.
  - change (asc_run a (S n) ++ [a + Z.of_nat (S n)])
      with (a :: (asc_run (a + 1) n ++ [a + Z.of_nat (S n)])).
    replace (a + Z.of_nat (S n)) with (a + 1 + Z.of_nat n) by lia.
    rewrite IH. reflexivity.
Qed.

Lemma rev_desc_run (n : nat) :
  forall c, rev (desc_run c n) = asc_run (c - Z.of_nat n + 1) n.
Proof.
  induction n as [|n IH]; intros c; [reflexivity|].
  simpl desc_run. simpl rev. rewrite IH.
  replace (c - 1 - Z.of_nat n + 1) with (c - Z.of_nat (S n) + 1) by lia.
  replace c with (c - Z.of_nat (S n) + 1 + Z.of_nat n) at 2 by lia.
  apply asc_run_snoc.
Qed.

(** The loop over a stretch of consecutive days only lengthens the running
    streak. *)
Lemma longest_loop_run (n : nat) :
  forall a L T,
    longest_loop (Some (a - 1)) (asc_run a n) L T = (L, T + Z.of_nat n).
Proof.
  induction n as [|n IH]; intros a L T.
  - simpl. f_equal. lia.
  - simpl. replace (dayDiff_is_1 (a - 1) a) with true
      by (symmetry; apply dayDiff_is_1_spec; lia).
    replace a with (a + 1 - 1) at 1 by lia.
    rewrite IH. f_equal. lia.
Qed.

Lemma longest_loop_ends_with_run (pre : list Z) (a : Z) (n : nat) :
  forall prev L T,
    0 <= T ->
    Z.of_nat n <= snd (longest_loop prev (pre ++ asc_run a n) L T).
Proof.
  induction pre as [|x pre IH]; intros prev L T HT.
  - destruct n as [|n]; simpl app.
    + simpl. lia.
    + simpl asc_run.
      assert (Hgo : forall L1 T1, 1 <= T1 ->
                Z.of_nat (S n) <=
                snd (longest_loop (Some a) (asc_run (a + 1) n) L1 T1)).
      { intros L1 T1 H1. replace a with (a + 1 - 1) at 1 by lia.
        rewrite longest_loop_run. simpl. lia. }
      simpl. destruct prev as [p|]; [destruct (dayDiff_is_1 p a)|];
        apply Hgo; lia.
  - simpl. destruct prev as [p|]; [destruct (dayDiff_is_1 p x)|];
      apply IH; lia.
Qed.

Lemma currentStreak_eq (S : list Z) (today : Z) :
  S <> [] ->
  currentStreak (computeStreaks S today) =
  if includes today (sort_by cmp_desc S)
     || includes (today - 1) (sort_by cmp_desc S)
  then current_loop (sort_by cmp_desc S)
         (if includes today (sort_by cmp_desc S) then today else today - 1) 0
  else 0.
Proof.
  destruct S as [|x S]; [congruence|]. intros _.
  unfold computeStreaks.
  destruct (longest_loop None (sort_by cmp_asc (x :: S)) 0 0). reflexivity.
Qed.

Lemma current_le_longest_loop (S : list Z) (c : Z) :
  current_loop (sort_by cmp_desc S) c 0 <=
  snd (longest_loop None (sort_by cmp_asc S) 0 0).
Proof.
  destruct (current_loop_prefix (sort_by cmp_desc S) c 0)
    as (n & rest & Hv & Hd & _).
  rewrite Hv, sort_desc_rev, Hd, rev_app_distr, rev_desc_run.
  pose proof (longest_loop_ends_with_run (rev rest)
                (c - Z.of_nat n + 1) n None 0 0 ltac:(lia)).
  lia.
Qed.

Lemma longest_loop_snd_nonneg (l : list Z) :
  forall prev L T, 0 <= T -> 0 <= snd (longest_loop prev l L T).
Proof.
  intros prev L T HT.
  pose proof (longest_loop_ends_with_run l 0 0 prev L T HT) as H.
  simpl asc_run in H. now rewrite app_nil_r in H.
Qed.

Lemma desc_run_In (n : nat) :
  forall c x, In x (desc_run c n) <-> c - Z.of_nat n < x <= c.
Proof.
  induction n as [|n IH]; intros c x.
  - simpl. lia.
  - simpl desc_run. simpl In. rewrite IH. lia.
Qed.

Lemma sorted_ge_NoDup_gt (l : list Z) :
  StronglySorted (fun a b => b <= a) l -> NoDup l ->
  StronglySorted (fun a b => b < a) l.
Proof.
  induction 1 as [|a l Hs IH Hall]; intros Hnd.
  - constructor.
  - inversion Hnd as [|? ? Hnotin Hnd']; subst.
    constructor; [now apply IH|].
    rewrite Forall_forall in *. intros x Hx.
    specialize (Hall x Hx).
    assert (x <> a) by (intros ->; contradiction). lia.
Qed.

Lemma sorted_gt_split (l1 : list Z) (y : Z) (rest : list Z) :
  StronglySorted (fun a b => b < a) (l1 ++ y :: rest) ->
  (forall x, In x l1 -> y < x) /\ (forall z, In z rest -> z < y).
Proof.
  induction l1 as [|a l1 IH]; simpl; intros Hs.
  - apply StronglySorted_inv in Hs. destruct Hs as [_ Hall].
    rewrite Forall_forall in Hall. split; [intros x []|exact Hall].
  - apply StronglySorted_inv in Hs. destruct Hs as [Hs Hall].
    destruct (IH Hs) as [H1 H2]. split; [|exact H2].
    intros x [<-|Hx]; [|now apply H1].
    rewrite Forall_forall in Hall. apply Hall. apply in_or_app.
    right. now left.
Qed.

Lemma includes_In (d : Z) (l : list Z) : includes d l = true <-> In d l.
Proof.
  unfold includes. rewrite existsb_exists. split.
  - intros (x & Hx & He). apply Z.eqb_eq in He. now subst.
  - intros H. exists d. split; [assumption|apply Z.eqb_refl].
Qed.

Lemma includes_sorted (d : Z) (S : list Z) :
  includes d (sort_by cmp_desc S) = includes d S.
Proof.
  apply eq_true_iff_eq. rewrite !includes_In.
  split; apply Permutation_in;
    [apply sort_by_perm|symmetry; apply sort_by_perm].
Qed.

(** The current-streak loop started at an anchor that is the newest date of
    a duplicate-free set counts exactly the run that ends at the anchor. *)
Lemma current_loop_anchor (S : list Z) (a : Z) :
  NoDup S -> In a S -> (forall x, In x S -> x <= a) ->
  let k := current_loop (sort_by cmp_desc S) a 0 in
  1 <= k /\ run_back S a k /\ ~ In (a - k) S.
Proof.
  intros Hnd Ha Hmax k.
  pose proof (sort_by_perm cmp_desc S) as Hp.
  assert (Hs : StronglySorted (fun x y => y < x) (sort_by cmp_desc S)).
  { apply sorted_ge_NoDup_gt; [apply sort_desc_sorted|].
    eapply Permutation_NoDup; [symmetry; exact Hp|assumption]. }
  destruct (current_loop_prefix (sort_by cmp_desc S) a 0)
    as (n & rest & Hv & Hd & Hr).
  fold k in Hv. rewrite Hd in Hs, Hp.
  assert (Hn : (0 < n)%nat).
  { destruct n as [|n]; [exfalso|lia]. simpl in Hp, Hs, Hr.
    destruct rest as [|y rest'].
    - apply Permutation_nil in Hp. subst S. contradiction.
    - specialize (Hr y rest' eq_refl).
      assert (Hy : y <= a)
        by (apply Hmax; eapply Permutation_in; [exact Hp|now left]).
      assert (Ha' : In a (y :: rest'))
        by (eapply Permutation_in; [symmetry; exact Hp|assumption]).
      destruct Ha' as [->|Ha']; [lia|].
      apply StronglySorted_inv in Hs. destruct Hs as [_ Hall].
      rewrite Forall_forall in Hall. specialize (Hall a Ha'). lia. }
  repeat split.
  - lia.
  - intros i Hi. eapply Permutation_in; [exact Hp|].
    apply in_or_app. left. apply desc_run_In. lia.
  - intros Hin.
    assert (Hin' : In (a - k) (desc_run a n ++ rest))
      by (eapply Permutation_in; [symmetry; exact Hp|assumption]).
    apply in_app_or in Hin'. destruct Hin' as [Hin'|Hin'].
    + apply desc_run_In in Hin'. lia.
    + destruct rest as [|y rest']; [contradiction|].
      specialize (Hr y rest' eq_refl).
      destruct (sorted_gt_split _ _ _ Hs) as [H1 H2].
      assert (Hy : y < a - Z.of_nat n + 1).
      { apply H1. apply desc_run_In. lia. }
      destruct Hin' as [Hin'|Hin']; [lia|].
      specialize (H2 _ Hin'). lia.
Qed.

(** ** The streak engine *)

(** Where the current streak is as intended: with neither today nor
    yesterday completed it is 0; otherwise, when no completed date lies
    after the anchor, it is the length [k >= 1] of the run that ends at the
    anchor ([a, ..., a-(k-1)] completed, [a-k] not). *)
Lemma current_streak_without_later_dates (S : list Z) (today : Z) :
  NoDup S ->
  let a := if includes today S then today else today - 1 in
  let k := currentStreak (computeStreaks S today) in
  (~ In today S -> ~ In (today - 1) S -> k = 0) /\
  (In a S -> (forall x, In x S -> x <= a) ->
   1 <= k /\ run_back S a k /\ ~ In (a - k) S).
Proof.
  intros Hnd a k. split.
  - intros H1 H2. subst k. destruct S as [|x S]; [reflexivity|].
    rewrite currentStreak_eq by discriminate.
    rewrite !includes_sorted.
    rewrite <- includes_In in H1, H2.
    apply not_true_is_false in H1, H2. now rewrite H1, H2.
  - intros Ha Hmax. subst k.
    assert (S <> []) by (intros ->; contradiction).
    rewrite currentStreak_eq by assumption.
    rewrite !includes_sorted. fold a.
    assert (Hor : includes today S || includes (today - 1) S = true).
    { subst a. destruct (includes today S) eqn:E; [reflexivity|].
      simpl. now apply includes_In. }
    rewrite Hor. now apply current_loop_anchor.
Qed.

(** Any completed date after the anchor makes the loop stop at its first
    step: the current streak is then 0. *)
Lemma later_date_zeroes_current (S : list Z) (today x : Z) :
  In x S -> (if includes today S then today else today - 1) < x ->
  currentStreak (computeStreaks S today) = 0.
Proof.
  intros Hx Hlt.
  assert (Hne : S <> []) by (intros ->; contradiction).
  rewrite currentStreak_eq by assumption. rewrite !includes_sorted.
  destruct (includes today S || includes (today - 1) S); [|reflexivity].
  pose proof (sort_by_perm cmp_desc S) as Hp.
  pose proof (sort_desc_sorted S) as Hs.
  destruct (sort_by cmp_desc S) as [|h rest].
  - apply Permutation_nil in Hp. contradiction.
  - assert (Hh : x <= h).
    { apply StronglySorted_inv in Hs. destruct Hs as [_ Hall].
      rewrite Forall_forall in Hall.
      assert (Hin : In x (h :: rest))
        by (eapply Permutation_in; [symmetry; exact Hp|assumption]).
      destruct Hin as [->|Hin]; [lia|now apply Hall]. }
    simpl.
    replace (getTime h =? getTime _) with false; [reflexivity|].
    symmetry. apply Z.eqb_neq. rewrite getTime_inj. lia.
Qed.

(** Claim C1: the claim asks for a current streak of 1 when today is
    completed and yesterday is not, whatever lies after today.  The loop
    starts at the newest date instead of the anchor: with tomorrow also
    completed it stops at once and reports 0. *)
Theorem current_streak_zero_with_later_date (t : Z) :
  In t [t; t + 1] /\ ~ In (t - 1) [t; t + 1] /\
  currentStreak (computeStreaks [t] t) = 1 /\
  currentStreak (computeStreaks [t; t + 1] t) = 0.
Proof.
  split; [now left|]. split; [intros [H|[H|[]]]; lia|].
  assert (Hs : sort_by cmp_desc [t; t + 1] = [t + 1; t]).
  { unfold sort_by. cbn [fold_right insert_by].
    destruct (Z.leb_spec (cmp_desc t (t + 1)) 0) as [H|H]; [|reflexivity].
    apply -> cmp_desc_ge in H. lia. }
  split.
  - rewrite currentStreak_eq by discriminate.
    unfold sort_by. simpl. rewrite Z.eqb_refl. simpl.
    now rewrite Z.eqb_refl.
  - rewrite currentStreak_eq by discriminate. rewrite Hs.
    simpl. rewrite Z.eqb_refl.
    replace (t =? t + 1) with false by (symmetry; apply Z.eqb_neq; lia).
    simpl.
    replace (getTime (t + 1) =? getTime t) with false; [reflexivity|].
    symmetry. apply Z.eqb_neq. rewrite getTime_inj. lia.
Qed.

(** Claim C2: over a duplicate-free set of completed dates the longest
    streak is the maximum length of a run of consecutive days (0 for the
    empty set, the length of some run otherwise, and no run is longer), and
    it is the value of the scan that restarts at 1 on the first date and
    after a gap of more than one day. *)
Theorem longest_streak_is_max_run (S : list Z) (today : Z) :
  NoDup S ->
  let n := longestStreak (computeStreaks S today) in
  (S = [] -> n = 0) /\
  (S <> [] -> 1 <= n /\ exists a, run_from S a n) /\
  (forall a k, run_from S a k -> k <= n) /\
  n = f_longest S.
Proof.
  intros Hnd n. subst n. rewrite longestStreak_eq.
  unfold f_longest. rewrite sort_compare_Z_eq.
  pose proof (sort_by_perm cmp_asc S) as Hp.
  assert (Hs : StronglySorted Z.lt (sort_by cmp_asc S)).
  { apply sorted_le_NoDup_lt; [apply sort_asc_sorted|].
    eapply Permutation_NoDup; [symmetry; exact Hp|assumption]. }
  destruct (sort_by cmp_asc S) as [|c rest] eqn:El.
  - apply Permutation_nil in Hp. subst S. simpl.
    repeat split; try reflexivity.
    + congruence.
    + congruence.
    + intros a k Hr. destruct (Z.le_gt_cases k 0) as [|Hk]; [assumption|].
      destruct (Hr 0 ltac:(lia)).
  - simpl longest_loop. simpl scan_runs.
    destruct (longest_loop_inv rest [c] c 0 1 (scan_inv_init c) Hs)
      as (p' & Hinv).
    simpl app in Hinv.
    destruct (scan_inv_achieved _ _ _ _ Hinv) as (H1 & a & Ha).
    repeat split.
    + intros ->. symmetry in Hp. apply Permutation_nil in Hp. discriminate.
    + assumption.
    + exists a. eapply run_from_perm; [exact Hp|exact Ha].
    + intros a' k Hr. eapply scan_inv_bound; [exact Hinv|].
      eapply run_from_perm; [symmetry; exact Hp|exact Hr].
    + symmetry. apply scan_runs_loop; [reflexivity|assumption].
Qed.

Lemma computeStreaks_perm (dates1 dates2 : list Z) (today : Z) :
  Permutation dates1 dates2 ->
  computeStreaks dates1 today = computeStreaks dates2 today.
Proof.
  intros Hp.
  assert (Ha : sort_by cmp_asc dates1 = sort_by cmp_asc dates2)
    by now apply sort_asc_perm_eq.
  assert (Hd : sort_by cmp_desc dates1 = sort_by cmp_desc dates2).
  { rewrite <- (rev_involutive (sort_by cmp_desc dates1)).
    rewrite <- (rev_involutive (sort_by cmp_desc dates2)).
    now rewrite <- !sort_desc_rev, Ha. }
  destruct dates1 as [|x l1], dates2 as [|y l2].
  - reflexivity.
  - apply Permutation_nil in Hp. discriminate.
  - symmetry in Hp. apply Permutation_nil in Hp. discriminate.
  - unfold computeStreaks. now rewrite Ha, Hd.
Qed.

(** Claim C4: the streak pair depends only on which dates are present, not
    on the order in which they are supplied. *)
Theorem computeStreaks_order_independent (dates1 dates2 : list Z) (today : Z) :
  Permutation dates1 dates2 ->
  computeStreaks dates1 today = computeStreaks dates2 today.
Proof. apply computeStreaks_perm. Qed.

(** Counting in calendar days, with only yesterday completed both the
    current and the longest streak are 1. *)
Lemma grace_day (t : Z) : computeStreaks [t - 1] t = mkStreaks 1 1.
Proof.
  unfold computeStreaks, sort_by. simpl.
  replace (t =? t - 1) with false by (symmetry; apply Z.eqb_neq; lia).
  rewrite !Z.eqb_refl. reflexivity.
Qed.

(** Claim C9: the longest streak is never smaller than the current one. *)
Theorem current_le_longest (dates : list Z) (today : Z) :
  currentStreak (computeStreaks dates today)
  <= longestStreak (computeStreaks dates today).
Proof.
  destruct dates as [|x l] eqn:E; [simpl; lia|]. rewrite <- E.
  assert (Hne : dates <> []) by (rewrite E; discriminate).
  rewrite currentStreak_eq by assumption. rewrite longestStreak_eq.
  pose proof (longest_loop_snd_nonneg (sort_by cmp_asc dates) None 0 0
                ltac:(lia)) as H0.
  destruct (includes today (sort_by cmp_desc dates)
            || includes (today - 1) (sort_by cmp_desc dates)); [|lia].
  match goal with
  | |- current_loop _ ?c 0 <= _ =>
      pose proof (current_le_longest_loop dates c)
  end.
  lia.
Qed.

(** ** The store *)

Lemma single_Data {A : Type} (rows : list A) (row : A) :
  single rows = Data row <-> rows = [row].
Proof.
  split.
  - destruct rows as [|x [|y rows]]; simpl; intros H; try discriminate.
    now injection H as ->.
  - now intros ->.
Qed.

Lemma filter_map_stable {A : Type} (p : A -> bool) (f : A -> A) (l : list A) :
  (forall x, p (f x) = p x) -> filter p (map f l) = map f (filter p l).
Proof.
  intros H. rewrite filter_map_swap. f_equal. now apply filter_ext.
Qed.

Lemma filter_none {A : Type} (p : A -> bool) (l : list A) :
  existsb p l = false -> filter p l = [].
Proof.
  induction l as [|x l IH]; simpl; [reflexivity|].
  destruct (p x); simpl; [discriminate|assumption].
Qed.

Lemma map_fixed {A : Type} (f : A -> A) (l : list A) :
  (forall x, In x l -> f x = x) -> map f l = l.
Proof.
  intros H. rewrite <- (map_id l) at 2. now apply map_ext_in.
Qed.

Lemma fresh_id_new (rows : list Completion.t) :
  existsb (has_id (fresh_id rows)) rows = false.
Proof.
  apply not_true_is_false. rewrite existsb_exists.
  intros (c & Hc & Hid). unfold has_id in Hid. apply Nat.eqb_eq in Hid.
  assert (Hle : Forall (fun k => (k <= list_max (map Completion.id rows))%nat)
                  (map Completion.id rows))
    by (now apply list_max_le).
  rewrite Forall_forall in Hle.
  specialize (Hle _ (in_map Completion.id _ _ Hc)).
  unfold fresh_id in Hid. lia.
Qed.

Lemma update_keeps_key (habitId : nat) (d : Z) (k : nat) (b : bool)
    (c : Completion.t) :
  same_key habitId d (if has_id k c then set_completed b c else c)
  = same_key habitId d c.
Proof. now destruct (has_id k c). Qed.

Lemma update_keeps_id (k k' : nat) (b : bool) (c : Completion.t) :
  has_id k (if has_id k' c then set_completed b c else c) = has_id k c.
Proof. now destruct (has_id k' c). Qed.

Lemma order_rows_perm {A : Type} (cmp : A -> A -> Z) (asc : bool)
    (rows : list A) :
  Permutation (order_rows cmp asc rows) rows.
Proof. apply sort_by_perm. Qed.

Lemma updateHabitStreaks_eq (habitId : nat) (today : Z) (db : database) :
  updateHabitStreaks habitId today db =
  (Ok (computeStreaks (completed_dates habitId db) today),
   with_streaks habitId (computeStreaks (completed_dates habitId db) today)
     db).
Proof.
  unfold updateHabitStreaks, bind, await, select_completed, update_streaks,
    ret, with_streaks, completed_dates.
  cbn beta iota.
  rewrite (computeStreaks_perm _
             (map Completion.completion_date
                (filter (completed_of habitId) (habit_completions db)))).
  - reflexivity.
  - apply Permutation_map, order_rows_perm.
Qed.

Lemma toggle_unfold (habitId userId : nat) (date : Z) (completed : bool)
    (today : Z) (db : database) :
  toggleHabitCompletion habitId userId date completed today db =
  let recompute := fun row db1 =>
    (Ok row,
     with_streaks habitId
       (computeStreaks (completed_dates habitId db1) today) db1) in
  match single (filter (same_key habitId (toISODate date))
                  (habit_completions db)) with
  | Data e =>
      match update_completion (Completion.id e) completed db with
      | (Data row, db1) => recompute row db1
      | (Error m, db1) =>
          (Err ("Failed to update completion: " ++ m)%string, db1)
      end
  | Error _ =>
      match insert_completion habitId userId (toISODate date) completed db
      with
      | (Data row, db1) => recompute row db1
      | (Error m, db1) =>
          (Err ("Failed to create completion: " ++ m)%string, db1)
      end
  end.
Proof.
  unfold toggleHabitCompletion, bind, await, select_completion, ret, throw.
  cbn beta iota zeta.
  destruct (single _) as [e|m]; cbn [data].
  - destruct (update_completion _ _ _) as [[row|m] db1].
    + now rewrite updateHabitStreaks_eq.
    + reflexivity.
  - destruct (insert_completion _ _ _ _ _) as [[row|m'] db1].
    + now rewrite updateHabitStreaks_eq.
    + reflexivity.
Qed.

(** What a completed upsert leaves behind: one record under the key, one
    under its identifier, carrying the requested flag. *)
Lemma toggle_ok_inv (habitId userId : nat) (date : Z) (completed : bool)
    (today : Z) (db db' : database) (row : Completion.t) :
  toggleHabitCompletion habitId userId date completed today db
  = (Ok row, db') ->
  exists db1,
    db' = with_streaks habitId
            (computeStreaks (completed_dates habitId db1) today) db1 /\
    filter (same_key habitId (toISODate date)) (habit_completions db1)
    = [row] /\
    filter (has_id (Completion.id row)) (habit_completions db1) = [row] /\
    Completion.completed row = completed /\
    Completion.completion_date row = toISODate date /\
    Completion.habit_id row = habitId.
Proof.
  rewrite toggle_unfold. cbn zeta.
  destruct (single _) as [e|m] eqn:Hsel.
  - apply single_Data in Hsel.
    unfold update_completion.
    destruct (single (map _ _)) as [row'|m] eqn:Hupd; [|discriminate].
    intros H. injection H as -> <-.
    apply single_Data in Hupd.
    assert (He : In e (filter (same_key habitId (toISODate date))
                         (habit_completions db)))
      by (rewrite Hsel; now left).
    apply filter_In in He. destruct He as [He Hkey].
    destruct (filter (has_id (Completion.id e)) (habit_completions db))
      as [|e' [|e'' l]] eqn:Hid; try discriminate.
    assert (e' = e) as ->.
    { assert (Hin : In e (filter (has_id (Completion.id e))
                            (habit_completions db))).
      { apply filter_In. split; [assumption|]. apply Nat.eqb_refl. }
      rewrite Hid in Hin. destruct Hin as [Hin|[]]. assumption. }
    simpl in Hupd. injection Hupd as <-.
    eexists. split; [reflexivity|]. cbn [habit_completions].
    unfold same_key in Hkey. apply andb_prop in Hkey.
    destruct Hkey as [Hh Hd]. apply Nat.eqb_eq in Hh. apply Z.eqb_eq in Hd.
    repeat split; try assumption.
    + rewrite filter_map_stable by (intros x; apply update_keeps_key).
      rewrite Hsel. simpl. unfold has_id. now rewrite Nat.eqb_refl.
    + cbn [set_completed Completion.id].
      rewrite filter_map_stable by (intros x; apply update_keeps_id).
      rewrite Hid. simpl. unfold has_id. now rewrite Nat.eqb_refl.
  - unfold insert_completion.
    destruct (negb _); [discriminate|].
    destruct (existsb (same_key _ _) _) eqn:Hnone; [discriminate|].
    intros H. injection H as <- <-.
    eexists. split; [reflexivity|]. cbn [habit_completions Completion.id].
    rewrite !filter_app.
    rewrite (filter_none _ _ Hnone), (filter_none _ _ (fresh_id_new _)).
    simpl. unfold same_key, has_id. simpl.
    rewrite !Nat.eqb_refl, Z.eqb_refl. simpl. repeat split.
Qed.

(** A toggle on a store that already holds the record under the key
    overwrites its flag and recomputes. *)
Lemma toggle_existing (habitId userId : nat) (date : Z) (completed : bool)
    (today : Z) (db : database) (row : Completion.t) :
  filter (same_key habitId (toISODate date)) (habit_completions db) = [row] ->
  filter (has_id (Completion.id row)) (habit_completions db) = [row] ->
  toggleHabitCompletion habitId userId date completed today db =
  (Ok (set_completed completed row),
   with_streaks habitId
     (computeStreaks
        (completed_dates habitId
           (with_completed (Completion.id row) completed db)) today)
     (with_completed (Completion.id row) completed db)).
Proof.
  intros Hkey Hid. rewrite toggle_unfold. cbn zeta.
  rewrite Hkey. cbn [single]. unfold update_completion.
  rewrite Hid. reflexivity.
Qed.



Lemma completed_dates_with_streaks (habitId k : nat) (s : streaks)
    (db : database) :
  completed_dates habitId (with_streaks k s db) = completed_dates habitId db.
Proof. reflexivity. Qed.

Lemma toISODate_bounds (ms : Z) :
  getTime (toISODate ms) <= ms < getTime (toISODate ms) + msPerDay.
Proof.
  unfold getTime, toISODate. rewrite msPerDay_value.
  pose proof (Z.div_mod ms 86400000 ltac:(lia)).
  pose proof (Z.mod_pos_bound ms 86400000 ltac:(lia)). lia.
Qed.

(** The schema's uniqueness constraint survives every toggle, whether it
    returns or throws. *)
Lemma toggle_preserves_unique (habitId userId : nat) (date : Z)
    (completed : bool) (today : Z) (db : database) :
  unique_completions (habit_completions db) ->
  unique_completions
    (habit_completions
       (snd (toggleHabitCompletion habitId userId date completed today db))).
Proof.
  intros Huniq. rewrite toggle_unfold. cbn zeta.
  assert (Hupd : forall k,
            unique_completions
              (habit_completions (with_completed k completed db))).
  { intros k c1 c2 H1 H2 Hh Hd. cbn [with_completed habit_completions] in *.
    apply in_map_iff in H1, H2.
    destruct H1 as (x1 & <- & H1), H2 as (x2 & <- & H2).
    assert (x1 = x2) as ->; [|reflexivity].
    apply Huniq; try assumption.
    - destruct (has_id k x1), (has_id k x2); exact Hh.
    - destruct (has_id k x1), (has_id k x2); exact Hd. }
  destruct (single _) as [e|m].
  - unfold update_completion.
    destruct (single (map _ _)); cbn [snd with_streaks habit_completions];
      [apply (Hupd (Completion.id e))|assumption].
  - unfold insert_completion.
    destruct (negb _); [assumption|].
    destruct (existsb _ _) eqn:Hnone; [assumption|].
    cbn [snd with_streaks habit_completions].
    intros c1 c2 H1 H2 Hh Hd.
    assert (Hnew : forall c,
              In c (habit_completions db) ->
              Completion.habit_id c = habitId ->
              Completion.completion_date c = toISODate date -> False).
    { intros c Hc Hch Hcd.
      assert (existsb (same_key habitId (toISODate date))
                (habit_completions db) = true); [|congruence].
      apply existsb_exists. exists c. split; [assumption|].
      unfold same_key. rewrite Hch, Hcd.
      now rewrite Nat.eqb_refl, Z.eqb_refl. }
    apply in_app_or in H1, H2.
    destruct H1 as [H1|[<-|[]]], H2 as [H2|[<-|[]]].
    + now apply Huniq.
    + exfalso. apply (Hnew c1 H1); [exact Hh|exact Hd].
    + exfalso. apply (Hnew c2 H2); [symmetry; exact Hh|symmetry; exact Hd].
    + reflexivity.
Qed.

(** ** [toggleHabitCompletion] *)

(** After a completed toggle the habit's persisted streak pair is the
    pair [computeStreaks] gives for all of the habit's records marked
    completed in the resulting store, whatever the pair was before. *)
Lemma toggle_recomputes_streaks (habitId userId : nat) (date : Z)
    (completed : bool) (today : Z) (db db' : database) (row : Completion.t) :
  toggleHabitCompletion habitId userId date completed today db
  = (Ok row, db') ->
  forall h, In h (habits db') -> Habit.id h = habitId ->
    Habit.current_streak h
    = currentStreak (computeStreaks (completed_dates habitId db') today) /\
    Habit.longest_streak h
    = longestStreak (computeStreaks (completed_dates habitId db') today).
Proof.
  intros Htoggle h Hin Hid.
  destruct (toggle_ok_inv _ _ _ _ _ _ _ _ Htoggle) as (db1 & -> & _).
  rewrite completed_dates_with_streaks.
  unfold with_streaks in Hin. cbn [habits] in Hin.
  apply in_map_iff in Hin. destruct Hin as (h0 & Hh & _).
  destruct (Habit.id h0 =? habitId)%nat eqn:E.
  - subst h. split; reflexivity.
  - subst h. apply Nat.eqb_neq in E. contradiction.
Qed.


(** Claim C10: the record a toggle addresses is keyed by the UTC calendar
    day of its date argument; a second toggle whose date falls on the same
    day overwrites that record instead of creating another. *)
Theorem toggle_same_calendar_day (habitId userId userId2 : nat)
    (date1 date2 : Z) (completed1 completed2 : bool) (today today2 : Z)
    (db db1 : database) (row1 : Completion.t) :
  toISODate date1 = toISODate date2 ->
  toggleHabitCompletion habitId userId date1 completed1 today db
  = (Ok row1, db1) ->
  getTime (Completion.completion_date row1) <= date1
    < getTime (Completion.completion_date row1) + msPerDay /\
  exists row2 db2,
    toggleHabitCompletion habitId userId2 date2 completed2 today2 db1
    = (Ok row2, db2) /\
    Completion.id row2 = Completion.id row1 /\
    Completion.completion_date row2 = Completion.completion_date row1 /\
    List.length (habit_completions db2)
    = List.length (habit_completions db1) /\
    filter (same_key habitId (toISODate date1)) (habit_completions db2)
    = [row2].
Proof.
  intros Hday Htoggle.
  destruct (toggle_ok_inv _ _ _ _ _ _ _ _ Htoggle)
    as (dbA & -> & Hkey & Hid & _ & Hdate & _).
  split; [rewrite Hdate; apply toISODate_bounds|].
  eexists. eexists. split.
  - apply (toggle_existing _ _ _ _ _ _ row1); [|exact Hid].
    rewrite <- Hday. exact Hkey.
  - cbn [with_streaks with_completed habit_completions habits].
    repeat split.
    + now rewrite length_map.
    + rewrite filter_map_stable by (intros x; apply update_keeps_key).
      rewrite Hkey. simpl. unfold has_id. now rewrite Nat.eqb_refl.
Qed.

(** ** [getUserHabits] *)

Lemma push_completion_get (c : Completion.t)
    (byHabit : list (nat * list Completion.t)) (k : nat) :
  completions_of (push_completion c byHabit) k =
  completions_of byHabit k
  ++ (if (Completion.habit_id c =? k)%nat then [c] else []).
Proof.
  unfold completions_of, find_first.
  induction byHabit as [|[k' cs] rest IH]; simpl.
  - now destruct (Completion.habit_id c =? k)%nat.
  - destruct (k' =? Completion.habit_id c)%nat eqn:E1; simpl.
    + apply Nat.eqb_eq in E1. subst k'.
      destruct (Completion.habit_id c =? k)%nat; simpl;
        [reflexivity|now rewrite app_nil_r].
    + destruct (k' =? k)%nat eqn:E2; simpl; [|exact IH].
      apply Nat.eqb_eq in E2. subst k'. rewrite Nat.eqb_sym in E1.
      rewrite E1. now rewrite app_nil_r.
Qed.

Lemma group_completions_get_from (completions : list Completion.t) (k : nat) :
  forall byHabit,
    completions_of
      (fold_left (fun m c => push_completion c m) completions byHabit) k =
    completions_of byHabit k
    ++ filter (fun c => (Completion.habit_id c =? k)%nat) completions.
Proof.
  induction completions as [|c cs IH]; intros byHabit; simpl.
  - now rewrite app_nil_r.
  - rewrite IH, push_completion_get, <- app_assoc.
    now destruct (Completion.habit_id c =? k)%nat.
Qed.

(** [completionsByHabit[id] || []] holds the fetched completions of the
    habit, in the order fetched. *)
Lemma group_completions_get (completions : list Completion.t) (k : nat) :
  completions_of (group_completions completions) k =
  filter (fun c => (Completion.habit_id c =? k)%nat) completions.
Proof.
  unfold group_completions. now rewrite group_completions_get_from.
Qed.

Lemma find_unique_date (today : Z) (rc : list Completion.t) :
  (forall c1 c2, In c1 rc -> In c2 rc ->
     Completion.completion_date c1 = Completion.completion_date c2 ->
     c1 = c2) ->
  match find_first (fun c => Completion.completion_date c =? today) rc with
  | Some c => Completion.completed c
  | None => false
  end
  = existsb (fun c => (Completion.completion_date c =? today)
                      && Completion.completed c) rc.
Proof.
  unfold find_first.
  induction rc as [|x rc IH]; intros Huniq; simpl; [reflexivity|].
  destruct (Completion.completion_date x =? today) eqn:E; simpl.
  - destruct (Completion.completed x) eqn:Ec; [reflexivity|]. simpl.
    symmetry. apply not_true_is_false. intros Hex.
    apply existsb_exists in Hex. destruct Hex as (c & Hc & Hp).
    apply andb_prop in Hp. destruct Hp as [Hd Hcc].
    apply Z.eqb_eq in E, Hd.
    assert (x = c) by (apply Huniq; [now left|now right|congruence]).
    subst c. congruence.
  - apply IH. intros c1 c2 H1 H2. apply Huniq; now right.
Qed.

Lemma filter_all_false {A : Type} (p : A -> bool) (l : list A) :
  (forall x, p x = false) -> filter p l = [].
Proof.
  intros H. induction l as [|x l IH]; simpl; [reflexivity|].
  now rewrite H.
Qed.

Lemma sort_column_default (key : string) :
  key <> "title"%string -> key <> "current_streak"%string ->
  sort_column_of key = ColCreatedAt.
Proof.
  intros H1 H2. unfold sort_column_of.
  apply String.eqb_neq in H1, H2. now rewrite H1, H2.
Qed.

Ltac unfold_getUserHabits :=
  unfold getUserHabits, bind, await, select_habits, select_recent, ret, throw;
  cbn beta iota zeta.

(** The method never throws on a store that answers, and leaves it as it
    was. *)
Lemma getUserHabits_ok (userId : nat) (opts : Options.t) (today : Z)
    (db : database) :
  exists views, getUserHabits userId opts today db = (Ok views, db).
Proof.
  unfold_getUserHabits.
  destruct (order_rows _ _ _) as [|h hs]; [now eexists|].
  destruct (Filter.completed_today _); now eexists.
Qed.

(** With the [completed_today] filter set to [b], the habits returned are
    those of the unfiltered answer whose recent window holds a record dated
    today and marked completed (for [b = true]), or the others (for
    [b = false]). *)
Lemma completed_today_filter_exact (userId : nat) (opts : Options.t)
    (b : bool) (today : Z) (db : database) :
  unique_completions (habit_completions db) ->
  exists views,
    getUserHabits userId (set_completed_today None opts) today db
    = (Ok views, db) /\
    getUserHabits userId (set_completed_today (Some b) opts) today db
    = (Ok (filter (fun v => Bool.eqb (has_completed_record today v) b)
             views), db).
Proof.
  intros Huniq. unfold_getUserHabits.
  cbn [set_completed_today Options.filter Options.sortBy Options.sortOrder
       Options.days Filter.category Filter.is_archived
       Filter.completed_today].
  destruct (order_rows _ _ _) as [|h hs]; [now exists []|].
  eexists. split; [reflexivity|]. f_equal. f_equal.
  apply filter_ext_in. intros v Hv.
  apply in_map_iff in Hv. destruct Hv as (h0 & <- & _).
  unfold completed_today_filter, has_completed_record.
  cbn [recent_completions].
  rewrite find_unique_date.
  - match goal with |- context [existsb ?p ?l] => destruct (existsb p l) end;
      now destruct b.
  - rewrite group_completions_get. intros c1 c2 H1 H2 Hd.
    apply filter_In in H1, H2. destruct H1 as [H1 K1], H2 as [H2 K2].
    apply Nat.eqb_eq in K1, K2.
    apply (Permutation_in _ (order_rows_perm _ _ _)) in H1, H2.
    apply filter_In in H1, H2.
    apply Huniq; try tauto. congruence.
Qed.

(** Every view of the answer carries the habit's records of the window
    [today - days + 1 .. today]. *)
Lemma getUserHabits_window (userId : nat) (opts : Options.t) (today : Z)
    (db : database) (views : list habit_view) :
  getUserHabits userId opts today db = (Ok views, db) ->
  forall v, In v views ->
    recent_completions v =
    filter (fun c => (Completion.habit_id c =? Habit.id (habit v))%nat)
      (order_rows by_completion_date false
         (filter
            (fun c => (Completion.user_id c =? userId)%nat
                      && (today - Options.days opts + 1
                          <=? Completion.completion_date c)
                      && (Completion.completion_date c <=? today))
            (habit_completions db))).
Proof.
  unfold_getUserHabits.
  destruct (order_rows (compare_column _) _ _) as [|h hs].
  - intros H. injection H as <-. intros v [].
  - remember (map _ (h :: hs)) as vs eqn:Evs.
    assert (Hall : forall v, In v vs ->
              recent_completions v =
              filter
                (fun c => (Completion.habit_id c =? Habit.id (habit v))%nat)
                (order_rows by_completion_date false
                   (filter
                      (fun c => (Completion.user_id c =? userId)%nat
                                && (today - Options.days opts + 1
                                    <=? Completion.completion_date c)
                                && (Completion.completion_date c <=? today))
                      (habit_completions db)))).
    { intros v Hv. rewrite Evs in Hv. apply in_map_iff in Hv.
      destruct Hv as (h0 & <- & _). cbn [recent_completions habit].
      apply group_completions_get. }
    destruct (Filter.completed_today _); intros H; injection H as <-;
      intros v Hv; [apply filter_In in Hv; destruct Hv as [Hv _]|];
      now apply Hall.
Qed.

(** ** Worked instances *)

Example streaks_empty : computeStreaks [] 100 = mkStreaks 0 0.
Proof. reflexivity. Qed.

Example streaks_today_only : computeStreaks [100] 100 = mkStreaks 1 1.
Proof. reflexivity. Qed.

Example streaks_broken : computeStreaks [97] 100 = mkStreaks 0 1.
Proof. reflexivity. Qed.

Example streaks_two_runs : computeStreaks sample_dates 100 = mkStreaks 3 3.
Proof. reflexivity. Qed.

Example streaks_later_date : computeStreaks [100; 101] 100 = mkStreaks 0 2.
Proof. reflexivity. Qed.

Example toggle_unknown_habit :
  fst (toggleHabitCompletion 9 7 morning_100 true 100 sample_db)
  = Err "Failed to create completion: violates foreign key constraint".
Proof. reflexivity. Qed.

Lemma sample_dates_NoDup : NoDup sample_dates.
Proof.
  unfold sample_dates. repeat constructor; simpl; lia.
Qed.

Lemma sample_db_unique : unique_completions (habit_completions sample_db).
Proof.
  intros c1 c2 H1 H2 Hh Hd. simpl in H1, H2.
  repeat (destruct H1 as [<-|H1]); try contradiction;
    repeat (destruct H2 as [<-|H2]); try contradiction;
    simpl in Hh, Hd; try reflexivity; try discriminate.
Qed.

(** ** Instances of the theorems *)

Lemma longest_streak_is_max_run_witness :
  NoDup sample_dates /\
  (let n := longestStreak (computeStreaks sample_dates 100) in
   (sample_dates = [] -> n = 0) /\
   (sample_dates <> [] -> 1 <= n /\ exists a, run_from sample_dates a n) /\
   (forall a k, run_from sample_dates a k -> k <= n) /\
   n = f_longest sample_dates).
Proof.
  split.
  - exact sample_dates_NoDup.
  - exact (longest_streak_is_max_run sample_dates 100 sample_dates_NoDup).
Defined.

Lemma computeStreaks_order_independent_witness :
  Permutation [99; 100; 98] [100; 98; 99] /\
  computeStreaks [99; 100; 98] 100 = computeStreaks [100; 98; 99] 100.
Proof.
  assert (H : Permutation [99; 100; 98] [100; 98; 99]).
  { apply perm_trans with (l' := [100; 99; 98]).
    - apply perm_swap.
    - apply perm_skip, perm_swap. }
  split.
  - exact H.
  - exact (computeStreaks_order_independent _ _ 100 H).
Defined.


Lemma toggle_same_calendar_day_witness :
  let out := toggleHabitCompletion 2 7 morning_100 true 100 sample_db in
  let row1 := Completion.mk 3 2 7 100 true in
  toISODate morning_100 = toISODate evening_100 /\
  out = (Ok row1, snd out) /\
  getTime (Completion.completion_date row1) <= morning_100
    < getTime (Completion.completion_date row1) + msPerDay /\
  exists row2 db2,
    toggleHabitCompletion 2 7 evening_100 false 100 (snd out)
    = (Ok row2, db2) /\
    Completion.id row2 = Completion.id row1 /\
    Completion.completion_date row2 = Completion.completion_date row1 /\
    List.length (habit_completions db2)
    = List.length (habit_completions (snd out)) /\
    filter (same_key 2 (toISODate morning_100)) (habit_completions db2)
    = [row2].
Proof.
  intros out row1.
  assert (H1 : toISODate morning_100 = toISODate evening_100) by reflexivity.
  assert (H2 : out = (Ok row1, snd out)) by reflexivity.
  split; [exact H1|]. split; [exact H2|].
  exact (toggle_same_calendar_day 2 7 7 morning_100 evening_100 true false
           100 100 sample_db (snd out) row1 H1 H2).
Defined.

(** * Further properties *)

(** ** Bounds and monotonicity of the streak engine *)

Lemma longest_loop_le_length (l : list Z) :
  forall prev L T,
    0 <= L -> 0 <= T ->
    Z.max (fst (longest_loop prev l L T)) (snd (longest_loop prev l L T))
    <= Z.max L T + Z.of_nat (List.length l).
Proof.
  induction l as [|c l IH]; intros prev L T HL HT.
  - simpl. lia.
  - cbn [longest_loop List.length].
    destruct prev as [p|]; [destruct (dayDiff_is_1 p c)|].
    + pose proof (IH (Some c) L (T + 1) HL ltac:(lia)). lia.
    + pose proof (IH (Some c) (Z.max L T) 1 ltac:(lia) ltac:(lia)). lia.
    + pose proof (IH (Some c) L 1 HL ltac:(lia)). lia.
Qed.

Lemma current_loop_nonneg (d : list Z) (c : Z) : 0 <= current_loop d c 0.
Proof.
  destruct (current_loop_prefix d c 0) as (n & rest & Hv & _). lia.
Qed.

Lemma longest_loop_nonempty (l : list Z) :
  l <> [] -> 1 <= snd (longest_loop None l 0 0).
Proof.
  intros Hne. destruct (exists_last Hne) as (pre & a & ->).
  exact (longest_loop_ends_with_run pre a 1 None 0 0 ltac:(lia)).
Qed.

(** The current streak is never negative, the longest streak never exceeds
    the number of dates, and it is 0 exactly for the empty input. *)
Theorem streaks_bounds (dates : list Z) (today : Z) :
  0 <= currentStreak (computeStreaks dates today) /\
  longestStreak (computeStreaks dates today)
  <= Z.of_nat (List.length dates) /\
  (longestStreak (computeStreaks dates today) = 0 <-> dates = []).
Proof.
  destruct dates as [|x l] eqn:E; [simpl; repeat split; lia|].
  rewrite <- E.
  assert (Hne : dates <> []) by (rewrite E; discriminate).
  split; [|split].
  - rewrite currentStreak_eq by assumption.
    destruct (_ || _); [apply current_loop_nonneg|lia].
  - rewrite longestStreak_eq.
    pose proof (longest_loop_le_length (sort_by cmp_asc dates) None 0 0
                  ltac:(lia) ltac:(lia)) as H.
    rewrite (Permutation_length (sort_by_perm cmp_asc dates)) in H. lia.
  - rewrite longestStreak_eq. split; [|intros H; contradiction].
    assert (Hs : sort_by cmp_asc dates <> []).
    { intros H0. pose proof (sort_by_perm cmp_asc dates) as Hp.
      rewrite H0 in Hp. apply Permutation_nil in Hp. contradiction. }
    pose proof (longest_loop_nonempty _ Hs). lia.
Qed.

(** For a duplicate-free set the longest streak bounds every run and is
    either 0 or the length of a run. *)
Lemma longest_run_bounds (S : list Z) (today : Z) :
  NoDup S ->
  (forall a k, run_from S a k ->
     k <= longestStreak (computeStreaks S today)) /\
  (longestStreak (computeStreaks S today) = 0 \/
   exists a, run_from S a (longestStreak (computeStreaks S today))).
Proof.
  intros Hnd. rewrite longestStreak_eq.
  pose proof (sort_by_perm cmp_asc S) as Hp.
  assert (Hs : StronglySorted Z.lt (sort_by cmp_asc S)).
  { apply sorted_le_NoDup_lt; [apply sort_asc_sorted|].
    eapply Permutation_NoDup; [symmetry; exact Hp|assumption]. }
  destruct (sort_by cmp_asc S) as [|c rest] eqn:El.
  - apply Permutation_nil in Hp. subst S. simpl. split; [|now left].
    intros a k Hr. destruct (Z.le_gt_cases k 0) as [|Hk]; [assumption|].
    destruct (Hr 0 ltac:(lia)).
  - simpl longest_loop.
    destruct (longest_loop_inv rest [c] c 0 1 (scan_inv_init c) Hs)
      as (p' & Hinv).
    simpl app in Hinv.
    destruct (scan_inv_achieved _ _ _ _ Hinv) as (_ & a & Ha). split.
    + intros a' k Hr. eapply scan_inv_bound; [exact Hinv|].
      eapply run_from_perm; [symmetry; exact Hp|exact Hr].
    + right. exists a. eapply run_from_perm; [exact Hp|exact Ha].
Qed.

(** Marking further days as completed never lowers the longest streak. *)
Theorem longest_streak_monotone (S S' : list Z) (today today' : Z) :
  NoDup S -> NoDup S' -> incl S S' ->
  longestStreak (computeStreaks S today)
  <= longestStreak (computeStreaks S' today').
Proof.
  intros Hnd Hnd' Hincl.
  destruct (longest_run_bounds S today Hnd) as [_ [H0|[a Ha]]].
  - rewrite H0, longestStreak_eq.
    pose proof (longest_loop_snd_nonneg (sort_by cmp_asc S') None 0 0
                  ltac:(lia)). lia.
  - apply (proj1 (longest_run_bounds S' today' Hnd') a).
    intros i Hi. apply Hincl. now apply Ha.
Qed.

Lemma run_back_length_unique (S : list Z) (a k1 k2 : Z) :
  0 <= k1 -> 0 <= k2 ->
  run_back S a k1 -> ~ In (a - k1) S ->
  run_back S a k2 -> ~ In (a - k2) S ->
  k1 = k2.
Proof.
  intros H1 H2 Hr1 Hn1 Hr2 Hn2.
  destruct (Z.lt_trichotomy k1 k2) as [Hlt|[Heq|Hgt]]; [|assumption|].
  - exfalso. apply Hn1. apply Hr2. lia.
  - exfalso. apply Hn2. apply Hr1. lia.
Qed.

Lemma complete_today_extends (S : list Z) (today : Z) :
  NoDup S -> (forall x, In x S -> x < today) ->
  currentStreak (computeStreaks (today :: S) today)
  = currentStreak (computeStreaks S today) + 1.
Proof.
  intros Hnd Hlt.
  assert (Hnot : ~ In today S) by (intros H; specialize (Hlt _ H); lia).
  assert (Hnd' : NoDup (today :: S)) by (now constructor).
  assert (Hnew : currentStreak (computeStreaks (today :: S) today)
                 = current_loop (sort_by cmp_desc (today :: S)) today 0).
  { rewrite currentStreak_eq by discriminate. rewrite !includes_sorted.
    replace (includes today (today :: S)) with true; [reflexivity|].
    symmetry. apply includes_In. now left. }
  rewrite Hnew.
  destruct (current_loop_anchor (today :: S) today Hnd' (or_introl eq_refl))
    as (Hk1 & Hrun & Hstop).
  { intros x [<-|Hx]; [lia|]. specialize (Hlt _ Hx). lia. }
  set (k' := current_loop (sort_by cmp_desc (today :: S)) today 0) in *.
  assert (Hinc : includes today S = false).
  { apply not_true_is_false. now rewrite includes_In. }
  destruct (includes (today - 1) S) eqn:Hy.
  - apply includes_In in Hy.
    assert (Hold : currentStreak (computeStreaks S today)
                   = current_loop (sort_by cmp_desc S) (today - 1) 0).
    { rewrite currentStreak_eq by (intros ->; contradiction).
      rewrite !includes_sorted, Hinc.
      replace (includes (today - 1) S) with true
        by (symmetry; now apply includes_In).
      reflexivity. }
    rewrite Hold.
    destruct (current_loop_anchor S (today - 1) Hnd Hy) as (Hk & Hr & Hs).
    { intros x Hx. specialize (Hlt _ Hx). lia. }
    set (k := current_loop (sort_by cmp_desc S) (today - 1) 0) in *.
    apply (run_back_length_unique (today :: S) today); try lia;
      try assumption.
    + intros i Hi. destruct (Z.eq_dec i 0) as [->|Hne].
      * left. lia.
      * right. replace (today - i) with (today - 1 - (i - 1)) by lia.
        apply Hr. lia.
    + intros [H|H]; [lia|]. apply Hs.
      now replace (today - 1 - k) with (today - (k + 1)) by lia.
  - assert (Hold : currentStreak (computeStreaks S today) = 0).
    { destruct S as [|x S0]; [reflexivity|].
      rewrite currentStreak_eq by discriminate.
      now rewrite !includes_sorted, Hinc, Hy. }
    rewrite Hold.
    apply (run_back_length_unique (today :: S) today); try lia;
      try assumption.
    + intros i Hi. left. lia.
    + intros [H|H]; [lia|].
      apply includes_In in H. simpl in H. congruence.
Qed.

(** ** What a toggle changes and what it leaves alone *)

Lemma filter_map_fixed {A : Type} (p : A -> bool) (f : A -> A) (l : list A) :
  (forall x, p (f x) = p x) ->
  (forall x, In x l -> p x = true -> f x = x) ->
  filter p (map f l) = filter p l.
Proof.
  intros Hp Hf. rewrite filter_map_stable by assumption.
  apply map_fixed. intros x Hx. apply filter_In in Hx. now apply Hf.
Qed.

(** The two ways a toggle completes: it overwrites the one record under the
    key, or it appends a record for a key that had none. *)
Lemma toggle_ok_cases (habitId userId : nat) (date : Z) (completed : bool)
    (today : Z) (db db' : database) (row : Completion.t) :
  toggleHabitCompletion habitId userId date completed today db
  = (Ok row, db') ->
  exists db1,
    db' = with_streaks habitId
            (computeStreaks (completed_dates habitId db1) today) db1 /\
    habits db1 = habits db /\
    ((exists e,
        filter (same_key habitId (toISODate date)) (habit_completions db)
        = [e] /\
        filter (has_id (Completion.id e)) (habit_completions db) = [e] /\
        row = set_completed completed e /\
        db1 = with_completed (Completion.id e) completed db) \/
     (existsb (same_key habitId (toISODate date)) (habit_completions db)
      = false /\
      existsb (fun h => (Habit.id h =? habitId)%nat) (habits db) = true /\
      row = Completion.mk (fresh_id (habit_completions db)) habitId userId
              (toISODate date) completed /\
      habit_completions db1 = habit_completions db ++ [row])).
Proof.
  rewrite toggle_unfold. cbn zeta.
  destruct (single _) as [e|m] eqn:Hsel.
  - apply single_Data in Hsel.
    unfold update_completion.
    destruct (single (map _ _)) as [row'|m] eqn:Hupd; [|discriminate].
    intros H. injection H as -> <-.
    apply single_Data in Hupd.
    assert (He : In e (filter (same_key habitId (toISODate date))
                         (habit_completions db)))
      by (rewrite Hsel; now left).
    apply filter_In in He. destruct He as [He Hkey].
    destruct (filter (has_id (Completion.id e)) (habit_completions db))
      as [|e' [|e'' l]] eqn:Hid; try discriminate.
    assert (e' = e) as ->.
    { assert (Hin : In e (filter (has_id (Completion.id e))
                            (habit_completions db))).
      { apply filter_In. split; [assumption|]. apply Nat.eqb_refl. }
      rewrite Hid in Hin. destruct Hin as [Hin|[]]. assumption. }
    simpl in Hupd. injection Hupd as <-.
    eexists. split; [reflexivity|]. split; [reflexivity|].
    left. exists e. repeat split; assumption.
  - unfold insert_completion.
    destruct (existsb (fun h => (Habit.id h =? habitId)%nat) (habits db))
      eqn:Hh; [|discriminate]. cbn [negb].
    destruct (existsb (same_key _ _) _) eqn:Hnone; [discriminate|].
    intros H. injection H as <- <-.
    eexists. split; [reflexivity|]. split; [reflexivity|].
    right. repeat split.
Qed.

Lemma toggle_frame (habitId userId : nat) (date : Z) (completed : bool)
    (today : Z) (db db' : database) (row : Completion.t) :
  toggleHabitCompletion habitId userId date completed today db
  = (Ok row, db') ->
  filter (fun c => negb (same_key habitId (toISODate date) c))
    (habit_completions db')
  = filter (fun c => negb (same_key habitId (toISODate date) c))
      (habit_completions db).
Proof.
  intros Htoggle.
  destruct (toggle_ok_cases _ _ _ _ _ _ _ _ Htoggle)
    as (db1 & -> & _ & [(e & Hkey & Hid & _ & ->)|(Hnone & _ & -> & Happ)]).
  - cbn [with_streaks with_completed habit_completions].
    apply filter_map_fixed.
    + intros x. now rewrite update_keeps_key.
    + intros x Hx Hp. destruct (has_id (Completion.id e) x) eqn:E;
        [|reflexivity].
      assert (Hin : In x (filter (has_id (Completion.id e))
                            (habit_completions db)))
        by (apply filter_In; now split).
      rewrite Hid in Hin. destruct Hin as [<-|[]].
      assert (Hin : In e (filter (same_key habitId (toISODate date))
                            (habit_completions db)))
        by (rewrite Hkey; now left).
      apply filter_In in Hin. destruct Hin as [_ Hk].
      rewrite Hk in Hp. discriminate.
  - cbn [with_streaks habit_completions]. rewrite Happ, filter_app.
    cbn [filter]. unfold same_key at 2. cbn [Completion.habit_id
      Completion.completion_date].
    rewrite Nat.eqb_refl, Z.eqb_refl. cbn [andb negb].
    now rewrite app_nil_r.
Qed.

(** A toggle that returns changes no completion record other than the one
    under its key [(habit_id, calendar day)]. *)
Theorem toggle_leaves_other_records (habitId userId : nat) (date : Z)
    (completed : bool) (today : Z) (db db' : database) (row : Completion.t) :
  toggleHabitCompletion habitId userId date completed today db
  = (Ok row, db') ->
  filter (fun c => negb (same_key habitId (toISODate date) c))
    (habit_completions db')
  = filter (fun c => negb (same_key habitId (toISODate date) c))
      (habit_completions db).
Proof. apply toggle_frame. Qed.

(** A toggle that returns rewrites only the two streak columns, and only of
    the habit toggled: every other habit row is unchanged and no row is
    added or removed. *)
Theorem toggle_leaves_other_habits (habitId userId : nat) (date : Z)
    (completed : bool) (today : Z) (db db' : database) (row : Completion.t) :
  toggleHabitCompletion habitId userId date completed today db
  = (Ok row, db') ->
  filter (fun h => negb (Habit.id h =? habitId)%nat) (habits db')
  = filter (fun h => negb (Habit.id h =? habitId)%nat) (habits db) /\
  map (fun h => (Habit.id h, Habit.user_id h, Habit.title h,
                 Habit.category h, Habit.is_archived h, Habit.created_at h))
    (habits db')
  = map (fun h => (Habit.id h, Habit.user_id h, Habit.title h,
                   Habit.category h, Habit.is_archived h, Habit.created_at h))
      (habits db).
Proof.
  intros Htoggle.
  destruct (toggle_ok_cases _ _ _ _ _ _ _ _ Htoggle)
    as (db1 & -> & Hh & _).
  cbn [with_streaks habits]. rewrite Hh. split.
  - apply filter_map_fixed.
    + intros x. now destruct (Habit.id x =? habitId)%nat eqn:E; cbn; rewrite E.
    + intros x _ Hp. now destruct (Habit.id x =? habitId)%nat.
  - rewrite map_map. apply map_ext. intros x.
    now destruct (Habit.id x =? habitId)%nat.
Qed.

Lemma completed_dates_In (habitId : nat) (db : database) (x : Z) :
  In x (completed_dates habitId db) <->
  exists c, In c (habit_completions db) /\ Completion.habit_id c = habitId /\
            Completion.completed c = true /\ Completion.completion_date c = x.
Proof.
  unfold completed_dates. rewrite in_map_iff. split.
  - intros (c & Hd & Hc). apply filter_In in Hc. destruct Hc as [Hc Hp].
    unfold completed_of in Hp. apply andb_prop in Hp. destruct Hp as [Hh Hcc].
    apply Nat.eqb_eq in Hh. apply eqb_prop in Hcc. now exists c.
  - intros (c & Hc & Hh & Hcc & Hd). exists c. split; [assumption|].
    apply filter_In. split; [assumption|]. unfold completed_of.
    now rewrite Hh, Hcc, Nat.eqb_refl.
Qed.

Lemma toggle_dates (habitId userId : nat) (date : Z) (completed : bool)
    (today : Z) (db db' : database) (row : Completion.t) :
  toggleHabitCompletion habitId userId date completed today db
  = (Ok row, db') ->
  forall x,
    In x (completed_dates habitId db') <->
    (x = toISODate date /\ completed = true) \/
    (x <> toISODate date /\ In x (completed_dates habitId db)).
Proof.
  intros Htoggle x.
  pose proof (toggle_frame _ _ _ _ _ _ _ _ Htoggle) as Hframe.
  destruct (toggle_ok_inv _ _ _ _ _ _ _ _ Htoggle)
    as (db1 & Hdb & Hkey & _ & Hc & Hd & Hh).
  assert (Hkey' : filter (same_key habitId (toISODate date))
                    (habit_completions db') = [row])
    by (rewrite Hdb; exact Hkey).
  assert (Hother : forall c, same_key habitId (toISODate date) c = false ->
            (In c (habit_completions db') <-> In c (habit_completions db))).
  { intros c Hk. split; intros Hin.
    - assert (H : In c (filter (fun c => negb (same_key habitId
                                                (toISODate date) c))
                          (habit_completions db')))
        by (apply filter_In; split; [assumption|now rewrite Hk]).
      rewrite Hframe in H. now apply filter_In in H.
    - assert (H : In c (filter (fun c => negb (same_key habitId
                                                (toISODate date) c))
                          (habit_completions db)))
        by (apply filter_In; split; [assumption|now rewrite Hk]).
      rewrite <- Hframe in H. now apply filter_In in H. }
  assert (Hk_iff : forall c, Completion.habit_id c = habitId ->
            (same_key habitId (toISODate date) c = true <->
             Completion.completion_date c = toISODate date)).
  { intros c Hc'. unfold same_key. rewrite Hc', Nat.eqb_refl. cbn [andb].
    apply Z.eqb_eq. }
  rewrite !completed_dates_In. split.
  - intros (c & Hin & Hch & Hcc & Hcd).
    destruct (same_key habitId (toISODate date) c) eqn:Hk.
    + left. assert (Hrow : In c [row])
        by (rewrite <- Hkey'; apply filter_In; now split).
      destruct Hrow as [<-|[]]. split; congruence.
    + right. split.
      * intros Heq. rewrite <- Hcd in Heq. apply (Hk_iff c Hch) in Heq.
        congruence.
      * exists c. rewrite <- (Hother c Hk). now repeat split.
  - intros [[-> Htrue]|[Hne (c & Hin & Hch & Hcc & Hcd)]].
    + exists row. repeat split; try congruence.
      assert (Hrow : In row (filter (same_key habitId (toISODate date))
                               (habit_completions db')))
        by (rewrite Hkey'; now left).
      now apply filter_In in Hrow.
    + exists c. repeat split; try assumption.
      apply Hother; [|assumption].
      apply not_true_is_false. intros Hk. apply (Hk_iff c Hch) in Hk.
      congruence.
Qed.

(** After a toggle that returns, the toggled day counts as completed exactly
    when the flag was [true]; every other day counts as before.  Marking a
    day not completed is the same, for the streaks, as removing it. *)
Theorem toggle_sets_completed_day (habitId userId : nat) (date : Z)
    (completed : bool) (today : Z) (db db' : database) (row : Completion.t) :
  toggleHabitCompletion habitId userId date completed today db
  = (Ok row, db') ->
  forall x,
    In x (completed_dates habitId db') <->
    (x = toISODate date /\ completed = true) \/
    (x <> toISODate date /\ In x (completed_dates habitId db)).
Proof. apply toggle_dates. Qed.

(** ** The constraints of the schema *)

Lemma NoDup_map_on {A B : Type} (f : A -> B) (l : list A) :
  NoDup l -> (forall x y, In x l -> In y l -> f x = f y -> x = y) ->
  NoDup (map f l).
Proof.
  induction 1 as [|a l Hnotin Hnd IH]; intros Hinj; simpl; constructor.
  - intros Hin. apply in_map_iff in Hin. destruct Hin as (y & Hfy & Hy).
    assert (y = a) by (apply Hinj; [now right|now left|assumption]).
    subst y. contradiction.
  - apply IH. intros x y Hx Hy. apply Hinj; now right.
Qed.

Lemma unique_id_filter (l : list Completion.t) (e : Completion.t) :
  NoDup (map Completion.id l) -> In e l ->
  filter (has_id (Completion.id e)) l = [e].
Proof.
  induction l as [|x l IH]; intros Hnd Hin; [contradiction|].
  cbn [map] in Hnd. apply NoDup_cons_iff in Hnd. destruct Hnd as [Hx Hnd].
  cbn [filter]. destruct Hin as [->|Hin].
  - unfold has_id at 1. rewrite Nat.eqb_refl. f_equal.
    apply filter_none. apply not_true_is_false. intros Hex.
    apply existsb_exists in Hex. destruct Hex as (y & Hy & Hid).
    apply Nat.eqb_eq in Hid. apply Hx. rewrite <- Hid. now apply in_map.
  - destruct (has_id (Completion.id e) x) eqn:E; [|now apply IH].
    exfalso. apply Nat.eqb_eq in E. apply Hx. rewrite E. now apply in_map.
Qed.

Lemma key_at_most_one (l : list Completion.t) (habitId : nat) (d : Z) :
  NoDup (map Completion.id l) -> unique_completions l ->
  filter (same_key habitId d) l = [] \/
  exists e, filter (same_key habitId d) l = [e].
Proof.
  intros Hnd Huniq.
  assert (Hl : NoDup (filter (same_key habitId d) l))
    by (apply NoDup_filter; eapply NoDup_map_inv; exact Hnd).
  destruct (filter (same_key habitId d) l) as [|e1 [|e2 rest]] eqn:E.
  - now left.
  - right. now exists e1.
  - exfalso.
    assert (H1 : In e1 (filter (same_key habitId d) l))
      by (rewrite E; now left).
    assert (H2 : In e2 (filter (same_key habitId d) l))
      by (rewrite E; right; now left).
    apply filter_In in H1, H2. destruct H1 as [H1 K1], H2 as [H2 K2].
    unfold same_key in K1, K2. apply andb_prop in K1, K2.
    destruct K1 as [A1 B1], K2 as [A2 B2].
    apply Nat.eqb_eq in A1, A2. apply Z.eqb_eq in B1, B2.
    assert (e1 = e2) by (apply Huniq; congruence).
    subst e2. apply NoDup_cons_iff in Hl. apply (proj1 Hl). now left.
Qed.

Lemma completed_dates_NoDup (habitId : nat) (db : database) :
  store_ok db -> NoDup (completed_dates habitId db).
Proof.
  intros (_ & Hids & Huniq & _). unfold completed_dates.
  apply NoDup_map_on.
  - apply NoDup_filter. eapply NoDup_map_inv. exact Hids.
  - intros x y Hx Hy Hd. apply filter_In in Hx, Hy.
    destruct Hx as [Hx Px], Hy as [Hy Py]. unfold completed_of in Px, Py.
    apply andb_prop in Px, Py. destruct Px as [Px _], Py as [Py _].
    apply Nat.eqb_eq in Px, Py. apply Huniq; congruence.
Qed.

Lemma store_ok_with_streaks (habitId : nat) (s : streaks) (db : database) :
  store_ok db -> store_ok (with_streaks habitId s db).
Proof.
  intros (Hh & Hc & Hu & Hfk). unfold with_streaks.
  assert (Hids : map Habit.id
                   (map (fun h => if (Habit.id h =? habitId)%nat
                                  then set_streaks s h else h) (habits db))
                 = map Habit.id (habits db)).
  { rewrite map_map. apply map_ext. intros h.
    now destruct (Habit.id h =? habitId)%nat. }
  split; [|split; [|split]]; cbn [habits habit_completions].
  - now rewrite Hids.
  - assumption.
  - assumption.
  - intros c Hin. destruct (Hfk c Hin) as (h & Hhin & Hid).
    exists (if (Habit.id h =? habitId)%nat then set_streaks s h else h).
    split.
    + apply in_map_iff. now exists h.
    + now destruct (Habit.id h =? habitId)%nat.
Qed.

Lemma store_ok_with_completed (k : nat) (b : bool) (db : database) :
  store_ok db -> store_ok (with_completed k b db).
Proof.
  intros (Hh & Hc & Hu & Hfk). unfold with_completed.
  split; [|split; [|split]]; cbn [habits habit_completions].
  - assumption.
  - rewrite map_map.
    erewrite map_ext; [exact Hc|]. intros c. now destruct (has_id k c).
  - intros c1 c2 H1 H2 Hhid Hd.
    apply in_map_iff in H1, H2.
    destruct H1 as (x1 & <- & H1), H2 as (x2 & <- & H2).
    assert (x1 = x2) as ->; [|reflexivity].
    apply Hu; try assumption.
    + destruct (has_id k x1), (has_id k x2); exact Hhid.
    + destruct (has_id k x1), (has_id k x2); exact Hd.
  - intros c Hin. apply in_map_iff in Hin. destruct Hin as (x & <- & Hx).
    destruct (Hfk x Hx) as (h & Hhin & Hid). exists h. split; [assumption|].
    now destruct (has_id k x).
Qed.

Lemma store_ok_insert_completion (habitId userId : nat) (d : Z) (b : bool)
    (db : database) :
  store_ok db ->
  store_ok (snd (insert_completion habitId userId d b db)).
Proof.
  intros Hok. pose proof Hok as (Hh & Hc & Hu & Hfk).
  unfold insert_completion.
  destruct (existsb (fun h => (Habit.id h =? habitId)%nat) (habits db))
    eqn:Hex; [|exact Hok]. cbn [negb].
  destruct (existsb (same_key habitId d) (habit_completions db)) eqn:Hnone;
    [exact Hok|].
  cbn [snd]. split; [|split; [|split]]; cbn [habits habit_completions].
  - assumption.
  - rewrite map_app. cbn [map Completion.id].
    apply NoDup_app; [assumption|repeat constructor; intros []|].
    intros x Hx [<-|[]].
    apply in_map_iff in Hx. destruct Hx as (c & Hid & Hcin).
    pose proof (fresh_id_new (habit_completions db)) as Hf.
    assert (existsb (has_id (fresh_id (habit_completions db)))
              (habit_completions db) = true); [|congruence].
    apply existsb_exists. exists c. split; [assumption|].
    unfold has_id. now apply Nat.eqb_eq.
  - intros c1 c2 H1 H2 Hhid Hd.
    assert (Hnew : forall c,
              In c (habit_completions db) ->
              Completion.habit_id c = habitId ->
              Completion.completion_date c = d -> False).
    { intros c Hcin Hch Hcd.
      assert (existsb (same_key habitId d) (habit_completions db) = true);
        [|congruence].
      apply existsb_exists. exists c. split; [assumption|].
      unfold same_key. rewrite Hch, Hcd.
      now rewrite Nat.eqb_refl, Z.eqb_refl. }
    apply in_app_or in H1, H2.
    destruct H1 as [H1|[<-|[]]], H2 as [H2|[<-|[]]].
    + now apply Hu.
    + exfalso. apply (Hnew c1 H1); [exact Hhid|exact Hd].
    + exfalso. apply (Hnew c2 H2); [symmetry; exact Hhid|symmetry; exact Hd].
    + reflexivity.
  - intros c Hin. apply in_app_or in Hin. destruct Hin as [Hin|[<-|[]]].
    + now apply Hfk.
    + apply existsb_exists in Hex. destruct Hex as (h & Hhin & Hid).
      apply Nat.eqb_eq in Hid. now exists h.
Qed.

Lemma toggle_store_ok (habitId userId : nat) (date : Z) (completed : bool)
    (today : Z) (db : database) :
  store_ok db ->
  store_ok (snd (toggleHabitCompletion habitId userId date completed today
                   db)).
Proof.
  intros Hok. rewrite toggle_unfold. cbn zeta.
  destruct (single _) as [e|m].
  - unfold update_completion.
    destruct (single (map _ _)); cbn [snd]; [|exact Hok].
    apply store_ok_with_streaks.
    exact (store_ok_with_completed (Completion.id e) completed db Hok).
  - pose proof (store_ok_insert_completion habitId userId (toISODate date)
                  completed db Hok) as Hins.
    destruct (insert_completion _ _ _ _ _) as [[row|m'] db1]; cbn [snd] in *.
    + now apply store_ok_with_streaks.
    + exact Hins.
Qed.

(** A toggle, whether it returns or throws, leaves a store that satisfies
    the primary keys, [UNIQUE(habit_id, completion_date)] and the foreign
    key of the schema. *)
Theorem toggle_keeps_constraints (habitId userId : nat) (date : Z)
    (completed : bool) (today : Z) (db : database) :
  store_ok db ->
  store_ok (snd (toggleHabitCompletion habitId userId date completed today
                   db)).
Proof. apply toggle_store_ok. Qed.

(** On a store that satisfies the constraints a toggle returns only if a
    habit with the given id exists; a toggle that throws leaves the store as
    it was. *)
Lemma toggle_returns_for_stored_habit (habitId userId : nat) (date : Z)
    (completed : bool) (today : Z) (db : database) :
  (store_ok db ->
   forall row db',
     toggleHabitCompletion habitId userId date completed today db
     = (Ok row, db') ->
     exists h, In h (habits db) /\ Habit.id h = habitId) /\
  (forall message db',
     toggleHabitCompletion habitId userId date completed today db
     = (Err message, db') -> db' = db).
Proof.
  split.
  - intros (Hh & Hc & Hu & Hfk) row db' Htoggle.
    destruct (toggle_ok_cases _ _ _ _ _ _ _ _ Htoggle)
      as (db1 & _ & _ & [(e & Hkey & _)|(_ & Hex & _)]).
    + assert (Hin : In e (filter (same_key habitId (toISODate date))
                            (habit_completions db)))
        by (rewrite Hkey; now left).
      apply filter_In in Hin. destruct Hin as [Hin Hk].
      unfold same_key in Hk. apply andb_prop in Hk. destruct Hk as [Hk _].
      apply Nat.eqb_eq in Hk.
      destruct (Hfk e Hin) as (h & Hhin & Hid). exists h. split; congruence.
    + apply existsb_exists in Hex. destruct Hex as (h & Hhin & Hid).
      apply Nat.eqb_eq in Hid. now exists h.
  - intros message db'. rewrite toggle_unfold. cbn zeta.
    destruct (single _) as [e|m].
    + unfold update_completion. destruct (single (map _ _)).
      * discriminate.
      * intros H. now injection H as _ <-.
    + unfold insert_completion.
      destruct (negb _); [intros H; now injection H as _ <-|].
      destruct (existsb _ _); [intros H; now injection H as _ <-|].
      discriminate.
Qed.

(** Counting in calendar days: on a store that satisfies the constraints,
    with every completed day of the habit before today, marking today
    completed stores a current streak one higher than the streak of the days
    completed so far. *)
Lemma toggle_today_raises_on_days (habitId userId : nat) (date : Z)
    (today : Z) (db db' : database) (row : Completion.t) :
  store_ok db ->
  toISODate date = today ->
  (forall x, In x (completed_dates habitId db) -> x < today) ->
  toggleHabitCompletion habitId userId date true today db = (Ok row, db') ->
  forall h, In h (habits db') -> Habit.id h = habitId ->
    Habit.current_streak h
    = currentStreak (computeStreaks (completed_dates habitId db) today) + 1.
Proof.
  intros Hok Hday Hbefore Htoggle h Hin Hid.
  pose proof (toggle_store_ok habitId userId date true today db Hok) as Hok'.
  rewrite Htoggle in Hok'. cbn [snd] in Hok'.
  pose proof (toggle_dates _ _ _ _ _ _ _ _ Htoggle) as Hdates.
  destruct (toggle_ok_inv _ _ _ _ _ _ _ _ Htoggle) as (db1 & Hdb & _).
  assert (Hcur : Habit.current_streak h
                 = currentStreak (computeStreaks (completed_dates habitId db')
                                    today)).
  { rewrite Hdb in Hin |- *. rewrite completed_dates_with_streaks.
    unfold with_streaks in Hin. cbn [habits] in Hin.
    apply in_map_iff in Hin. destruct Hin as (h0 & Hh & _).
    destruct (Habit.id h0 =? habitId)%nat eqn:E.
    - subst h. reflexivity.
    - subst h. apply Nat.eqb_neq in E. contradiction. }
  rewrite Hcur.
  rewrite (computeStreaks_perm (completed_dates habitId db')
             (today :: completed_dates habitId db)).
  - apply complete_today_extends; [|assumption].
    now apply completed_dates_NoDup.
  - apply NoDup_Permutation.
    + now apply completed_dates_NoDup.
    + constructor; [|now apply completed_dates_NoDup].
      intros Hx. specialize (Hbefore _ Hx). lia.
    + intros x. rewrite Hdates, Hday. split.
      * intros [[-> _]|[_ Hx]]; [now left|now right].
      * intros [<-|Hx]; [now left|right].
        split; [|assumption]. specialize (Hbefore _ Hx). lia.
Qed.

(** ** [updateHabitStreaks] on its own *)


(** ** [getHabitById], [createHabit], [deleteHabit], [toggleArchiveHabit] *)

Lemma owned_by_spec (habitId userId : nat) (h : Habit.t) :
  owned_by habitId userId h = true <->
  Habit.id h = habitId /\ Habit.user_id h = userId.
Proof.
  unfold owned_by. rewrite andb_true_iff, !Nat.eqb_eq. reflexivity.
Qed.

Lemma unique_habit_filter (l : list Habit.t) (habitId userId : nat)
    (h : Habit.t) :
  NoDup (map Habit.id l) -> In h l -> owned_by habitId userId h = true ->
  filter (owned_by habitId userId) l = [h].
Proof.
  induction l as [|x l IH]; intros Hnd Hin Ho; [contradiction|].
  cbn [map] in Hnd. apply NoDup_cons_iff in Hnd. destruct Hnd as [Hx Hnd].
  cbn [filter]. destruct Hin as [->|Hin].
  - rewrite Ho. f_equal. apply filter_none. apply not_true_is_false.
    intros Hex. apply existsb_exists in Hex. destruct Hex as (y & Hy & Hoy).
    apply owned_by_spec in Ho, Hoy. apply Hx.
    replace (Habit.id h) with (Habit.id y) by (destruct Ho, Hoy; congruence).
    now apply in_map.
  - destruct (owned_by habitId userId x) eqn:E; [|now apply IH].
    exfalso. apply owned_by_spec in Ho, E. apply Hx.
    replace (Habit.id x) with (Habit.id h) by (destruct Ho, E; congruence).
    now apply in_map.
Qed.

Lemma getHabitById_unfold (habitId userId : nat) (db : database) :
  getHabitById habitId userId db =
  match single (filter (owned_by habitId userId) (habits db)) with
  | Data h => (Ok h, db)
  | Error m => (Err ("Habit not found: " ++ m)%string, db)
  end.
Proof.
  unfold getHabitById, bind, await, select_habit, ret, throw.
  cbn beta iota zeta. now destruct (single _).
Qed.

(** With unique habit ids, [getHabitById] returns a habit exactly when it is
    the stored row with that id and it belongs to the caller; in every case
    the store is left as it was. *)
Theorem getHabitById_owner_only (habitId userId : nat) (db : database) :
  NoDup (map Habit.id (habits db)) ->
  (forall h,
     getHabitById habitId userId db = (Ok h, db) <->
     In h (habits db) /\ Habit.id h = habitId /\ Habit.user_id h = userId) /\
  snd (getHabitById habitId userId db) = db.
Proof.
  intros Hnd. rewrite getHabitById_unfold. split.
  - intros h. split.
    + destruct (single _) as [h0|m] eqn:Hs; [|discriminate].
      intros H. injection H as ->. apply single_Data in Hs.
      assert (Hin : In h (filter (owned_by habitId userId) (habits db)))
        by (rewrite Hs; now left).
      apply filter_In in Hin. destruct Hin as [Hin Ho].
      apply owned_by_spec in Ho. tauto.
    + intros (Hin & Hid & Hu).
      rewrite (unique_habit_filter _ _ _ h Hnd Hin); [reflexivity|].
      now apply owned_by_spec.
  - now destruct (single _).
Qed.

Lemma fresh_habit_id_new (rows : list Habit.t) (h : Habit.t) :
  In h rows -> Habit.id h <> fresh_habit_id rows.
Proof.
  intros Hin Heq.
  assert (Hle : Forall (fun k => (k <= list_max (map Habit.id rows))%nat)
                  (map Habit.id rows))
    by (now apply list_max_le).
  rewrite Forall_forall in Hle.
  specialize (Hle _ (in_map Habit.id _ _ Hin)).
  unfold fresh_habit_id in Heq. lia.
Qed.

Lemma varchar_fits (n : nat) (s : string) :
  (String.length s <=? n)%nat = true -> varchar n s = Some s.
Proof. intros H. unfold varchar. now rewrite H. Qed.

(** When the title and the category fit their columns [createHabit]
    returns: the new habit belongs to the caller, has both streaks 0 and is
    not archived, carries an id no stored habit has, is appended to the
    table without touching any other row, and is what [getHabitById] then
    returns to the caller.  When the title is refused by its column
    [createHabit] throws and writes nothing. *)
Theorem createHabit_then_get (userId : nat) (habitData : HabitData.t)
    (now : Z) (db : database) :
  (fits_columns (HabitData.title habitData)
     (truthy_string (HabitData.category habitData)) = true ->
   exists h,
     createHabit userId habitData now db
     = (Ok h, mkDb (habits db ++ [h]) (habit_completions db)) /\
     Habit.user_id h = userId /\
     Habit.title h = HabitData.title habitData /\
     Habit.category h = truthy_string (HabitData.category habitData) /\
     Habit.is_archived h = false /\
     Habit.current_streak h = 0 /\ Habit.longest_streak h = 0 /\
     (forall x, In x (habits db) -> Habit.id x <> Habit.id h) /\
     getHabitById (Habit.id h) userId
       (mkDb (habits db ++ [h]) (habit_completions db))
     = (Ok h, mkDb (habits db ++ [h]) (habit_completions db))) /\
  (varchar 255 (HabitData.title habitData) = None ->
   exists message, createHabit userId habitData now db = (Err message, db)).
Proof.
  unfold createHabit, bind, await, probe_columns, insert_habit, ret, throw.
  cbn beta iota zeta.
  cbn [InsertData.user_id InsertData.title InsertData.category
       InsertData.is_archived InsertData.description].
  split.
  - intros Hfit. unfold fits_columns in Hfit. apply andb_prop in Hfit.
    destruct Hfit as [Ht Hc]. rewrite (varchar_fits _ _ Ht).
    assert (Hcat : match truthy_string (HabitData.category habitData) with
                   | Some c => option_map Some (varchar 100 c)
                   | None => Some None
                   end = Some (truthy_string (HabitData.category habitData))).
    { destruct (truthy_string (HabitData.category habitData)) as [c|];
        [|reflexivity]. now rewrite (varchar_fits _ _ Hc). }
    rewrite Hcat.
    eexists. split; [reflexivity|].
    cbn [Habit.user_id Habit.title Habit.category Habit.is_archived
         Habit.current_streak Habit.longest_streak Habit.id].
    repeat (split; [reflexivity|]). split.
    + intros x Hx. now apply fresh_habit_id_new.
    + rewrite getHabitById_unfold. cbn [habits]. rewrite filter_app.
      rewrite (filter_none _ (habits db)).
      * cbn [filter app]. unfold owned_by at 1.
        cbn [Habit.id Habit.user_id]. now rewrite !Nat.eqb_refl.
      * apply not_true_is_false. intros Hex. apply existsb_exists in Hex.
        destruct Hex as (x & Hx & Ho). apply owned_by_spec in Ho.
        destruct Ho as [Ho _]. now apply (fresh_habit_id_new _ _ Hx).
  - intros Hlong. rewrite Hlong. now eexists.
Qed.

Lemma filter_all_true {A : Type} (p : A -> bool) (l : list A) :
  (forall x, In x l -> p x = true) -> filter p l = l.
Proof.
  induction l as [|x l IH]; intros H; [reflexivity|]. cbn [filter].
  rewrite (H x (or_introl eq_refl)). f_equal. apply IH.
  intros y Hy. apply H. now right.
Qed.

(** [deleteHabit] always reports success.  The caller's habit with the id is
    gone afterwards and [getHabitById] no longer finds it; the records of a
    deleted habit go with it; every other habit and record stays; when the
    caller owns no habit with the id nothing changes at all. *)
Theorem deleteHabit_effect (habitId userId : nat) (db : database) :
  exists db',
    deleteHabit habitId userId db = (Ok "Habit deleted successfully"%string,
                                     db') /\
    (forall h, In h (habits db') <->
               In h (habits db) /\ owned_by habitId userId h = false) /\
    (forall c, In c (habit_completions db') <->
               In c (habit_completions db) /\
               ~ (Completion.habit_id c = habitId /\
                  exists h, In h (habits db) /\
                            owned_by habitId userId h = true)) /\
    (exists message, getHabitById habitId userId db' = (Err message, db')) /\
    ((forall h, In h (habits db) -> owned_by habitId userId h = false) ->
     db' = db).
Proof.
  unfold deleteHabit, bind, await, delete_habit, ret, throw.
  cbn beta iota zeta.
  eexists. split; [reflexivity|]. cbn [habits habit_completions].
  split; [|split; [|split]].
  - intros h. rewrite filter_In, negb_true_iff. reflexivity.
  - intros c. rewrite filter_In, negb_true_iff. split.
    + intros (Hin & Hex). split; [assumption|].
      intros (Hid & h & Hh & Ho).
      assert (existsb (fun h0 => (Habit.id h0 =? Completion.habit_id c)%nat)
                (filter (owned_by habitId userId) (habits db)) = true);
        [|congruence].
      apply existsb_exists. exists h. split.
      * apply filter_In. now split.
      * apply owned_by_spec in Ho. apply Nat.eqb_eq.
        destruct Ho; congruence.
    + intros (Hin & Hno). split; [assumption|].
      apply not_true_is_false. intros Hex. apply existsb_exists in Hex.
      destruct Hex as (h & Hh & Hid). apply filter_In in Hh.
      destruct Hh as [Hh Ho]. apply Nat.eqb_eq in Hid. apply Hno.
      pose proof Ho as Ho'. apply owned_by_spec in Ho'. split.
      * destruct Ho'; congruence.
      * now exists h.
  - rewrite getHabitById_unfold. cbn [habits].
    rewrite (filter_none _ (filter _ (habits db))).
    + cbn [single]. now eexists.
    + apply not_true_is_false. intros Hex. apply existsb_exists in Hex.
      destruct Hex as (h & Hh & Ho). apply filter_In in Hh.
      destruct Hh as [_ Hn]. rewrite Ho in Hn. discriminate.
  - intros Hnone. destruct db as [hs cs]. cbn [habits habit_completions] in *.
    f_equal.
    + apply filter_all_true. intros h Hh. now rewrite (Hnone h Hh).
    + apply filter_all_true. intros c _.
      rewrite (filter_none _ hs); [reflexivity|].
      apply not_true_is_false. intros Hex. apply existsb_exists in Hex.
      destruct Hex as (h & Hh & Ho). rewrite (Hnone h Hh) in Ho.
      discriminate.
Qed.

Lemma toggleArchiveHabit_unfold (habitId userId : nat) (isArchived : bool)
    (db : database) :
  toggleArchiveHabit habitId userId isArchived db =
  match filter (owned_by habitId userId) (habits db) with
  | [h] =>
      (Ok (set_archived isArchived h),
       mkDb (map (fun x => if owned_by habitId userId x
                           then set_archived isArchived x else x)
               (habits db))
         (habit_completions db))
  | _ =>
      (Err ("Failed to " ++ (if isArchived then "archive" else "unarchive")
            ++ " habit: "
            ++ "JSON object requested, multiple (or no) rows returned")%string,
       db)
  end.
Proof.
  unfold toggleArchiveHabit, bind, await, update_archived, ret, throw.
  cbn beta iota zeta.
  destruct (filter _ _) as [|h [|h2 l]]; reflexivity.
Qed.

(** [toggleArchiveHabit] returns only when exactly one stored habit has the
    id and belongs to the caller.  It then rewrites the [is_archived] column
    of that row and nothing else: streaks, title, category, every other
    habit and all completion records are as before.  When it throws the
    store is unchanged. *)
Theorem toggleArchiveHabit_effect (habitId userId : nat) (isArchived : bool)
    (db : database) :
  (forall h' db',
     toggleArchiveHabit habitId userId isArchived db = (Ok h', db') ->
     exists h,
       filter (owned_by habitId userId) (habits db) = [h] /\
       h' = set_archived isArchived h /\
       In h' (habits db') /\
       habit_completions db' = habit_completions db /\
       filter (fun x => negb (owned_by habitId userId x)) (habits db')
       = filter (fun x => negb (owned_by habitId userId x)) (habits db) /\
       map (fun x => (Habit.id x, Habit.user_id x, Habit.title x,
                      Habit.category x, Habit.current_streak x,
                      Habit.longest_streak x, Habit.created_at x))
         (habits db')
       = map (fun x => (Habit.id x, Habit.user_id x, Habit.title x,
                        Habit.category x, Habit.current_streak x,
                        Habit.longest_streak x, Habit.created_at x))
           (habits db)) /\
  (forall message db',
     toggleArchiveHabit habitId userId isArchived db = (Err message, db') ->
     db' = db).
Proof.
  rewrite toggleArchiveHabit_unfold. split.
  - intros h' db'.
    destruct (filter (owned_by habitId userId) (habits db))
      as [|h [|h2 l]] eqn:Hf; try discriminate.
    intros H. injection H as <- <-. exists h.
    assert (Hin : In h (filter (owned_by habitId userId) (habits db)))
      by (rewrite Hf; now left).
    apply filter_In in Hin. destruct Hin as [Hin Ho].
    cbn [habits habit_completions].
    split; [reflexivity|]. split; [reflexivity|]. split; [|split; [|split]].
    + apply in_map_iff. exists h. now rewrite Ho.
    + reflexivity.
    + apply filter_map_fixed.
      * intros x. destruct (owned_by habitId userId x) eqn:E;
          [|now rewrite E].
        change (owned_by habitId userId (set_archived isArchived x))
          with (owned_by habitId userId x). now rewrite E.
      * intros x _ Hp. now destruct (owned_by habitId userId x).
    + rewrite map_map. apply map_ext. intros x.
      now destruct (owned_by habitId userId x).
  - intros message db'.
    destruct (filter (owned_by habitId userId) (habits db))
      as [|h [|h2 l]]; try discriminate;
      intros H; now injection H as _ <-.
Qed.

(** ** [getHabitCompletions] and [getUserCategories] *)

Lemma by_completion_date_desc_le (a b : Completion.t) :
  by_completion_date b a <= 0 <->
  Completion.completion_date b <= Completion.completion_date a.
Proof. unfold by_completion_date. apply compare_Z_le. Qed.

Lemma order_desc_sorted (rows : list Completion.t) :
  StronglySorted
    (fun a b => Completion.completion_date b <= Completion.completion_date a)
    (order_rows by_completion_date false rows).
Proof.
  unfold order_rows. apply sort_by_sorted.
  - intros a b. apply by_completion_date_desc_le.
  - intros a b. lia.
  - intros a b c. lia.
Qed.

Lemma order_rows_In {A : Type} (cmp : A -> A -> Z) (asc : bool)
    (rows : list A) (x : A) :
  In x (order_rows cmp asc rows) <-> In x rows.
Proof.
  split; apply Permutation_in;
    [apply order_rows_perm|symmetry; apply order_rows_perm].
Qed.

(** [getHabitCompletions] always returns, leaves the store alone, and
    answers with exactly the records of the habit that carry the caller's
    user id and a date in [startDate .. endDate], newest first; with
    [startDate] after [endDate] the answer is empty. *)
Theorem getHabitCompletions_period (habitId userId : nat)
    (startDate endDate : Z) (db : database) :
  exists completions,
    getHabitCompletions habitId userId startDate endDate db
    = (Ok completions, db) /\
    StronglySorted
      (fun a b => Completion.completion_date b <= Completion.completion_date a)
      completions /\
    (forall c, In c completions <->
               In c (habit_completions db) /\
               Completion.habit_id c = habitId /\
               Completion.user_id c = userId /\
               startDate <= Completion.completion_date c <= endDate) /\
    (endDate < startDate -> completions = []).
Proof.
  unfold getHabitCompletions, bind, await, select_period, ret.
  cbn beta iota zeta. eexists. split; [reflexivity|].
  assert (Hin : forall c,
            In c (order_rows by_completion_date false
                    (filter (in_period habitId userId startDate endDate)
                       (habit_completions db))) <->
            In c (habit_completions db) /\
            Completion.habit_id c = habitId /\
            Completion.user_id c = userId /\
            startDate <= Completion.completion_date c <= endDate).
  { intros c. rewrite order_rows_In, filter_In. unfold in_period.
    rewrite !andb_true_iff, !Nat.eqb_eq, !Z.leb_le. tauto. }
  split; [apply order_desc_sorted|]. split; [exact Hin|].
  intros Hlt.
  destruct (order_rows _ _ _) as [|c l]; [reflexivity|].
  destruct (proj1 (Hin c) (or_introl eq_refl)) as (_ & _ & _ & H). lia.
Qed.

Lemma set_add_all_In (xs : list string) :
  forall seen x, In x (set_add_all seen xs) <-> In x seen \/ In x xs.
Proof.
  induction xs as [|y xs IH]; intros seen x; cbn [set_add_all].
  - simpl. tauto.
  - destruct (existsb (String.eqb y) seen) eqn:E.
    + rewrite IH. simpl. apply existsb_exists in E.
      destruct E as (z & Hz & Heq). apply String.eqb_eq in Heq. subst z.
      split; [tauto|]. intros [H|[<-|H]]; tauto.
    + rewrite IH, in_app_iff. simpl. tauto.
Qed.

Lemma set_add_all_NoDup (xs : list string) :
  forall seen, NoDup seen -> NoDup (set_add_all seen xs).
Proof.
  induction xs as [|y xs IH]; intros seen Hnd; cbn [set_add_all].
  - assumption.
  - destruct (existsb (String.eqb y) seen) eqn:E; [now apply IH|].
    apply IH. apply NoDup_app; [assumption|repeat constructor; intros []|].
    intros x Hx [->|[]].
    assert (existsb (String.eqb x) seen = true); [|congruence].
    apply existsb_exists. exists x. split; [assumption|].
    apply String.eqb_refl.
Qed.

(** [getUserCategories] always returns a list without repetitions that
    holds exactly the categories of the caller's habits that are neither
    empty nor blank after [trim]. *)
Theorem getUserCategories_distinct (trim : string -> string) (userId : nat)
    (db : database) :
  exists categories,
    getUserCategories trim userId db = (Ok categories, db) /\
    NoDup categories /\
    (forall c, In c categories <->
               (exists h, In h (habits db) /\ Habit.user_id h = userId /\
                          Habit.category h = Some c) /\
               c <> ""%string /\ trim c <> ""%string).
Proof.
  unfold getUserCategories, bind, await, select_categories, ret.
  cbn beta iota zeta. eexists. split; [reflexivity|]. split.
  - apply NoDup_filter. apply set_add_all_NoDup. constructor.
  - intros c. rewrite filter_In. unfold spread_set.
    rewrite set_add_all_In, in_flat_map. unfold non_blank.
    rewrite andb_true_iff, !negb_true_iff, !String.eqb_neq.
    split.
    + intros ([[]|(h & Hh & Hc)] & Hne).
      destruct (Habit.user_id h =? userId)%nat eqn:E; [|contradiction].
      apply Nat.eqb_eq in E.
      destruct (Habit.category h) as [c'|] eqn:Ec; [|contradiction].
      destruct Hc as [->|[]]. split; [|exact Hne]. now exists h.
    + intros ((h & Hh & Hu & Hc) & Hne). split; [|exact Hne].
      right. exists h. split; [assumption|].
      rewrite Hu, Nat.eqb_refl, Hc. now left.
Qed.

(** ** [updateHabit] *)

Section UpdateHabitFacts.
Variable assign : string -> jsval -> Habit.t -> response Habit.t.

(** An assignment to an editable column leaves the key, the owner, both
    streaks and the creation time of the row alone. *)
Hypothesis assign_frame :
  forall column v h h',
    In column allowedFields -> assign column v h = Data h' ->
    Habit.id h' = Habit.id h /\ Habit.user_id h' = Habit.user_id h /\
    Habit.current_streak h' = Habit.current_streak h /\
    Habit.longest_streak h' = Habit.longest_streak h /\
    Habit.created_at h' = Habit.created_at h.

Lemma assign_all_error (body : list (string * jsval)) (m : string) :
  fold_left (fun r kv => match r with
                         | Data h' => assign (fst kv) (snd kv) h'
                         | Error message => Error message
                         end)
    body (Error m) = Error m.
Proof. induction body as [|kv body IH]; [reflexivity|exact IH]. Qed.

Lemma assign_all_frame (body : list (string * jsval)) :
  forall h h',
    (forall kv, In kv body -> In (fst kv) allowedFields) ->
    assign_all assign body h = Data h' ->
    Habit.id h' = Habit.id h /\ Habit.user_id h' = Habit.user_id h /\
    Habit.current_streak h' = Habit.current_streak h /\
    Habit.longest_streak h' = Habit.longest_streak h /\
    Habit.created_at h' = Habit.created_at h.
Proof.
  unfold assign_all.
  induction body as [|kv body IH]; intros h h' Hkeys; cbn [fold_left].
  - intros H. injection H as ->. repeat split.
  - destruct (assign (fst kv) (snd kv) h) as [h1|m] eqn:E.
    + intros H.
      destruct (assign_frame _ _ _ _ (Hkeys kv (or_introl eq_refl)) E)
        as (A1 & A2 & A3 & A4 & A5).
      destruct (IH h1 h' (fun kv' Hin => Hkeys kv' (or_intror Hin)) H)
        as (B1 & B2 & B3 & B4 & B5).
      repeat split; congruence.
    + rewrite assign_all_error. discriminate.
Qed.

Lemma json_body_allowed (updateData : list (string * jsval)) :
  forall kv, In kv (json_body (filter_allowed updateData)) ->
             In (fst kv) allowedFields.
Proof.
  intros kv Hin. unfold json_body, filter_allowed in Hin.
  apply filter_In in Hin. destruct Hin as [Hin _].
  apply filter_In in Hin. destruct Hin as [_ Hex].
  apply existsb_exists in Hex. destruct Hex as (k & Hk & Heq).
  apply String.eqb_eq in Heq. now rewrite Heq.
Qed.

(** [updateHabit] throws without touching the store when [updateData] has
    no editable key.  When it returns, exactly one stored habit had the id
    and belonged to the caller; whatever keys [updateData] carried, the
    returned row has that habit's id, owner, streaks and creation time, and
    no other habit and no completion record has changed. *)
Theorem updateHabit_whitelist (habitId userId : nat)
    (updateData : list (string * jsval)) (db : database) :
  ((forall kv, In kv updateData -> ~ In (fst kv) allowedFields) ->
   updateHabit assign habitId userId updateData db
   = (Err "No valid fields to update"%string, db)) /\
  (forall h' db',
     updateHabit assign habitId userId updateData db = (Ok h', db') ->
     exists h,
       filter (owned_by habitId userId) (habits db) = [h] /\
       Habit.id h' = Habit.id h /\ Habit.user_id h' = Habit.user_id h /\
       Habit.current_streak h' = Habit.current_streak h /\
       Habit.longest_streak h' = Habit.longest_streak h /\
       Habit.created_at h' = Habit.created_at h /\
       habit_completions db' = habit_completions db /\
       filter (fun x => negb (owned_by habitId userId x)) (habits db')
       = filter (fun x => negb (owned_by habitId userId x)) (habits db)).
Proof.
  unfold updateHabit. split.
  - intros Hnone.
    assert (Hempty : filter_allowed updateData = []); [|now rewrite Hempty].
    unfold filter_allowed. apply filter_none.
    apply not_true_is_false. intros Hex. apply existsb_exists in Hex.
    destruct Hex as (kv & Hkv & Hk). apply (Hnone kv Hkv).
    apply existsb_exists in Hk. destruct Hk as (k & Hin & Heq).
    apply String.eqb_eq in Heq. now rewrite Heq.
  - intros h' db'.
    destruct (filter_allowed updateData) as [|kv0 rest] eqn:Hf;
      [discriminate|].
    rewrite <- Hf.
    pose proof (json_body_allowed updateData) as Hkeys.
    unfold bind, await, update_habit, ret, throw.
    cbn beta iota zeta.
    destruct (single (filter (owned_by habitId userId) (habits db)))
      as [h|m] eqn:Hs; [|discriminate].
    apply single_Data in Hs.
    destruct (assign_all assign _ h) as [h1|m] eqn:Ha; [|discriminate].
    intros H. injection H as <- <-.
    destruct (assign_all_frame _ _ _ Hkeys Ha) as (A1 & A2 & A3 & A4 & A5).
    exists h. cbn [habits habit_completions].
    repeat (split; [assumption|]). split; [reflexivity|].
    rewrite filter_map_swap.
    assert (Hext : forall x,
              negb (owned_by habitId userId
                      (if owned_by habitId userId x then h1 else x))
              = negb (owned_by habitId userId x)).
    { intros x. destruct (owned_by habitId userId x) eqn:E;
        [|now rewrite E].
      assert (Ho : owned_by habitId userId h = true).
      { assert (Hin : In h (filter (owned_by habitId userId) (habits db)))
          by (rewrite Hs; now left).
        now apply filter_In in Hin. }
      unfold owned_by in Ho |- *. now rewrite A1, A2, Ho. }
    rewrite (filter_ext _ _ Hext). apply map_fixed.
    intros x Hx. apply filter_In in Hx. destruct Hx as [_ Hx].
    now destruct (owned_by habitId userId x).
Qed.
End UpdateHabitFacts.

(** ** The recalculation route *)

(** With unique habit ids, [POST /habits/:id/streaks/recalculate] answers 200
    with the recomputed pair, which it has stored, when the habit belongs to
    the caller; otherwise it answers 400 and writes nothing. *)
Theorem recalculate_route_owner_only (id userId : nat) (today : Z)
    (db : database) :
  NoDup (map Habit.id (habits db)) ->
  ((exists h, In h (habits db) /\ owned_by id userId h = true) ->
   recalculate_route id userId today db
   = (Json 200 (computeStreaks (completed_dates id db) today),
      with_streaks id (computeStreaks (completed_dates id db) today) db)) /\
  ((forall h, In h (habits db) -> owned_by id userId h = false) ->
   exists message,
     recalculate_route id userId today db = (JsonError 400 message, db)).
Proof.
  intros Hnd. unfold recalculate_route, bind.
  rewrite getHabitById_unfold. split.
  - intros (h & Hin & Ho).
    rewrite (unique_habit_filter _ _ _ h Hnd Hin Ho). cbn [single].
    now rewrite updateHabitStreaks_eq.
  - intros Hnone. rewrite (filter_none _ (habits db)).
    + cbn [single]. now eexists.
    + apply not_true_is_false. intros Hex. apply existsb_exists in Hex.
      destruct Hex as (h & Hin & Ho). rewrite (Hnone h Hin) in Ho.
      discriminate.
Qed.

(** ** More on [getUserHabits] *)

(** The rows the habits query selects. *)
Lemma getUserHabits_rows (userId : nat) (opts : Options.t) (today : Z)
    (db db' : database) (views : list habit_view) :
  getUserHabits userId opts today db = (Ok views, db') ->
  exists p,
    map habit views =
    filter p
      (order_rows (compare_column (sort_column_of (Options.sortBy opts)))
         (Options.sortOrder opts =? "asc")%string
         (filter
            (fun h =>
               (Habit.user_id h =? userId)%nat
               && match truthy_string
                          (Filter.category (Options.filter opts)) with
                  | Some c => match Habit.category h with
                              | Some c' => (c' =? c)%string
                              | None => false
                              end
                  | None => true
                  end
               && match Filter.is_archived (Options.filter opts) with
                  | Some b => Bool.eqb (Habit.is_archived h) b
                  | None => true
                  end)
            (habits db))) /\
    (Filter.completed_today (Options.filter opts) = None ->
     forall h, p h = true).
Proof.
  unfold_getUserHabits.
  destruct (order_rows (compare_column _) _ _) as [|h hs].
  - intros H. injection H as <- _. exists (fun _ => true). split; reflexivity.
  - remember (h :: hs) as rows eqn:Erows.
    destruct (Filter.completed_today _) as [ct|]; intros H;
      injection H as <- _.
    + eexists. split; [|discriminate].
      rewrite filter_map_swap, map_map. cbn [habit].
      rewrite map_id. reflexivity.
    + exists (fun _ => true). split; [|reflexivity].
      rewrite map_map. cbn [habit]. rewrite map_id.
      symmetry. apply filter_all_true. reflexivity.
Qed.

Lemma getUserHabits_selected (userId : nat) (opts : Options.t) (today : Z)
    (db db' : database) (views : list habit_view) :
  getUserHabits userId opts today db = (Ok views, db') ->
  let selected := fun h =>
    In h (habits db) /\ Habit.user_id h = userId /\
    (forall c, truthy_string (Filter.category (Options.filter opts)) = Some c
               -> Habit.category h = Some c) /\
    (forall b, Filter.is_archived (Options.filter opts) = Some b ->
               Habit.is_archived h = b) in
  (forall v, In v views -> selected (habit v)) /\
  (Filter.completed_today (Options.filter opts) = None ->
   forall h, selected h -> exists v, In v views /\ habit v = h).
Proof.
  intros Hget selected.
  destruct (getUserHabits_rows _ _ _ _ _ _ Hget) as (p & Hrows & Hall).
  assert (Hsel : forall h,
            In h (filter
                    (fun h =>
                       (Habit.user_id h =? userId)%nat
                       && match truthy_string
                                  (Filter.category (Options.filter opts)) with
                          | Some c => match Habit.category h with
                                      | Some c' => (c' =? c)%string
                                      | None => false
                                      end
                          | None => true
                          end
                       && match Filter.is_archived (Options.filter opts) with
                          | Some b => Bool.eqb (Habit.is_archived h) b
                          | None => true
                          end)
                    (habits db)) <-> selected h).
  { intros h. rewrite filter_In, !andb_true_iff, Nat.eqb_eq. subst selected.
    cbn beta.
    destruct (truthy_string (Filter.category (Options.filter opts)))
      as [c|]; destruct (Filter.is_archived (Options.filter opts)) as [b|].
    - split.
      + intros (Hin & (Hu & Hc) & Hb).
        destruct (Habit.category h) as [c'|]; [|discriminate].
        apply String.eqb_eq in Hc. apply eqb_prop in Hb. subst c'.
        repeat split; try assumption.
        * intros c0 H0. congruence.
        * intros b0 H0. congruence.
      + intros (Hin & Hu & Hc & Hb). rewrite (Hc c eq_refl).
        rewrite (Hb b eq_refl), String.eqb_refl, eqb_reflx. tauto.
    - split.
      + intros (Hin & (Hu & Hc) & _).
        destruct (Habit.category h) as [c'|]; [|discriminate].
        apply String.eqb_eq in Hc. subst c'.
        repeat split; try assumption.
        * intros c0 H0. congruence.
        * intros b0 H0. discriminate.
      + intros (Hin & Hu & Hc & _). rewrite (Hc c eq_refl).
        rewrite String.eqb_refl. tauto.
    - split.
      + intros (Hin & (Hu & _) & Hb). apply eqb_prop in Hb.
        repeat split; try assumption.
        * intros c0 H0. discriminate.
        * intros b0 H0. congruence.
      + intros (Hin & Hu & _ & Hb).
        rewrite (Hb b eq_refl), eqb_reflx. tauto.
    - split.
      + intros (Hin & (Hu & _) & _). repeat split; try assumption.
        * intros c0 H0. discriminate.
        * intros b0 H0. discriminate.
      + intros (Hin & Hu & _). tauto. }
  split.
  - intros v Hv. apply Hsel.
    assert (Hh : In (habit v) (map habit views)) by (now apply in_map).
    rewrite Hrows in Hh. apply filter_In in Hh. destruct Hh as [Hh _].
    now apply order_rows_In in Hh.
  - intros Hnone h Hh. apply Hsel in Hh.
    assert (Hin : In h (map habit views)).
    { rewrite Hrows. apply filter_In. split; [|now apply Hall].
      now apply order_rows_In. }
    apply in_map_iff in Hin. destruct Hin as (v & Hv & Hvin). now exists v.
Qed.

(** Every habit [getUserHabits] returns is a stored habit of the caller that
    passes the [category] and [is_archived] filters; without the
    [completed_today] filter every such habit is returned. *)
Theorem getUserHabits_members (userId : nat) (opts : Options.t) (today : Z)
    (db db' : database) (views : list habit_view) :
  getUserHabits userId opts today db = (Ok views, db') ->
  let selected := fun h =>
    In h (habits db) /\ Habit.user_id h = userId /\
    (forall c, truthy_string (Filter.category (Options.filter opts)) = Some c
               -> Habit.category h = Some c) /\
    (forall b, Filter.is_archived (Options.filter opts) = Some b ->
               Habit.is_archived h = b) in
  (forall v, In v views -> selected (habit v)) /\
  (Filter.completed_today (Options.filter opts) = None ->
   forall h, selected h -> exists v, In v views /\ habit v = h).
Proof. apply getUserHabits_selected. Qed.

Lemma StronglySorted_filter {A : Type} (R : A -> A -> Prop) (p : A -> bool)
    (l : list A) :
  StronglySorted R l -> StronglySorted R (filter p l).
Proof.
  induction 1 as [|a l Hs IH Hall]; cbn [filter]; [constructor|].
  destruct (p a); [|assumption]. constructor; [assumption|].
  rewrite Forall_forall in *. intros x Hx. apply Hall.
  now apply filter_In in Hx.
Qed.

(** Sorting by [current_streak], and by [created_at] for every key other
    than [title] and [current_streak], returns the habits in that order:
    ascending for the order ['asc'], descending for any other. *)
Theorem getUserHabits_sorted (userId : nat) (opts : Options.t) (today : Z)
    (db db' : database) (views : list habit_view) :
  getUserHabits userId opts today db = (Ok views, db') ->
  let ordered := fun (key : Habit.t -> Z) =>
    StronglySorted
      (fun a b => if (Options.sortOrder opts =? "asc")%string
                  then key a <= key b else key b <= key a)
      (map habit views) in
  (Options.sortBy opts = "current_streak"%string ->
   ordered Habit.current_streak) /\
  (Options.sortBy opts <> "title"%string ->
   Options.sortBy opts <> "current_streak"%string ->
   ordered Habit.created_at).
Proof.
  intros Hget ordered.
  destruct (getUserHabits_rows _ _ _ _ _ _ Hget) as (p & Hrows & _).
  assert (Hgen : forall (key : Habit.t -> Z) col,
            sort_column_of (Options.sortBy opts) = col ->
            (forall a b, compare_column col a b = compare_Z (key a) (key b))
            -> ordered key).
  { intros key col Hcol Hcmp. subst ordered. cbn beta.
    rewrite Hrows, Hcol. apply StronglySorted_filter.
    unfold order_rows. apply sort_by_sorted.
    - intros a b. destruct (Options.sortOrder opts =? "asc")%string;
        rewrite Hcmp; apply compare_Z_le.
    - intros a b. destruct (Options.sortOrder opts =? "asc")%string; lia.
    - intros a b c. destruct (Options.sortOrder opts =? "asc")%string; lia. }
  split.
  - intros Hkey. apply (Hgen _ ColCurrentStreak); [|reflexivity].
    now rewrite Hkey.
  - intros H1 H2. apply (Hgen _ ColCreatedAt); [|reflexivity].
    now apply sort_column_default.
Qed.

(** The recent history of every returned habit holds exactly the caller's
    records of that habit dated from [today - days + 1] to [today], newest
    first. *)
Lemma getUserHabits_window_records (userId : nat) (opts : Options.t)
    (today : Z) (db : database) (views : list habit_view) :
  getUserHabits userId opts today db = (Ok views, db) ->
  forall v, In v views ->
    StronglySorted
      (fun a b => Completion.completion_date b <= Completion.completion_date a)
      (recent_completions v) /\
    (forall c, In c (recent_completions v) <->
               In c (habit_completions db) /\
               Completion.habit_id c = Habit.id (habit v) /\
               Completion.user_id c = userId /\
               today - Options.days opts + 1 <= Completion.completion_date c
                 <= today).
Proof.
  intros Hget v Hv. rewrite (getUserHabits_window _ _ _ _ _ Hget v Hv). split.
  - apply StronglySorted_filter, order_desc_sorted.
  - intros c. rewrite filter_In, order_rows_In, filter_In.
    rewrite !andb_true_iff, !Nat.eqb_eq, !Z.leb_le. tauto.
Qed.

(** A habit the caller has archived no longer shows up when the caller's
    habits are listed with the filter [is_archived = false]. *)
Theorem archived_habit_is_filtered_out (habitId userId : nat) (today : Z)
    (opts : Options.t) (db db1 db2 : database) (h' : Habit.t)
    (views : list habit_view) :
  toggleArchiveHabit habitId userId true db = (Ok h', db1) ->
  Filter.is_archived (Options.filter opts) = Some false ->
  getUserHabits userId opts today db1 = (Ok views, db2) ->
  forall v, In v views -> Habit.id (habit v) <> habitId.
Proof.
  intros Harch Hfilter Hget v Hv Hid.
  rewrite toggleArchiveHabit_unfold in Harch.
  destruct (filter (owned_by habitId userId) (habits db))
    as [|h [|h2 l]] eqn:Hf; try discriminate.
  injection Harch as <- <-.
  destruct (getUserHabits_selected _ _ _ _ _ _ Hget) as [Hsound _].
  destruct (Hsound v Hv) as (Hin & Hu & _ & Hb).
  specialize (Hb false Hfilter). cbn [habits] in Hin.
  apply in_map_iff in Hin. destruct Hin as (x & Hx & Hxin).
  destruct (owned_by habitId userId x) eqn:Ho.
  - rewrite <- Hx in Hb. discriminate.
  - rewrite Hx in Ho. unfold owned_by in Ho.
    rewrite Hid, Hu, !Nat.eqb_refl in Ho. discriminate.
Qed.

(** ** The other writes and the constraints of the schema *)

Lemma filter_keeps_distinct_keys {Row Key : Type} (key : Row -> Key)
    (keep : Row -> bool) (rows : list Row) :
  NoDup (map key rows) -> NoDup (map key (filter keep rows)).
Proof.
  intros Hkeys. induction rows as [|r rows IH]; [constructor|].
  cbn [map] in Hkeys. apply NoDup_cons_iff in Hkeys.
  destruct Hkeys as [Hr Hrest]. cbn [filter].
  destruct (keep r); [|now apply IH].
  cbn [map]. constructor; [|now apply IH].
  intros Hin. apply Hr. apply in_map_iff in Hin.
  destruct Hin as (y & Hy & Hyin). apply filter_In in Hyin.
  rewrite <- Hy. apply in_map. tauto.
Qed.

(** [createHabit], [deleteHabit], [toggleArchiveHabit] and
    [updateHabitStreaks] each leave a store that satisfies the primary keys,
    [UNIQUE(habit_id, completion_date)] and the foreign key; for
    [deleteHabit] this rests on the cascade. *)
Theorem writes_keep_constraints (habitId userId : nat) (db : database) :
  store_ok db ->
  (forall habitData now,
     store_ok (snd (createHabit userId habitData now db))) /\
  store_ok (snd (deleteHabit habitId userId db)) /\
  (forall isArchived,
     store_ok (snd (toggleArchiveHabit habitId userId isArchived db))) /\
  (forall today, store_ok (snd (updateHabitStreaks habitId today db))).
Proof.
  intros Hok. pose proof Hok as (Hh & Hc & Hu & Hfk).
  split; [|split; [|split]].
  - intros habitData now.
    unfold createHabit, bind, await, probe_columns, insert_habit, ret, throw.
    cbn beta iota zeta.
    destruct (varchar 255 _) as [title|]; cbn [snd]; [|exact Hok].
    destruct (match InsertData.category _ with
              | Some (Some c) => option_map Some (varchar 100 c)
              | _ => Some None
              end) as [category|]; cbn [snd]; [|exact Hok].
    split; [|split; [|split]]; cbn [habits habit_completions];
      try assumption.
    + rewrite map_app. cbn [map Habit.id].
      apply NoDup_app; [assumption|repeat constructor; intros []|].
      intros x Hx [Heq|[]]. apply in_map_iff in Hx.
      destruct Hx as (h & Hid & Hin).
      apply (fresh_habit_id_new _ _ Hin). congruence.
    + intros c Hin. destruct (Hfk c Hin) as (h & Hhin & Hid).
      exists h. split; [|assumption]. apply in_or_app. now left.
  - unfold deleteHabit, bind, await, delete_habit, ret.
    cbn beta iota zeta. cbn [snd].
    split; [|split; [|split]]; cbn [habits habit_completions].
    + now apply filter_keeps_distinct_keys.
    + now apply filter_keeps_distinct_keys.
    + intros c1 c2 H1 H2. apply filter_In in H1, H2.
      apply Hu; tauto.
    + intros c Hin. apply filter_In in Hin. destruct Hin as [Hin Hkeep].
      destruct (Hfk c Hin) as (h & Hhin & Hid). exists h.
      split; [|assumption]. apply filter_In. split; [assumption|].
      apply negb_true_iff. apply not_true_is_false. intros Ho.
      apply negb_true_iff in Hkeep.
      assert (existsb (fun h0 => (Habit.id h0 =? Completion.habit_id c)%nat)
                (filter (owned_by habitId userId) (habits db)) = true);
        [|congruence].
      apply existsb_exists. exists h. split.
      * apply filter_In. now split.
      * now apply Nat.eqb_eq.
  - intros isArchived. rewrite toggleArchiveHabit_unfold.
    destruct (filter (owned_by habitId userId) (habits db))
      as [|h [|h2 l]]; cbn [snd]; try exact Hok.
    assert (Hids : map Habit.id
                     (map (fun x => if owned_by habitId userId x
                                    then set_archived isArchived x else x)
                        (habits db))
                   = map Habit.id (habits db)).
    { rewrite map_map. apply map_ext. intros x.
      now destruct (owned_by habitId userId x). }
    split; [|split; [|split]]; cbn [habits habit_completions];
      try assumption.
    + now rewrite Hids.
    + intros c Hin. destruct (Hfk c Hin) as (x & Hxin & Hid).
      exists (if owned_by habitId userId x then set_archived isArchived x
              else x).
      split.
      * apply in_map_iff. now exists x.
      * now destruct (owned_by habitId userId x).
  - intros today. rewrite updateHabitStreaks_eq. cbn [snd].
    now apply store_ok_with_streaks.
Qed.

(** ** Instances of the further properties *)

Lemma sample_db_ok : store_ok sample_db.
Proof.
  split; [|split; [|split]].
  - repeat constructor; simpl; lia.
  - repeat constructor; simpl; lia.
  - exact sample_db_unique.
  - intros c Hin. simpl in Hin.
    repeat (destruct Hin as [<-|Hin]); try contradiction.
    + exists habit_read. split; [now left|reflexivity].
    + exists habit_read. split; [now left|reflexivity].
    + exists habit_exercise. split; [right; now left|reflexivity].
    + exists habit_exercise. split; [right; now left|reflexivity].
Qed.

Lemma sample_habit_ids : NoDup (map Habit.id (habits sample_db)).
Proof. exact (proj1 sample_db_ok). Qed.

Lemma sample_assign_frame :
  forall column v h h',
    In column allowedFields -> sample_assign column v h = Data h' ->
    Habit.id h' = Habit.id h /\ Habit.user_id h' = Habit.user_id h /\
    Habit.current_streak h' = Habit.current_streak h /\
    Habit.longest_streak h' = Habit.longest_streak h /\
    Habit.created_at h' = Habit.created_at h.
Proof.
  intros column v h h' Hin.
  unfold allowedFields in Hin.
  destruct Hin as [<-|[<-|[<-|[<-|[]]]]]; destruct v; cbn;
    intros H; try discriminate; injection H as <-; repeat split.
Qed.

Lemma longest_streak_monotone_witness :
  NoDup [99; 100] /\ NoDup [98; 99; 100] /\
  incl [99; 100] [98; 99; 100] /\
  longestStreak (computeStreaks [99; 100] 100)
  <= longestStreak (computeStreaks [98; 99; 100] 100).
Proof.
  assert (H1 : NoDup [99; 100]) by (repeat constructor; simpl; lia).
  assert (H2 : NoDup [98; 99; 100]) by (repeat constructor; simpl; lia).
  assert (H3 : incl [99; 100] [98; 99; 100])
    by (intros x Hx; right; exact Hx).
  split; [exact H1|]. split; [exact H2|]. split; [exact H3|].
  exact (longest_streak_monotone _ _ 100 100 H1 H2 H3).
Defined.

Lemma later_date_zeroes_current_witness :
  In 101 [100; 101] /\
  (if includes 100 [100; 101] then 100 else 100 - 1) < 101 /\
  currentStreak (computeStreaks [100; 101] 100) = 0.
Proof.
  assert (H1 : In 101 [100; 101]) by (right; left; reflexivity).
  assert (H2 : (if includes 100 [100; 101] then 100 else 100 - 1) < 101)
    by reflexivity.
  split; [exact H1|]. split; [exact H2|].
  exact (later_date_zeroes_current _ 100 101 H1 H2).
Defined.

Lemma toggle_leaves_other_records_witness :
  let out := toggleHabitCompletion 2 7 morning_100 true 100 sample_db in
  out = (Ok (Completion.mk 3 2 7 100 true), snd out) /\
  filter (fun c => negb (same_key 2 (toISODate morning_100) c))
    (habit_completions (snd out))
  = filter (fun c => negb (same_key 2 (toISODate morning_100) c))
      (habit_completions sample_db).
Proof.
  intros out.
  assert (H1 : out = (Ok (Completion.mk 3 2 7 100 true), snd out))
    by reflexivity.
  split; [exact H1|].
  exact (toggle_leaves_other_records 2 7 morning_100 true 100 sample_db
           (snd out) _ H1).
Defined.

Lemma toggle_leaves_other_habits_witness :
  let out := toggleHabitCompletion 2 7 morning_100 true 100 sample_db in
  out = (Ok (Completion.mk 3 2 7 100 true), snd out) /\
  filter (fun h => negb (Habit.id h =? 2)%nat) (habits (snd out))
  = filter (fun h => negb (Habit.id h =? 2)%nat) (habits sample_db) /\
  map (fun h => (Habit.id h, Habit.user_id h, Habit.title h,
                 Habit.category h, Habit.is_archived h, Habit.created_at h))
    (habits (snd out))
  = map (fun h => (Habit.id h, Habit.user_id h, Habit.title h,
                   Habit.category h, Habit.is_archived h, Habit.created_at h))
      (habits sample_db).
Proof.
  intros out.
  assert (H1 : out = (Ok (Completion.mk 3 2 7 100 true), snd out))
    by reflexivity.
  split; [exact H1|].
  exact (toggle_leaves_other_habits 2 7 morning_100 true 100 sample_db
           (snd out) _ H1).
Defined.

Lemma toggle_sets_completed_day_witness :
  let out := toggleHabitCompletion 1 7 morning_100 false 100 sample_db in
  out = (Ok (Completion.mk 2 1 7 100 false), snd out) /\
  (forall x,
     In x (completed_dates 1 (snd out)) <->
     (x = toISODate morning_100 /\ false = true) \/
     (x <> toISODate morning_100 /\ In x (completed_dates 1 sample_db))).
Proof.
  intros out.
  assert (H1 : out = (Ok (Completion.mk 2 1 7 100 false), snd out))
    by reflexivity.
  split; [exact H1|].
  exact (toggle_sets_completed_day 1 7 morning_100 false 100 sample_db
           (snd out) _ H1).
Defined.

Lemma toggle_keeps_constraints_witness :
  store_ok sample_db /\
  store_ok (snd (toggleHabitCompletion 1 7 (getTime 98) true 100 sample_db)).
Proof.
  split; [exact sample_db_ok|].
  exact (toggle_keeps_constraints 1 7 (getTime 98) true 100 sample_db
           sample_db_ok).
Defined.

Lemma getHabitById_owner_only_witness :
  NoDup (map Habit.id (habits sample_db)) /\
  (forall h,
     getHabitById 1 7 sample_db = (Ok h, sample_db) <->
     In h (habits sample_db) /\ Habit.id h = 1%nat /\
     Habit.user_id h = 7%nat) /\
  snd (getHabitById 1 7 sample_db) = sample_db.
Proof.
  split; [exact sample_habit_ids|].
  exact (getHabitById_owner_only 1 7 sample_db sample_habit_ids).
Defined.

Lemma updateHabit_whitelist_witness :
  let updateData :=
    [("title", JString "Read more"); ("current_streak", JNumber 99)]%string in
  ((forall kv, In kv updateData -> ~ In (fst kv) allowedFields) ->
   updateHabit sample_assign 1 7 updateData sample_db
   = (Err "No valid fields to update"%string, sample_db)) /\
  (forall h' db',
     updateHabit sample_assign 1 7 updateData sample_db = (Ok h', db') ->
     exists h,
       filter (owned_by 1 7) (habits sample_db) = [h] /\
       Habit.id h' = Habit.id h /\ Habit.user_id h' = Habit.user_id h /\
       Habit.current_streak h' = Habit.current_streak h /\
       Habit.longest_streak h' = Habit.longest_streak h /\
       Habit.created_at h' = Habit.created_at h /\
       habit_completions db' = habit_completions sample_db /\
       filter (fun x => negb (owned_by 1 7 x)) (habits db')
       = filter (fun x => negb (owned_by 1 7 x)) (habits sample_db)).
Proof.
  intros updateData.
  exact (updateHabit_whitelist sample_assign sample_assign_frame 1 7
           updateData sample_db).
Defined.

Lemma recalculate_route_owner_only_witness :
  NoDup (map Habit.id (habits sample_db)) /\
  ((exists h, In h (habits sample_db) /\ owned_by 1 8 h = true) ->
   recalculate_route 1 8 100 sample_db
   = (Json 200 (computeStreaks (completed_dates 1 sample_db) 100),
      with_streaks 1 (computeStreaks (completed_dates 1 sample_db) 100)
        sample_db)) /\
  ((forall h, In h (habits sample_db) -> owned_by 1 8 h = false) ->
   exists message,
     recalculate_route 1 8 100 sample_db = (JsonError 400 message, sample_db)).
Proof.
  split; [exact sample_habit_ids|].
  exact (recalculate_route_owner_only 1 8 100 sample_db sample_habit_ids).
Defined.

Lemma getUserHabits_members_witness :
  let out := getUserHabits 7 default_options 100 sample_db in
  let views := match fst out with Ok v => v | Err _ => [] end in
  let selected := fun h =>
    In h (habits sample_db) /\ Habit.user_id h = 7%nat /\
    (forall c,
       truthy_string (Filter.category (Options.filter default_options))
       = Some c -> Habit.category h = Some c) /\
    (forall b, Filter.is_archived (Options.filter default_options) = Some b ->
               Habit.is_archived h = b) in
  out = (Ok views, sample_db) /\
  (forall v, In v views -> selected (habit v)) /\
  (Filter.completed_today (Options.filter default_options) = None ->
   forall h, selected h -> exists v, In v views /\ habit v = h).
Proof.
  intros out views selected.
  assert (H1 : out = (Ok views, sample_db)) by reflexivity.
  split; [exact H1|].
  exact (getUserHabits_members 7 default_options 100 sample_db sample_db
           views H1).
Defined.

Lemma getUserHabits_sorted_witness :
  let by_streak := Options.mk 14 (Filter.mk None None None)
                    "current_streak"%string "asc"%string in
  let by_default := Options.mk 14 (Filter.mk None None None)
                     "bogus"%string "desc"%string in
  let out1 := getUserHabits 7 by_streak 100 streak_db in
  let views1 := match fst out1 with Ok v => v | Err _ => [] end in
  let out2 := getUserHabits 7 by_default 100 streak_db in
  let views2 := match fst out2 with Ok v => v | Err _ => [] end in
  (out1 = (Ok views1, streak_db) /\
   Options.sortBy by_streak = "current_streak"%string /\
   map habit views1 = [habit_chess; habit_walk; habit_piano] /\
   map Habit.current_streak (map habit views1) = [1; 2; 4] /\
   StronglySorted
     (fun a b => Habit.current_streak a <= Habit.current_streak b)
     (map habit views1)) /\
  (out2 = (Ok views2, streak_db) /\
   Options.sortBy by_default <> "title"%string /\
   Options.sortBy by_default <> "current_streak"%string /\
   map habit views2 = [habit_piano; habit_chess; habit_walk] /\
   map Habit.created_at (map habit views2) = [50; 45; 40] /\
   StronglySorted
     (fun a b => Habit.created_at b <= Habit.created_at a)
     (map habit views2)).
Proof.
  intros by_streak by_default out1 views1 out2 views2.
  assert (H1 : out1 = (Ok views1, streak_db)) by reflexivity.
  assert (H2 : out2 = (Ok views2, streak_db)) by reflexivity.
  assert (K1 : Options.sortBy by_streak = "current_streak"%string)
    by reflexivity.
  assert (K2 : Options.sortBy by_default <> "title"%string) by discriminate.
  assert (K3 : Options.sortBy by_default <> "current_streak"%string)
    by discriminate.
  split.
  - split; [exact H1|]. split; [exact K1|]. split; [reflexivity|].
    split; [reflexivity|].
    exact (proj1 (getUserHabits_sorted 7 by_streak 100 streak_db streak_db
                    views1 H1) K1).
  - split; [exact H2|]. split; [exact K2|]. split; [exact K3|].
    split; [reflexivity|]. split; [reflexivity|].
    exact (proj2 (getUserHabits_sorted 7 by_default 100 streak_db streak_db
                    views2 H2) K2 K3).
Defined.

Lemma archived_habit_is_filtered_out_witness :
  let opts := Options.mk 14 (Filter.mk None (Some false) None)
                "created_at"%string "desc"%string in
  let archived := toggleArchiveHabit 1 7 true sample_db in
  let out := getUserHabits 7 opts 100 (snd archived) in
  let views := match fst out with Ok v => v | Err _ => [] end in
  archived = (Ok (set_archived true habit_read), snd archived) /\
  Filter.is_archived (Options.filter opts) = Some false /\
  out = (Ok views, snd archived) /\
  (forall v, In v views -> Habit.id (habit v) <> 1%nat).
Proof.
  intros opts archived out views.
  assert (H1 : archived = (Ok (set_archived true habit_read), snd archived))
    by reflexivity.
  assert (H2 : Filter.is_archived (Options.filter opts) = Some false)
    by reflexivity.
  assert (H3 : out = (Ok views, snd archived)) by reflexivity.
  split; [exact H1|]. split; [exact H2|]. split; [exact H3|].
  exact (archived_habit_is_filtered_out 1 7 100 opts sample_db
           (snd archived) (snd archived) _ views H1 H2 H3).
Defined.

Lemma writes_keep_constraints_witness :
  store_ok sample_db /\
  (forall habitData now,
     store_ok (snd (createHabit 7 habitData now sample_db))) /\
  store_ok (snd (deleteHabit 1 7 sample_db)) /\
  (forall isArchived,
     store_ok (snd (toggleArchiveHabit 1 7 isArchived sample_db))) /\
  (forall today, store_ok (snd (updateHabitStreaks 1 today sample_db))).
Proof.
  split; [exact sample_db_ok|].
  exact (writes_keep_constraints 1 7 sample_db sample_db_ok).
Defined.

(** Deleting the caller's habit removes its two records and leaves those of
    the other habit. *)
Example delete_cascades :
  habit_completions (snd (deleteHabit 1 7 sample_db))
  = [Completion.mk 3 2 7 100 false; Completion.mk 4 2 7 98 true].
Proof. reflexivity. Qed.

(** Another user cannot delete or recalculate the habit, but can toggle
    it. *)
Example foreign_user_requests :
  snd (deleteHabit 1 8 sample_db) = sample_db /\
  (exists message,
     recalculate_route 1 8 100 sample_db = (JsonError 400 message, sample_db))
  /\
  fst (toggleHabitCompletion 1 8 (getTime 98) true 100 sample_db)
  = Ok (Completion.mk 5 1 8 98 true).
Proof.
  split; [reflexivity|]. split; [now eexists|reflexivity].
Qed.

(** ** The export route *)

Lemma or_zero_id (n : Z) : or_zero n = n.
Proof. unfold or_zero. destruct (Z.eqb_spec n 0); congruence. Qed.

Lemma fold_max_ge (l : list Z) (x : Z) :
  In x l -> x <= fold_right Z.max 0 l.
Proof.
  induction l as [|y l IH]; intros Hin; [contradiction|]. cbn [fold_right].
  destruct Hin as [->|Hin]; [lia|]. specialize (IH Hin). lia.
Qed.

(** The export reads only habits that are not archived: its
    [archivedHabits] count is always 0 and [activeHabits] always equals
    [totalHabits].  Its [longestStreak] is never negative and at least the
    longest streak of every exported habit. *)
Theorem export_counts (userId : nat) (days today : Z) (db db' : database)
    (habits : list habit_view) :
  getUserHabits userId (export_options days) today db = (Ok habits, db') ->
  ExportStats.archivedHabits habits = 0 /\
  ExportStats.activeHabits habits = ExportStats.totalHabits habits /\
  0 <= ExportStats.longestStreak habits /\
  (forall h, In h habits ->
     Habit.longest_streak (habit h) <= ExportStats.longestStreak habits).
Proof.
  intros Hget.
  destruct (getUserHabits_selected _ _ _ _ _ _ Hget) as [Hsound _].
  assert (Hactive : forall h, In h habits ->
                      Habit.is_archived (habit h) = false).
  { intros h Hh. destruct (Hsound h Hh) as (_ & _ & _ & Hb).
    now apply Hb. }
  unfold ExportStats.archivedHabits, ExportStats.activeHabits,
    ExportStats.totalHabits, ExportStats.longestStreak.
  split; [|split; [|split]].
  - rewrite (filter_none _ habits); [reflexivity|].
    apply not_true_is_false. intros Hex. apply existsb_exists in Hex.
    destruct Hex as (h & Hh & Ha). rewrite (Hactive h Hh) in Ha.
    discriminate.
  - rewrite filter_all_true; [reflexivity|].
    intros h Hh. now rewrite (Hactive h Hh).
  - generalize (map (fun h => or_zero (Habit.longest_streak (habit h)))
                  habits).
    intros l. induction l as [|y l IH]; cbn [fold_right]; lia.
  - intros h Hh. apply fold_max_ge. apply in_map_iff. exists h.
    split; [apply or_zero_id|assumption].
Qed.

Lemma export_counts_witness :
  let out := getUserHabits 7 (export_options 30) 100 streak_db in
  let exported := match fst out with Ok v => v | Err _ => [] end in
  In habit_chess (habits streak_db) /\
  Habit.is_archived habit_chess = true /\
  Habit.longest_streak habit_chess = 9 /\
  out = (Ok exported, streak_db) /\
  map habit exported = [habit_piano; habit_walk] /\
  ExportStats.longestStreak exported = 5 /\
  ExportStats.archivedHabits exported = 0 /\
  ExportStats.activeHabits exported = ExportStats.totalHabits exported /\
  0 <= ExportStats.longestStreak exported /\
  (forall h, In h exported ->
     Habit.longest_streak (habit h) <= ExportStats.longestStreak exported).
Proof.
  intros out exported.
  assert (H1 : out = (Ok exported, streak_db)) by reflexivity.
  split; [right; right; left; reflexivity|].
  split; [reflexivity|]. split; [reflexivity|].
  split; [exact H1|]. split; [reflexivity|]. split; [reflexivity|].
  exact (export_counts 7 30 100 streak_db streak_db exported H1).
Defined.

(** * The methods in a time zone *)

(** ** Moving a date by whole days *)

Lemma fixed_zone_fixed (offset : Z) : fixed_offset (fixed_zone offset).
Proof. exists offset. intros t. split; reflexivity. Qed.

(** In a zone of fixed offset [setDate(getDate() + n)] moves the instant by
    [n] times 24 hours. *)
Lemma setDate_shift_fixed (tz : timezone) (d n : Z) :
  fixed_offset tz -> setDate_shift tz d n = d + n * msPerDay.
Proof.
  intros (c & Hc). unfold setDate_shift, UTC, LocalTime.
  destruct (Hc d) as [-> _].
  destruct (Hc (d + c + n * msPerDay)) as [_ ->]. lia.
Qed.

Lemma toISODate_shift (t n : Z) :
  toISODate (t + n * msPerDay) = toISODate t + n.
Proof.
  unfold toISODate. apply Z.div_add. rewrite msPerDay_value. lia.
Qed.

Lemma toISODate_mono (t1 t2 : Z) : t1 <= t2 -> toISODate t1 <= toISODate t2.
Proof.
  intros H. unfold toISODate. apply Z.div_le_mono; [|assumption].
  rewrite msPerDay_value. lia.
Qed.

Lemma new_york_offsets : offsets_within_a_day new_york_2024.
Proof.
  intros t t'. unfold new_york_2024, msPerHour.
  cbn [offset_of_utc offset_of_local].
  rewrite msPerDay_value.
  destruct (_ && _); destruct (_ && _); lia.
Qed.

(** ** The streak engine *)

Lemma current_loop_in_fixed (tz : timezone) (sortedDates : list Z) :
  fixed_offset tz ->
  forall checkDate n,
    current_loop_in tz sortedDates (getTime checkDate) n
    = current_loop sortedDates checkDate n.
Proof.
  intros Hf. induction sortedDates as [|d l IH]; intros c n;
    cbn [current_loop_in current_loop]; [reflexivity|].
  destruct (getTime d =? getTime c); [|reflexivity].
  rewrite setDate_shift_fixed by assumption.
  replace (getTime c + -1 * msPerDay) with (getTime (c - 1))
    by (unfold getTime; lia).
  apply IH.
Qed.

(** In a zone of fixed offset the engine counts in calendar days of the UTC
    day of the clock. *)
Lemma computeStreaksIn_fixed (tz : timezone) (dates : list Z) (now : Z) :
  fixed_offset tz ->
  computeStreaksIn tz dates now = computeStreaks dates (toISODate now).
Proof.
  intros Hf. destruct dates as [|x l]; [reflexivity|].
  unfold computeStreaksIn, computeStreaks. cbv zeta.
  rewrite setDate_shift_fixed by assumption.
  rewrite toISODate_shift.
  replace (toISODate now + -1) with (toISODate now - 1) by lia.
  now rewrite current_loop_in_fixed.
Qed.

Lemma computeStreaksIn_perm (tz : timezone) (dates1 dates2 : list Z)
    (now : Z) :
  Permutation dates1 dates2 ->
  computeStreaksIn tz dates1 now = computeStreaksIn tz dates2 now.
Proof.
  intros Hp.
  assert (Ha : sort_by cmp_asc dates1 = sort_by cmp_asc dates2)
    by now apply sort_asc_perm_eq.
  assert (Hd : sort_by cmp_desc dates1 = sort_by cmp_desc dates2).
  { rewrite <- (rev_involutive (sort_by cmp_desc dates1)).
    rewrite <- (rev_involutive (sort_by cmp_desc dates2)).
    now rewrite <- !sort_desc_rev, Ha. }
  destruct dates1 as [|x l1], dates2 as [|y l2].
  - reflexivity.
  - apply Permutation_nil in Hp. discriminate.
  - symmetry in Hp. apply Permutation_nil in Hp. discriminate.
  - unfold computeStreaksIn. now rewrite Ha, Hd.
Qed.

(** ** [updateHabitStreaks] and [toggleHabitCompletion] *)

Lemma updateHabitStreaksIn_eq (tz : timezone) (habitId : nat) (now : Z)
    (db : database) :
  updateHabitStreaksIn tz habitId now db =
  (Ok (computeStreaksIn tz (completed_dates habitId db) now),
   with_streaks habitId (computeStreaksIn tz (completed_dates habitId db) now)
     db).
Proof.
  unfold updateHabitStreaksIn, bind, await, select_completed, update_streaks,
    ret, with_streaks, completed_dates.
  cbn beta iota.
  rewrite (computeStreaksIn_perm tz _
             (map Completion.completion_date
                (filter (completed_of habitId) (habit_completions db)))).
  - reflexivity.
  - apply Permutation_map, order_rows_perm.
Qed.

Lemma toggleIn_unfold (tz : timezone) (habitId userId : nat) (date : Z)
    (completed : bool) (now : Z) (db : database) :
  toggleHabitCompletionIn tz habitId userId date completed now db =
  let recompute := fun row db1 =>
    (Ok row,
     with_streaks habitId
       (computeStreaksIn tz (completed_dates habitId db1) now) db1) in
  match single (filter (same_key habitId (toISODate date))
                  (habit_completions db)) with
  | Data e =>
      match update_completion (Completion.id e) completed db with
      | (Data row, db1) => recompute row db1
      | (Error m, db1) =>
          (Err ("Failed to update completion: " ++ m)%string, db1)
      end
  | Error _ =>
      match insert_completion habitId userId (toISODate date) completed db
      with
      | (Data row, db1) => recompute row db1
      | (Error m, db1) =>
          (Err ("Failed to create completion: " ++ m)%string, db1)
      end
  end.
Proof.
  unfold toggleHabitCompletionIn, bind, await, select_completion, ret, throw.
  cbn beta iota zeta.
  destruct (single _) as [e|m]; cbn [data].
  - destruct (update_completion _ _ _) as [[row|m] db1].
    + now rewrite updateHabitStreaksIn_eq.
    + reflexivity.
  - destruct (insert_completion _ _ _ _ _) as [[row|m'] db1].
    + now rewrite updateHabitStreaksIn_eq.
    + reflexivity.
Qed.

(** The two toggles perform the same upsert; they differ in the streak pair
    they store. *)
Lemma toggleIn_ok (tz : timezone) (habitId userId : nat) (date : Z)
    (completed : bool) (now today : Z) (db db' : database)
    (row : Completion.t) :
  toggleHabitCompletionIn tz habitId userId date completed now db
  = (Ok row, db') ->
  exists db1,
    db' = with_streaks habitId
            (computeStreaksIn tz (completed_dates habitId db1) now) db1 /\
    toggleHabitCompletion habitId userId date completed today db
    = (Ok row,
       with_streaks habitId
         (computeStreaks (completed_dates habitId db1) today) db1).
Proof.
  rewrite toggleIn_unfold, toggle_unfold. cbn zeta.
  destruct (single _) as [e|m].
  - destruct (update_completion _ _ _) as [[r|m] db1]; [|discriminate].
    intros H. injection H as <- <-. now exists db1.
  - destruct (insert_completion _ _ _ _ _) as [[r|m'] db1]; [|discriminate].
    intros H. injection H as <- <-. now exists db1.
Qed.

Lemma toggleIn_err (tz : timezone) (habitId userId : nat) (date : Z)
    (completed : bool) (now today : Z) (db db' : database)
    (message : string) :
  toggleHabitCompletionIn tz habitId userId date completed now db
  = (Err message, db') ->
  toggleHabitCompletion habitId userId date completed today db
  = (Err message, db').
Proof.
  rewrite toggleIn_unfold, toggle_unfold. cbn zeta.
  destruct (single _) as [e|m].
  - destruct (update_completion _ _ _) as [[r|m] db1]; [discriminate|].
    trivial.
  - destruct (insert_completion _ _ _ _ _) as [[r|m'] db1]; [discriminate|].
    trivial.
Qed.

Lemma toggleIn_fixed (tz : timezone) (habitId userId : nat) (date : Z)
    (completed : bool) (now : Z) (db : database) :
  fixed_offset tz ->
  toggleHabitCompletionIn tz habitId userId date completed now db
  = toggleHabitCompletion habitId userId date completed (toISODate now) db.
Proof.
  intros Hf. rewrite toggleIn_unfold, toggle_unfold. cbn zeta.
  destruct (single _) as [e|m].
  - destruct (update_completion _ _ _) as [[r|m] db1]; [|reflexivity].
    now rewrite computeStreaksIn_fixed.
  - destruct (insert_completion _ _ _ _ _) as [[r|m'] db1]; [|reflexivity].
    now rewrite computeStreaksIn_fixed.
Qed.

(** ** The current streak of the specification *)

Lemma desc_run_NoDup (n : nat) : forall c, NoDup (desc_run c n).
Proof.
  induction n as [|n IH]; intros c; cbn [desc_run]; constructor.
  - rewrite desc_run_In. lia.
  - apply IH.
Qed.

Lemma desc_run_length (n : nat) : forall c, List.length (desc_run c n) = n.
Proof.
  induction n as [|n IH]; intros c; cbn [desc_run List.length];
    [reflexivity|now rewrite IH].
Qed.

(** A run cannot hold more days than there are dates. *)
Lemma run_back_short (dates : list Z) (a : Z) (k : nat) :
  run_back dates a (Z.of_nat k) -> (k <= List.length dates)%nat.
Proof.
  intros Hrun. rewrite <- (desc_run_length k a).
  apply NoDup_incl_length; [apply desc_run_NoDup|].
  intros x Hx. apply desc_run_In in Hx.
  replace x with (a - (a - x)) by lia. apply Hrun. lia.
Qed.

Lemma walk_back_run (dates : list Z) (steps : nat) :
  forall day count,
    exists k,
      walk_back steps dates day count = count + Z.of_nat k /\
      (k <= steps)%nat /\
      run_back dates day (Z.of_nat k) /\
      ((k < steps)%nat -> ~ In (day - Z.of_nat k) dates).
Proof.
  induction steps as [|n IH]; intros day count; cbn [walk_back].
  - exists 0%nat. split; [simpl; lia|]. split; [lia|].
    split; [intros i Hi; simpl in Hi; lia|lia].
  - destruct (includes day dates) eqn:E.
    + destruct (IH (day - 1) (count + 1)) as (k & Hk & Hle & Hrun & Hstop).
      exists (Datatypes.S k). split; [rewrite Hk; lia|]. split; [lia|].
      split.
      * intros i Hi. destruct (Z.eq_dec i 0) as [->|Hne].
        -- rewrite Z.sub_0_r. now apply includes_In.
        -- replace (day - i) with (day - 1 - (i - 1)) by lia.
           apply Hrun. lia.
      * intros Hlt.
        replace (day - Z.of_nat (Datatypes.S k))
          with (day - 1 - Z.of_nat k) by lia.
        apply Hstop. lia.
    + exists 0%nat. split; [simpl; lia|]. split; [lia|].
      split; [intros i Hi; simpl in Hi; lia|].
      intros _. rewrite Z.sub_0_r. rewrite <- includes_In. congruence.
Qed.

(** [f_current] is the current streak of the specification: 0 when neither
    today nor yesterday is completed, otherwise the length [k >= 1] of the
    run that ends at the anchor, whatever lies after the anchor. *)
Lemma f_current_run (dates : list Z) (today : Z) :
  let a := if includes today dates then today else today - 1 in
  let k := f_current dates today in
  (~ In today dates -> ~ In (today - 1) dates -> k = 0) /\
  (In a dates -> 1 <= k /\ run_back dates a k /\ ~ In (a - k) dates).
Proof.
  intros a k. split.
  - intros H1 H2. subst k. unfold f_current.
    rewrite <- includes_In in H1, H2.
    apply not_true_is_false in H1, H2. now rewrite H1, H2.
  - intros Ha.
    assert (Hk : k = walk_back (List.length dates) dates a 0).
    { subst k a. unfold f_current.
      destruct (includes today dates); [reflexivity|].
      apply includes_In in Ha. now rewrite Ha. }
    destruct (walk_back_run dates (List.length dates) a 0)
      as (n & Hw & Hle & Hrun & Hstop).
    rewrite Hw in Hk. rewrite Z.add_0_l in Hk. rewrite Hk.
    split; [|split; [exact Hrun|]].
    + destruct n as [|n]; [|lia]. exfalso.
      destruct dates as [|x l]; [contradiction|].
      apply Hstop; [simpl; lia|]. now rewrite Z.sub_0_r.
    + intros Hin.
      destruct (Nat.eq_dec n (List.length dates)) as [Heq|Hne].
      * assert (Hrun' : run_back dates a (Z.of_nat (Datatypes.S n))).
        { intros i Hi. destruct (Z.eq_dec i (Z.of_nat n)) as [->|Hi'];
            [assumption|apply Hrun; lia]. }
        apply run_back_short in Hrun'. lia.
      * apply Hstop; [lia|assumption].
Qed.

(** Claim C3, where the code departs from it.  Habit 1 has days 99 and 100
    completed; at 00:00:05 UTC of day 100 day 101 is toggled to completed.
    The toggle returns; the habit's completed days are then 99, 100 and 101.
    The functions of the specification give a current streak of 2 (anchor
    100, then 99) and a longest streak of 3; the row stored carries a
    current streak of 0 and a longest streak of 3. *)
Theorem toggle_stores_current_streak_unlike_spec :
  toISODate morning_100 = 100 /\
  fst (toggleHabitCompletionIn utc_zone 1 7 (getTime 101) true morning_100
         sample_db)
  = Ok (Completion.mk 5 1 7 101 true) /\
  completed_dates 1
    (snd (toggleHabitCompletionIn utc_zone 1 7 (getTime 101) true morning_100
            sample_db))
  = [99; 100; 101] /\
  f_current [99; 100; 101] 100 = 2 /\
  f_longest [99; 100; 101] = 3 /\
  filter (fun h => (Habit.id h =? 1)%nat)
    (habits
       (snd (toggleHabitCompletionIn utc_zone 1 7 (getTime 101) true
               morning_100 sample_db)))
  = [Habit.mk 1 7 "Read" (Some "Mind"%string) false 0 3 10].
Proof.
  split; [reflexivity|]. split; [reflexivity|]. split; [reflexivity|].
  split; [reflexivity|]. split; reflexivity.
Qed.

(** The same toggle in New York and in Kolkata stores the same pair: the
    departure does not come from the time zone. *)
Example toggle_later_day_in_other_zones :
  map (fun tz =>
         filter (fun h => (Habit.id h =? 1)%nat)
           (habits
              (snd (toggleHabitCompletionIn tz 1 7 (getTime 101) true
                      morning_100 sample_db))))
    [new_york_2024; kolkata]
  = [[Habit.mk 1 7 "Read" (Some "Mind"%string) false 0 3 10];
     [Habit.mk 1 7 "Read" (Some "Mind"%string) false 0 3 10]].
Proof. reflexivity. Qed.

(** ** The streak engine across a change of offset *)

(** In a zone of fixed offset the grace day holds. *)
Lemma grace_day_fixed_zone (tz : timezone) (now : Z) :
  fixed_offset tz ->
  computeStreaksIn tz [toISODate now - 1] now = mkStreaks 1 1.
Proof.
  intros Hf. rewrite computeStreaksIn_fixed by assumption. apply grace_day.
Qed.

(** Claim C5, where the code departs from it.  In New York at
    2024-11-04T00:30Z (19:30 of 11-03, the day the clocks went back) today
    is day 20031 (11-04); [yesterday.setDate(yesterday.getDate() - 1)] gives
    19:30 of 11-02 local time, which is 23:30Z of 11-02, so [yesterdayStr]
    is day 20029, two days before today.  With only day 20030 (11-03)
    completed the current streak is 0 where the claim gives 1; the longest
    streak is 1.  In a zone of fixed offset the pair is (1, 1) at every
    instant. *)
Theorem grace_day_lost_after_dst_change :
  toISODate nov_4_0030 = 20031 /\
  toISODate (setDate_shift new_york_2024 nov_4_0030 (-1)) = 20031 - 2 /\
  computeStreaksIn new_york_2024 [20031 - 1] nov_4_0030 = mkStreaks 0 1 /\
  (forall tz now,
     fixed_offset tz ->
     computeStreaksIn tz [toISODate now - 1] now = mkStreaks 1 1).
Proof.
  split; [reflexivity|]. split; [reflexivity|]. split; [reflexivity|].
  intros tz now. apply grace_day_fixed_zone.
Qed.

(** In a zone of fixed offset, with every completed day before today,
    completing today raises the current streak by exactly one (from 0 to 1
    after a missed yesterday). *)
Theorem complete_today_extends_streak_fixed_zone (tz : timezone)
    (S : list Z) (now : Z) :
  fixed_offset tz ->
  NoDup S -> (forall x, In x S -> x < toISODate now) ->
  currentStreak (computeStreaksIn tz (toISODate now :: S) now)
  = currentStreak (computeStreaksIn tz S now) + 1.
Proof.
  intros Hf Hnd Hlt. rewrite !computeStreaksIn_fixed by assumption.
  now apply complete_today_extends.
Qed.

(** Across a change of offset it need not: in New York at 2024-03-11T12:00Z,
    the day after the clocks went forward, days 03-09 and 03-10 give a
    current streak of 2, and completing 03-11 lowers it to 1, because
    [checkDate.setDate(checkDate.getDate() - 1)] moves midnight UTC of 03-11
    to 01:00Z of 03-10. *)
Example complete_today_after_dst_change :
  toISODate mar_11_noon = 19793 /\
  computeStreaksIn new_york_2024 [19791; 19792] mar_11_noon = mkStreaks 2 2 /\
  setDate_shift new_york_2024 (getTime 19793) (-1) = getTime 19792 + msPerHour
  /\
  computeStreaksIn new_york_2024 [19793; 19791; 19792] mar_11_noon
  = mkStreaks 1 3.
Proof. repeat split. Qed.

(** In a zone of fixed offset and for a duplicate-free set of dates: with
    neither today nor yesterday completed the current streak is 0; with the
    anchor completed and no completed date after it, the current streak is
    the length [k >= 1] of the run that ends at the anchor. *)
Theorem current_streak_fixed_zone (tz : timezone) (S : list Z) (now : Z) :
  fixed_offset tz ->
  NoDup S ->
  let today := toISODate now in
  let a := if includes today S then today else today - 1 in
  let k := currentStreak (computeStreaksIn tz S now) in
  (~ In today S -> ~ In (today - 1) S -> k = 0) /\
  (In a S -> (forall x, In x S -> x <= a) ->
   1 <= k /\ run_back S a k /\ ~ In (a - k) S).
Proof.
  intros Hf Hnd today a k. subst k.
  rewrite computeStreaksIn_fixed by assumption.
  exact (current_streak_without_later_dates S today Hnd).
Qed.

(** In a zone of fixed offset, on a store that satisfies the constraints and
    with every completed day of the habit before today, marking today
    completed stores a current streak one higher than the streak of the days
    completed so far. *)
Theorem toggle_today_raises_current_streak_fixed_zone (tz : timezone)
    (habitId userId : nat) (date now : Z) (db db' : database)
    (row : Completion.t) :
  fixed_offset tz ->
  store_ok db ->
  toISODate date = toISODate now ->
  (forall x, In x (completed_dates habitId db) -> x < toISODate now) ->
  toggleHabitCompletionIn tz habitId userId date true now db = (Ok row, db') ->
  forall h, In h (habits db') -> Habit.id h = habitId ->
    Habit.current_streak h
    = currentStreak (computeStreaksIn tz (completed_dates habitId db) now) + 1.
Proof.
  intros Hf Hok Hday Hbefore Htoggle h Hin Hid.
  rewrite toggleIn_fixed in Htoggle by assumption.
  rewrite computeStreaksIn_fixed by assumption.
  exact (toggle_today_raises_on_days habitId userId date (toISODate now) db
           db' row Hok Hday Hbefore Htoggle h Hin Hid).
Qed.

(** ** The toggle and the owner of the habit *)

Lemma existsb_with_owner (owner : Habit.t -> nat) (habitId : nat)
    (db : database) :
  existsb (fun h => (Habit.id h =? habitId)%nat) (habits (with_owner owner db))
  = existsb (fun h => (Habit.id h =? habitId)%nat) (habits db).
Proof.
  unfold with_owner. cbn [habits].
  induction (habits db) as [|h l IH]; cbn [map existsb Habit.id];
    [reflexivity|now rewrite IH].
Qed.

(** On a store that satisfies the constraints a record under the key is
    overwritten by any caller: the toggle returns it with the requested
    flag. *)
Lemma toggleIn_overwrites (tz : timezone) (habitId userId : nat) (date : Z)
    (completed : bool) (now : Z) (db : database) (c : Completion.t) :
  store_ok db ->
  In c (habit_completions db) ->
  Completion.habit_id c = habitId ->
  Completion.completion_date c = toISODate date ->
  exists db',
    toggleHabitCompletionIn tz habitId userId date completed now db
    = (Ok (set_completed completed c), db').
Proof.
  intros (_ & Hc & Hu & _) Hin Hh Hd.
  assert (Hkey : In c (filter (same_key habitId (toISODate date))
                         (habit_completions db))).
  { apply filter_In. split; [assumption|]. unfold same_key.
    now rewrite Hh, Hd, Nat.eqb_refl, Z.eqb_refl. }
  rewrite toggleIn_unfold. cbn zeta.
  destruct (key_at_most_one (habit_completions db) habitId (toISODate date)
              Hc Hu) as [Hnone|(e & Hone)].
  - rewrite Hnone in Hkey. contradiction.
  - rewrite Hone in Hkey |- *. destruct Hkey as [->|[]].
    cbn [single]. unfold update_completion.
    rewrite (unique_id_filter _ _ Hc Hin). cbn [map single].
    now eexists.
Qed.

(** The toggle never compares the caller with the owner of the habit:
    whether it returns, the record it returns and the completion records it
    leaves are the same whoever owns the habits, and a record under the key
    (for a date of the years 0001 to 9999) is overwritten whoever calls.  On
    a store that satisfies the constraints it returns only if a habit with
    the given id exists, and a toggle that throws leaves the store as it
    was. *)
Theorem toggle_ignores_habit_owner (tz : timezone) (habitId userId : nat)
    (date : Z) (completed : bool) (now : Z) (owner : Habit.t -> nat)
    (db : database) :
  fst (toggleHabitCompletionIn tz habitId userId date completed now
         (with_owner owner db))
  = fst (toggleHabitCompletionIn tz habitId userId date completed now db) /\
  habit_completions
    (snd (toggleHabitCompletionIn tz habitId userId date completed now
            (with_owner owner db)))
  = habit_completions
      (snd (toggleHabitCompletionIn tz habitId userId date completed now db))
  /\
  (store_ok db ->
   forall row db',
     toggleHabitCompletionIn tz habitId userId date completed now db
     = (Ok row, db') ->
     exists h, In h (habits db) /\ Habit.id h = habitId) /\
  (forall message db',
     toggleHabitCompletionIn tz habitId userId date completed now db
     = (Err message, db') -> db' = db) /\
  (store_ok db -> four_digit_year (toISODate date) ->
   forall c, In c (habit_completions db) ->
     Completion.habit_id c = habitId ->
     Completion.completion_date c = toISODate date ->
     exists db',
       toggleHabitCompletionIn tz habitId userId date completed now db
       = (Ok (set_completed completed c), db')).
Proof.
  assert (Hsame :
    fst (toggleHabitCompletionIn tz habitId userId date completed now
           (with_owner owner db))
    = fst (toggleHabitCompletionIn tz habitId userId date completed now db) /\
    habit_completions
      (snd (toggleHabitCompletionIn tz habitId userId date completed now
              (with_owner owner db)))
    = habit_completions
        (snd (toggleHabitCompletionIn tz habitId userId date completed now
                db))).
  { rewrite !toggleIn_unfold. cbn zeta.
    replace (habit_completions (with_owner owner db))
      with (habit_completions db) by reflexivity.
    destruct (single _) as [e|m].
    - unfold update_completion.
      replace (habit_completions (with_owner owner db))
        with (habit_completions db) by reflexivity.
      destruct (single (map _ _)); split; reflexivity.
    - unfold insert_completion. rewrite existsb_with_owner.
      replace (habit_completions (with_owner owner db))
        with (habit_completions db) by reflexivity.
      destruct (negb _); [split; reflexivity|].
      destruct (existsb _ _); split; reflexivity. }
  destruct Hsame as [H1 H2].
  split; [exact H1|]. split; [exact H2|]. split; [|split].
  - intros Hok row db' Htoggle.
    destruct (toggleIn_ok _ _ _ _ _ _ 0 _ _ _ Htoggle) as (db1 & _ & Hutc).
    exact (proj1 (toggle_returns_for_stored_habit habitId userId date
                    completed 0 db) Hok _ _ Hutc).
  - intros message db' Htoggle.
    apply (toggleIn_err _ _ _ _ _ _ 0) in Htoggle.
    exact (proj2 (toggle_returns_for_stored_habit habitId userId date
                    completed 0 db) _ _ Htoggle).
  - intros Hok _ c. now apply toggleIn_overwrites.
Qed.

(** ** [getUserHabits] *)

(** With a representable window start the method is [getUserHabits] for the
    window that starts on that day. *)
Lemma getUserHabitsIn_eq (tz : timezone) (userId : nat) (q : Query.t)
    (now startDate : Z) (db : database) :
  window_start tz (Query.days q) now = Some startDate ->
  getUserHabitsIn tz userId q now db
  = getUserHabits userId (options_of q (toISODate now - startDate + 1))
      (toISODate now) db.
Proof.
  intros Hs.
  unfold getUserHabitsIn, getUserHabits, bind, await, select_habits, ret,
    throw.
  cbn beta iota zeta.
  cbn [options_of Options.days Options.filter Options.sortBy
       Options.sortOrder].
  rewrite Hs.
  replace (toISODate now - (toISODate now - startDate + 1) + 1)
    with startDate by lia.
  reflexivity.
Qed.

(** Without one, [toISOString] throws once the habits have been read: the
    method answers only a caller without habits. *)
Lemma getUserHabitsIn_invalid (tz : timezone) (userId : nat) (q : Query.t)
    (now : Z) (db : database) :
  window_start tz (Query.days q) now = None ->
  getUserHabitsIn tz userId q now db = (Ok [], db) \/
  getUserHabitsIn tz userId q now db = (Err "Invalid time value"%string, db).
Proof.
  intros Hs.
  unfold getUserHabitsIn, bind, await, select_habits, ret, throw.
  cbn beta iota zeta. rewrite Hs.
  destruct (order_rows _ _ _); [now left|now right].
Qed.

Lemma window_start_fixed (tz : timezone) (n now startDate : Z) :
  fixed_offset tz ->
  window_start tz (Some n) now = Some startDate ->
  startDate = toISODate now - n + 1.
Proof.
  intros Hf. unfold window_start, TimeClip.
  remember (1 - n) as m eqn:Em.
  rewrite setDate_shift_fixed by assumption.
  destruct (_ <=? _); [|discriminate].
  intros H. injection H as <-. rewrite toISODate_shift. lia.
Qed.

(** A negative window starts after today when the offsets of the zone are
    within a day of each other. *)
Lemma window_start_negative (tz : timezone) (n now startDate : Z) :
  offsets_within_a_day tz -> n < 0 ->
  window_start tz (Some n) now = Some startDate ->
  toISODate now < startDate.
Proof.
  intros Hoff Hn. unfold window_start, TimeClip.
  remember (1 - n) as m eqn:Em.
  destruct (_ <=? _); [|discriminate].
  intros H. injection H as <-.
  assert (Hge : now + 1 * msPerDay <= setDate_shift tz now m).
  { unfold setDate_shift, UTC, LocalTime.
    pose proof (Hoff now (now + offset_of_utc tz now + m * msPerDay))
      as Hb.
    rewrite msPerDay_value in *. lia. }
  apply toISODate_mono in Hge. rewrite toISODate_shift in Hge. lia.
Qed.

Lemma has_completed_record_spec (today : Z) (v : habit_view) :
  has_completed_record today v = true <->
  exists c, In c (recent_completions v) /\
            Completion.completion_date c = today /\
            Completion.completed c = true.
Proof.
  unfold has_completed_record. rewrite existsb_exists.
  split; intros (c & Hc & H); exists c; (split; [assumption|]).
  - apply andb_prop in H. now rewrite <- Z.eqb_eq.
  - apply andb_true_intro. now rewrite Z.eqb_eq.
Qed.

(** Claim C7: with the [completed_today] filter set to [b] and a window
    that starts on a date of the years 0001 to 9999, the method returns, and
    the habits it
    returns are exactly the caller's stored habits that pass the [category]
    and [is_archived] filters and for which the store holds, within the
    window, a record of the caller dated today (the UTC day of the clock)
    and marked completed (for [b = true]), or holds none (for [b = false]);
    each is returned with the records of its window. *)
Theorem completed_today_filter_in_store (tz : timezone) (userId : nat)
    (q : Query.t) (b : bool) (now startDate : Z) (db : database) :
  unique_completions (habit_completions db) ->
  Filter.completed_today (Query.filter q) = Some b ->
  window_start tz (Query.days q) now = Some startDate ->
  four_digit_year startDate ->
  let today := toISODate now in
  let selected := fun h =>
    In h (habits db) /\ Habit.user_id h = userId /\
    (forall c, truthy_string (Filter.category (Query.filter q)) = Some c ->
               Habit.category h = Some c) /\
    (forall a, Filter.is_archived (Query.filter q) = Some a ->
               Habit.is_archived h = a) in
  let in_window := fun (h : Habit.t) (c : Completion.t) =>
    In c (habit_completions db) /\
    Completion.habit_id c = Habit.id h /\
    Completion.user_id c = userId /\
    startDate <= Completion.completion_date c <= today in
  let completed_today := fun h =>
    exists c, in_window h c /\ Completion.completion_date c = today /\
              Completion.completed c = true in
  exists views,
    getUserHabitsIn tz userId q now db = (Ok views, db) /\
    (forall v, In v views ->
       selected (habit v) /\
       (forall c, In c (recent_completions v) <-> in_window (habit v) c) /\
       (completed_today (habit v) <-> b = true)) /\
    (forall h, selected h -> (completed_today h <-> b = true) ->
       exists v, In v views /\ habit v = h).
Proof.
  intros Huniq Hb Hs _ today selected in_window completed_today.
  rewrite (getUserHabitsIn_eq _ _ _ _ _ _ Hs). fold today.
  set (opts := options_of q (today - startDate + 1)).
  assert (Hopts : set_completed_today (Some b) opts = opts).
  { subst opts. unfold options_of, set_completed_today.
    destruct q as [d [c a ct] sb so]. cbn in Hb |- *. now subst ct. }
  destruct (completed_today_filter_exact userId opts b today db Huniq)
    as (views0 & Hall & Hfil).
  rewrite Hopts in Hfil.
  destruct (getUserHabits_selected _ _ _ _ _ _ Hall) as [Hsound Hcomplete].
  cbn [set_completed_today Options.filter Filter.category Filter.is_archived
       Filter.completed_today opts options_of] in Hsound, Hcomplete.
  specialize (Hcomplete eq_refl).
  assert (Hwin : forall v, In v views0 ->
            forall c, In c (recent_completions v) <-> in_window (habit v) c).
  { intros v Hv c.
    destruct (getUserHabits_window_records _ _ _ _ _ Hall v Hv) as [_ Hw].
    rewrite Hw. subst in_window. cbn beta.
    cbn [set_completed_today Options.days opts options_of].
    split; intros (H1 & H2 & H3 & H4); repeat split; try assumption; lia. }
  assert (Hrec : forall v, In v views0 ->
            has_completed_record today v = true <-> completed_today (habit v)).
  { intros v Hv. rewrite has_completed_record_spec. subst completed_today.
    cbn beta. split; intros (c & Hc & Hd & Hcc); exists c.
    - split; [now apply Hwin|]. now split.
    - split; [now apply Hwin|]. now split. }
  eexists. split; [exact Hfil|]. split.
  - intros v Hv. apply filter_In in Hv. destruct Hv as [Hv Heq].
    apply eqb_prop in Heq.
    split; [now apply Hsound|]. split; [now apply Hwin|].
    rewrite <- (Hrec v Hv), Heq. tauto.
  - intros h Hsel Hiff.
    destruct (Hcomplete h Hsel) as (v & Hv & Hh).
    exists v. split; [|assumption]. apply filter_In. split; [assumption|].
    rewrite <- Hh, <- (Hrec v Hv) in Hiff.
    destruct (has_completed_record today v), b; try reflexivity; exfalso.
    + destruct Hiff as [Hiff _]. specialize (Hiff eq_refl). discriminate.
    + destruct Hiff as [_ Hiff]. specialize (Hiff eq_refl). discriminate.
Qed.

(** Claim C8 as stated fails: a call with an unknown sort key and a negative
    window is answered, not rejected. *)
Lemma getUserHabitsIn_bad_input_answered :
  Query.sortBy bad_query <> "title"%string /\
  Query.sortBy bad_query <> "current_streak"%string /\
  Query.sortBy bad_query <> "created_at"%string /\
  Query.days bad_query = Some (-3) /\ -3 < 0 /\
  getUserHabitsIn utc_zone 7 bad_query morning_100 sample_db
  = (Ok [mkView habit_exercise []; mkView habit_read []], sample_db) /\
  ~ (exists message,
       fst (getUserHabitsIn utc_zone 7 bad_query morning_100 sample_db)
       = Err message).
Proof.
  repeat split; try discriminate.
  intros (message & H). discriminate H.
Qed.

(** Claim C8, as the code has it.  A sort key other than [title] and
    [current_streak] is not rejected: the call is answered as with the key
    [created_at].  A negative window size is not rejected either: while the
    window starts on a date of the years 0001 to 9999 the call is answered
    with the caller's habits that pass the filters, every one with an empty
    recent history. *)
Theorem getUserHabitsIn_unchecked_sort_key_and_window (tz : timezone)
    (userId : nat) (q : Query.t) (now : Z) (db : database) :
  (Query.sortBy q <> "title"%string ->
   Query.sortBy q <> "current_streak"%string ->
   getUserHabitsIn tz userId q now db
   = getUserHabitsIn tz userId (with_sortBy "created_at" q) now db) /\
  (forall n startDate,
     Query.days q = Some n -> n < 0 ->
     offsets_within_a_day tz ->
     window_start tz (Some n) now = Some startDate ->
     four_digit_year startDate ->
     let selected := fun h =>
       In h (habits db) /\ Habit.user_id h = userId /\
       (forall c, truthy_string (Filter.category (Query.filter q)) = Some c ->
                  Habit.category h = Some c) /\
       (forall a, Filter.is_archived (Query.filter q) = Some a ->
                  Habit.is_archived h = a) in
     exists views,
       getUserHabitsIn tz userId q now db = (Ok views, db) /\
       (forall v, In v views ->
          selected (habit v) /\ recent_completions v = []) /\
       (Filter.completed_today (Query.filter q) = None ->
        forall h, selected h -> exists v, In v views /\ habit v = h)).
Proof.
  split.
  - intros H1 H2. unfold getUserHabitsIn.
    cbn [with_sortBy Query.filter Query.sortBy Query.sortOrder Query.days].
    now rewrite (sort_column_default _ H1 H2).
  - intros n startDate Hd Hn Hoff Hs _ selected.
    pose proof (window_start_negative _ _ _ _ Hoff Hn Hs) as Hlate.
    rewrite <- Hd in Hs. rewrite (getUserHabitsIn_eq _ _ _ _ _ _ Hs).
    destruct (getUserHabits_ok userId
                (options_of q (toISODate now - startDate + 1))
                (toISODate now) db) as (views & Hget).
    destruct (getUserHabits_selected _ _ _ _ _ _ Hget) as [Hsound Hcomplete].
    cbn [options_of Options.filter] in Hsound, Hcomplete.
    exists views. split; [exact Hget|]. split; [|exact Hcomplete].
    intros v Hv. split; [now apply Hsound|].
    rewrite (getUserHabits_window _ _ _ _ _ Hget v Hv).
    rewrite (filter_all_false _ (habit_completions db)); [reflexivity|].
    intros c. apply not_true_is_false. intros Hc.
    apply andb_prop in Hc. destruct Hc as [Hc Hle].
    apply andb_prop in Hc. destruct Hc as [_ Hge].
    apply Z.leb_le in Hle, Hge.
    cbn [options_of Options.days] in Hge. lia.
Qed.

(** For every habit the method returns, the start of the window is a
    representable date, the UTC day of the instant [days - 1] local days
    before the clock, and the recent history holds exactly the caller's
    records of that habit dated from that day to today, newest first.  In a
    zone of fixed offset the window starts on day [today - days + 1]. *)
Theorem getUserHabitsIn_recent_window (tz : timezone) (userId : nat)
    (q : Query.t) (now : Z) (db db' : database) (views : list habit_view) :
  getUserHabitsIn tz userId q now db = (Ok views, db') ->
  forall v, In v views ->
    exists startDate,
      window_start tz (Query.days q) now = Some startDate /\
      StronglySorted
        (fun a b => Completion.completion_date b <= Completion.completion_date a)
        (recent_completions v) /\
      (forall c, In c (recent_completions v) <->
                 In c (habit_completions db) /\
                 Completion.habit_id c = Habit.id (habit v) /\
                 Completion.user_id c = userId /\
                 startDate <= Completion.completion_date c <= toISODate now)
      /\
      (fixed_offset tz ->
       forall n, Query.days q = Some n -> startDate = toISODate now - n + 1).
Proof.
  intros Hget v Hv.
  destruct (window_start tz (Query.days q) now) as [startDate|] eqn:Hs.
  - exists startDate. split; [reflexivity|].
    rewrite (getUserHabitsIn_eq _ _ _ _ _ _ Hs) in Hget.
    destruct (getUserHabits_ok userId
                (options_of q (toISODate now - startDate + 1))
                (toISODate now) db) as (views' & Hok).
    assert (Hsame : views' = views /\ db = db').
    { rewrite Hok in Hget. now injection Hget as -> ->. }
    destruct Hsame as [-> <-].
    destruct (getUserHabits_window_records _ _ _ _ _ Hok v Hv) as [Hsorted Hw].
    split; [exact Hsorted|]. split.
    + intros c. rewrite Hw. cbn [options_of Options.days].
      split; intros (H1 & H2 & H3 & H4); repeat split; try assumption; lia.
    + intros Hf n Hn. rewrite Hn in Hs.
      now apply (window_start_fixed tz n now).
  - exfalso.
    destruct (getUserHabitsIn_invalid tz userId q now db Hs) as [H|H];
      rewrite H in Hget; [|discriminate].
    injection Hget as <- _. contradiction.
Qed.

(** ** Worked instances in a time zone *)

(** The two values of the [completed_today] filter split the caller's
    habits: habit 1 has day 100 completed, habit 2 has a record of day 100
    that is not completed. *)
Example completed_today_splits :
  getUserHabitsIn new_york_2024 7 (completed_today_query true) morning_100
    sample_db
  = (Ok [mkView habit_read
           [Completion.mk 2 1 7 100 true; Completion.mk 1 1 7 99 true]],
     sample_db) /\
  getUserHabitsIn new_york_2024 7 (completed_today_query false) morning_100
    sample_db
  = (Ok [mkView habit_exercise
           [Completion.mk 3 2 7 100 false; Completion.mk 4 2 7 98 true]],
     sample_db).
Proof. split; reflexivity. Qed.

(** A window whose start is no date: [toISOString] throws once the habits of
    the caller have been read; a caller without habits is answered. *)
Example window_without_start :
  window_start utc_zone (Query.days huge_query) morning_100 = None /\
  getUserHabitsIn utc_zone 7 huge_query morning_100 sample_db
  = (Err "Invalid time value"%string, sample_db) /\
  getUserHabitsIn utc_zone 7 nan_query morning_100 sample_db
  = (Err "Invalid time value"%string, sample_db) /\
  getUserHabitsIn utc_zone 9 nan_query morning_100 sample_db
  = (Ok [], sample_db).
Proof. repeat split. Qed.

(** In New York on the evening of 2024-11-03 a window of two days starts on
    11-02 and holds three days of records. *)
Example window_after_dst_change :
  window_start new_york_2024 (Some 2) nov_4_0030 = Some (20031 - 2) /\
  getUserHabitsIn new_york_2024 7 two_days_query nov_4_0030 november_db
  = (Ok [mkView habit_read
           [Completion.mk 3 1 7 20031 true; Completion.mk 2 1 7 20030 false;
            Completion.mk 1 1 7 20029 true]],
     november_db).
Proof. split; reflexivity. Qed.

(** ** Instances of the theorems in a time zone *)

Lemma completed_today_filter_in_store_witness :
  let q := completed_today_query true in
  let today := toISODate morning_100 in
  let selected := fun h =>
    In h (habits sample_db) /\ Habit.user_id h = 7%nat /\
    (forall c, truthy_string (Filter.category (Query.filter q)) = Some c ->
               Habit.category h = Some c) /\
    (forall a, Filter.is_archived (Query.filter q) = Some a ->
               Habit.is_archived h = a) in
  let in_window := fun (h : Habit.t) (c : Completion.t) =>
    In c (habit_completions sample_db) /\
    Completion.habit_id c = Habit.id h /\
    Completion.user_id c = 7%nat /\
    87 <= Completion.completion_date c <= today in
  let completed_today := fun h =>
    exists c, in_window h c /\ Completion.completion_date c = today /\
              Completion.completed c = true in
  unique_completions (habit_completions sample_db) /\
  Filter.completed_today (Query.filter q) = Some true /\
  window_start new_york_2024 (Query.days q) morning_100 = Some 87 /\
  four_digit_year 87 /\
  exists views,
    getUserHabitsIn new_york_2024 7 q morning_100 sample_db
    = (Ok views, sample_db) /\
    (forall v, In v views ->
       selected (habit v) /\
       (forall c, In c (recent_completions v) <-> in_window (habit v) c) /\
       (completed_today (habit v) <-> true = true)) /\
    (forall h, selected h -> (completed_today h <-> true = true) ->
       exists v, In v views /\ habit v = h).
Proof.
  intros q today selected in_window completed_today.
  assert (H1 : Filter.completed_today (Query.filter q) = Some true)
    by reflexivity.
  assert (H2 : window_start new_york_2024 (Query.days q) morning_100
               = Some 87) by reflexivity.
  assert (H3 : four_digit_year 87) by (split; discriminate).
  split; [exact sample_db_unique|]. split; [exact H1|]. split; [exact H2|].
  split; [exact H3|].
  exact (completed_today_filter_in_store new_york_2024 7 q true morning_100
           87 sample_db sample_db_unique H1 H2 H3).
Defined.

Lemma getUserHabitsIn_unchecked_sort_key_and_window_witness :
  let selected := fun h =>
    In h (habits sample_db) /\ Habit.user_id h = 7%nat /\
    (forall c,
       truthy_string (Filter.category (Query.filter bad_query)) = Some c ->
       Habit.category h = Some c) /\
    (forall a, Filter.is_archived (Query.filter bad_query) = Some a ->
               Habit.is_archived h = a) in
  Query.sortBy bad_query <> "title"%string /\
  Query.sortBy bad_query <> "current_streak"%string /\
  Query.days bad_query = Some (-3) /\ -3 < 0 /\
  offsets_within_a_day new_york_2024 /\
  window_start new_york_2024 (Some (-3)) morning_100 = Some 104 /\
  four_digit_year 104 /\
  getUserHabitsIn new_york_2024 7 bad_query morning_100 sample_db
  = getUserHabitsIn new_york_2024 7 (with_sortBy "created_at" bad_query)
      morning_100 sample_db /\
  exists views,
    getUserHabitsIn new_york_2024 7 bad_query morning_100 sample_db
    = (Ok views, sample_db) /\
    (forall v, In v views ->
       selected (habit v) /\ recent_completions v = []) /\
    (Filter.completed_today (Query.filter bad_query) = None ->
     forall h, selected h -> exists v, In v views /\ habit v = h).
Proof.
  intros selected.
  assert (H1 : Query.sortBy bad_query <> "title"%string) by discriminate.
  assert (H2 : Query.sortBy bad_query <> "current_streak"%string)
    by discriminate.
  assert (H3 : Query.days bad_query = Some (-3)) by reflexivity.
  assert (H4 : -3 < 0) by reflexivity.
  assert (H5 : window_start new_york_2024 (Some (-3)) morning_100 = Some 104)
    by reflexivity.
  assert (H6 : four_digit_year 104) by (split; discriminate).
  split; [exact H1|]. split; [exact H2|]. split; [exact H3|].
  split; [exact H4|]. split; [exact new_york_offsets|]. split; [exact H5|].
  split; [exact H6|]. split.
  - exact (proj1 (getUserHabitsIn_unchecked_sort_key_and_window new_york_2024
                    7 bad_query morning_100 sample_db) H1 H2).
  - exact (proj2 (getUserHabitsIn_unchecked_sort_key_and_window new_york_2024
                    7 bad_query morning_100 sample_db)
             (-3) 104 H3 H4 new_york_offsets H5 H6).
Defined.

Lemma complete_today_extends_streak_fixed_zone_witness :
  fixed_offset kolkata /\
  NoDup [98; 99] /\ (forall x, In x [98; 99] -> x < toISODate morning_100) /\
  currentStreak
    (computeStreaksIn kolkata (toISODate morning_100 :: [98; 99]) morning_100)
  = currentStreak (computeStreaksIn kolkata [98; 99] morning_100) + 1.
Proof.
  assert (H1 : NoDup [98; 99]) by (repeat constructor; simpl; lia).
  assert (H2 : forall x, In x [98; 99] -> x < toISODate morning_100)
    by (intros x [<-|[<-|[]]]; reflexivity).
  split; [exact (fixed_zone_fixed _)|]. split; [exact H1|].
  split; [exact H2|].
  exact (complete_today_extends_streak_fixed_zone kolkata _ morning_100
           (fixed_zone_fixed _) H1 H2).
Defined.

Lemma current_streak_fixed_zone_witness :
  fixed_offset kolkata /\
  (NoDup [97] /\ ~ In 100 [97] /\ ~ In (100 - 1) [97] /\
   currentStreak (computeStreaksIn kolkata [97] morning_100) = 0) /\
  (NoDup sample_dates /\
   In 100 sample_dates /\ (forall x, In x sample_dates -> x <= 100) /\
   currentStreak (computeStreaksIn kolkata sample_dates morning_100) = 3 /\
   1 <= currentStreak (computeStreaksIn kolkata sample_dates morning_100) /\
   run_back sample_dates 100
     (currentStreak (computeStreaksIn kolkata sample_dates morning_100)) /\
   ~ In (100 - currentStreak
                 (computeStreaksIn kolkata sample_dates morning_100))
       sample_dates).
Proof.
  assert (H0 : NoDup [97]) by (repeat constructor; simpl; lia).
  assert (K1 : ~ In 100 [97]) by (intros [H|[]]; discriminate).
  assert (K2 : ~ In (100 - 1) [97]) by (intros [H|[]]; discriminate).
  assert (H1 : In 100 sample_dates) by (right; left; reflexivity).
  assert (H2 : forall x, In x sample_dates -> x <= 100).
  { intros x Hx. unfold sample_dates in Hx. simpl in Hx.
    repeat (destruct Hx as [<-|Hx]); try contradiction; lia. }
  split; [exact (fixed_zone_fixed _)|]. split.
  - split; [exact H0|]. split; [exact K1|]. split; [exact K2|].
    exact (proj1 (current_streak_fixed_zone kolkata [97] morning_100
                    (fixed_zone_fixed _) H0) K1 K2).
  - split; [exact sample_dates_NoDup|]. split; [exact H1|].
    split; [exact H2|]. split; [reflexivity|].
    exact (proj2 (current_streak_fixed_zone kolkata sample_dates morning_100
                    (fixed_zone_fixed _) sample_dates_NoDup) H1 H2).
Defined.

Lemma toggle_today_raises_current_streak_fixed_zone_witness :
  let now := getTime 101 + 5000 in
  let out := toggleHabitCompletionIn kolkata 1 7 (getTime 101) true now
               sample_db in
  let h := Habit.mk 1 7 "Read" (Some "Mind"%string) false 3 3 10 in
  fixed_offset kolkata /\
  store_ok sample_db /\
  toISODate (getTime 101) = toISODate now /\
  (forall x, In x (completed_dates 1 sample_db) -> x < toISODate now) /\
  out = (Ok (Completion.mk 5 1 7 101 true), snd out) /\
  In h (habits (snd out)) /\ Habit.id h = 1%nat /\
  currentStreak (computeStreaksIn kolkata (completed_dates 1 sample_db) now)
  = 2 /\
  Habit.current_streak h
  = currentStreak (computeStreaksIn kolkata (completed_dates 1 sample_db) now)
    + 1.
Proof.
  intros now out h.
  assert (H1 : toISODate (getTime 101) = toISODate now) by reflexivity.
  assert (H2 : forall x, In x (completed_dates 1 sample_db) ->
                         x < toISODate now)
    by (intros x [<-|[<-|[]]]; reflexivity).
  assert (H3 : out = (Ok (Completion.mk 5 1 7 101 true), snd out))
    by reflexivity.
  assert (H4 : In h (habits (snd out))) by (left; reflexivity).
  assert (H5 : Habit.id h = 1%nat) by reflexivity.
  split; [exact (fixed_zone_fixed _)|].
  split; [exact sample_db_ok|]. split; [exact H1|]. split; [exact H2|].
  split; [exact H3|]. split; [exact H4|]. split; [exact H5|].
  split; [reflexivity|].
  exact (toggle_today_raises_current_streak_fixed_zone kolkata 1 7
           (getTime 101) now sample_db (snd out) _ (fixed_zone_fixed _)
           sample_db_ok H1 H2 H3 h H4 H5).
Defined.

Lemma getUserHabitsIn_recent_window_witness :
  let day := Completion.completion_date in
  let out1 := getUserHabitsIn new_york_2024 7 two_days_query nov_4_0030
                november_db in
  let views1 := match fst out1 with Ok v => v | Err _ => [] end in
  let v1 := mkView habit_read
              [Completion.mk 3 1 7 20031 true;
               Completion.mk 2 1 7 20030 false;
               Completion.mk 1 1 7 20029 true] in
  let out2 := getUserHabitsIn kolkata 7 two_days_query nov_4_0030
                november_db in
  let views2 := match fst out2 with Ok v => v | Err _ => [] end in
  let v2 := mkView habit_read
              [Completion.mk 3 1 7 20031 true;
               Completion.mk 2 1 7 20030 false] in
  (out1 = (Ok views1, november_db) /\ In v1 views1 /\
   window_start new_york_2024 (Query.days two_days_query) nov_4_0030
   = Some 20029 /\
   exists startDate,
     window_start new_york_2024 (Query.days two_days_query) nov_4_0030
     = Some startDate /\
     StronglySorted (fun a b => day b <= day a) (recent_completions v1) /\
     (forall c, In c (recent_completions v1) <->
                In c (habit_completions november_db) /\
                Completion.habit_id c = Habit.id (habit v1) /\
                Completion.user_id c = 7%nat /\
                startDate <= day c <= toISODate nov_4_0030)) /\
  (out2 = (Ok views2, november_db) /\ In v2 views2 /\
   fixed_offset kolkata /\ Query.days two_days_query = Some 2 /\
   exists startDate,
     startDate = toISODate nov_4_0030 - 2 + 1 /\
     StronglySorted (fun a b => day b <= day a) (recent_completions v2) /\
     (forall c, In c (recent_completions v2) <->
                In c (habit_completions november_db) /\
                Completion.habit_id c = Habit.id (habit v2) /\
                Completion.user_id c = 7%nat /\
                startDate <= day c <= toISODate nov_4_0030)).
Proof.
  intros day out1 views1 v1 out2 views2 v2.
  assert (H1 : out1 = (Ok views1, november_db)) by reflexivity.
  assert (H2 : In v1 views1) by (left; reflexivity).
  assert (K1 : out2 = (Ok views2, november_db)) by reflexivity.
  assert (K2 : In v2 views2) by (left; reflexivity).
  split.
  - split; [exact H1|]. split; [exact H2|]. split; [reflexivity|].
    destruct (getUserHabitsIn_recent_window new_york_2024 7 two_days_query
                nov_4_0030 november_db november_db views1 H1 v1 H2)
      as (startDate & Hs & Hsorted & Hw & _).
    exists startDate. split; [exact Hs|]. split; [exact Hsorted|exact Hw].
  - split; [exact K1|]. split; [exact K2|].
    split; [exact (fixed_zone_fixed _)|]. split; [reflexivity|].
    destruct (getUserHabitsIn_recent_window kolkata 7 two_days_query
                nov_4_0030 november_db november_db views2 K1 v2 K2)
      as (startDate & Hs & Hsorted & Hw & Hfix).
    exists startDate.
    split; [exact (Hfix (fixed_zone_fixed _) 2 eq_refl)|].
    split; [exact Hsorted|exact Hw].
Defined.

Lemma toggle_ignores_habit_owner_witness :
  let other := fun _ : Habit.t => 8%nat in
  let out := toggleHabitCompletionIn new_york_2024 1 7 (getTime 98) true
               morning_100 sample_db in
  let out' := toggleHabitCompletionIn new_york_2024 1 7 (getTime 98) true
                morning_100 (with_owner other sample_db) in
  let c := Completion.mk 2 1 7 100 true in
  map Habit.user_id (habits sample_db) = [7; 7; 8]%nat /\
  map Habit.user_id (habits (with_owner other sample_db)) = [8; 8; 8]%nat /\
  store_ok sample_db /\
  out = (Ok (Completion.mk 5 1 7 98 true), snd out) /\
  fst out' = fst out /\
  habit_completions (snd out') = habit_completions (snd out) /\
  (exists h, In h (habits sample_db) /\ Habit.id h = 1%nat) /\
  In c (habit_completions sample_db) /\
  Completion.habit_id c = 1%nat /\
  Completion.completion_date c = toISODate morning_100 /\
  four_digit_year (toISODate morning_100) /\
  exists db',
    toggleHabitCompletionIn new_york_2024 1 8 morning_100 false morning_100
      sample_db
    = (Ok (Completion.mk 2 1 7 100 false), db').
Proof.
  intros other out out' c.
  assert (Hout : out = (Ok (Completion.mk 5 1 7 98 true), snd out))
    by reflexivity.
  assert (Hc : In c (habit_completions sample_db))
    by (right; left; reflexivity).
  assert (Hh : Completion.habit_id c = 1%nat) by reflexivity.
  assert (Hd : Completion.completion_date c = toISODate morning_100)
    by reflexivity.
  destruct (toggle_ignores_habit_owner new_york_2024 1 7 (getTime 98) true
              morning_100 other sample_db) as (H1 & H2 & H3 & _).
  destruct (toggle_ignores_habit_owner new_york_2024 1 8 morning_100 false
              morning_100 other sample_db) as (_ & _ & _ & _ & H5).
  split; [reflexivity|]. split; [reflexivity|].
  split; [exact sample_db_ok|]. split; [exact Hout|].
  split; [exact H1|]. split; [exact H2|].
  split; [exact (H3 sample_db_ok _ _ Hout)|].
  assert (Hy : four_digit_year (toISODate morning_100))
    by (split; discriminate).
  split; [exact Hc|]. split; [exact Hh|]. split; [exact Hd|].
  split; [exact Hy|].
  exact (H5 sample_db_ok Hy c Hc Hh Hd).
Defined.
